(** * web_dashboard.py: the administrative dashboard of the face door system

    A shallow embedding of the Flask handlers of [web_dashboard.py] and the
    properties of its registration, deletion, listing and log routes.

    The handlers run in a state-and-exception monad over a [World] that
    holds the [known_faces] directory, the files outside it that a path
    built from a form field can reach, and the history of calls made to the
    external collaborators ([db_manager], [face_recognition]).  What the
    collaborators answer, which operating-system calls fail and where a path
    with a [/] in it leads is decided by an environment [Env] the handlers
    are parameterised by. *)

From Stdlib Require Import Ascii ZArith Lia.
From stdpp Require Import base option list strings gmap.

(** ** Python's [str] methods used by the module *)

Module Py.

(** [s.startswith(p)] *)
Definition startswith (p s : string) : bool := String.prefix p s.

(** [s.endswith(p)]: [s] is [p], or what follows its first character
    ends with [p]. *)
Fixpoint endswith (p s : string) : bool :=
  String.eqb s p
  || match s with
     | EmptyString => false
     | String _ s' => endswith p s'
     end.

(** [c in s] for a one-character [c] *)
Fixpoint contains (c : ascii) (s : string) : bool :=
  match s with
  | EmptyString => false
  | String a s' => Ascii.eqb a c || contains c s'
  end.

(** [s.split(c)] for a one-character separator: never the empty list. *)
Fixpoint split (c : ascii) (s : string) : list string :=
  match s with
  | EmptyString => [EmptyString]
  | String a s' =>
      if Ascii.eqb a c then EmptyString :: split c s'
      else match split c s' with
           | [] => [String a EmptyString]
           | p :: ps => String a p :: ps
           end
  end.

(** [sep.join(parts)] *)
Definition join (sep : string) (parts : list string) : string :=
  String.concat sep parts.

(** [parts[:-1]] *)
Definition but_last {A} (parts : list A) : list A := removelast parts.

(** [s.replace(old, new)] for a non-empty [old]: every occurrence, left to
    right, without overlaps.  [skip] counts the characters of an occurrence
    that are still to be dropped. *)
Fixpoint replace_go (old new : string) (skip : nat) (s : string) : string :=
  match s with
  | EmptyString => EmptyString
  | String a s' =>
      match skip with
      | S k => replace_go old new k s'
      | O => if String.prefix old s
             then new +:+ replace_go old new (String.length old - 1) s'
             else String a (replace_go old new 0 s')
      end
  end.

Definition replace (old new s : string) : string := replace_go old new 0 s.

(** Truthiness of an optional string: [None] and [''] are falsy. *)
Definition truthy (o : option string) : bool :=
  match o with
  | Some (String _ _) => true
  | _ => false
  end.

End Py.


(** ** Data model *)

(** A numpy array, by the bit patterns of its components.  The module never
    computes with one: it passes pixel arrays to the encoder and saves the
    encoding the encoder returns. *)
Definition ndarray := list Z.

(** What a file of [known_faces] holds: the raw bytes written by
    [f.write(image_bytes)], or the array written by [np.save]. *)
Inductive content :=
  | Bytes (b : string)
  | Npy (a : ndarray).

(** A raised exception, by its [str(e)]. *)
Inductive exn := Exn (msg : string).

Definition str (e : exn) : string := let 'Exn msg := e in msg.

Inductive result (A : Type) :=
  | Ok (a : A)
  | Raise (e : exn).
Arguments Ok {A} a.
Arguments Raise {A} e.

(** Rows of [db_manager.get_all_users()]:
    [(id, name, created_at, last_seen, access_count)]. *)
Record user_row := {
  ur_id : Z;
  ur_name : string;
  ur_created_at : option string;
  ur_last_seen : option string;
  ur_access_count : Z }.

(** Rows of [db_manager.get_recent_access_logs(limit)]:
    [(id, timestamp, event_type, person_name)]. *)
Record log_row := {
  lr_id : Z;
  lr_timestamp : string;
  lr_event_type : string;
  lr_person_name : option string }.

(** Calls to the external collaborators, as the handlers make them. *)
Inductive call :=
  | db_add_user (name : string)
  | db_delete_user (name : string)
  | db_get_all_users
  | db_get_recent_access_logs (limit : nat)
  | face_recognition_face_encodings (image_array : ndarray).

(** The operating-system calls that can fail for reasons of their own. *)
Inductive syscall :=
  | Makedirs
  | Listdir
  | OpenWrite (file : string)
  | Remove (file : string)
  | NpSave (file : string).

(** Where [os.path.join(KNOWN_FACES_DIR, file)] leads: to the entry of the
    directory of a given name, or to a file outside the directory (another
    directory, a subdirectory), named by its resolved path. *)
Inductive target :=
  | Entry (f : string)
  | Elsewhere (p : string).

#[global] Instance target_eq_dec : EqDecision target.
Proof. solve_decision. Defined.

(** The environment: what the external libraries compute, which calls raise,
    what the database answers after a given history of calls, and where the
    file system takes a path that has a [/] after [KNOWN_FACES_DIR]
    ([../x_1.jpg], [/tmp/x_1.jpg], [../known_faces/alice_1.jpg]). *)
Record Env := {
  b64decode : string → result string;
  image_open : content → result ndarray;
  face_encodings : ndarray → result (list ndarray);
  os_fault : syscall → option exn;
  db_fault : list call → call → option exn;
  db_users : list call → list user_row;
  db_logs : list call → nat → list log_row;
  resolve : string → target }.

(** The state the handlers act on: the directory [KNOWN_FACES_DIR] ([None]
    when it does not exist), with its entries by name as [os.listdir]
    returns them; the calls made so far, oldest first; and the files
    outside the directory, by resolved path. *)
Record World := {
  known_faces : option (gmap string content);
  calls : list call;
  elsewhere : gmap string content }.

Definition files (w : World) : gmap string content :=
  default ∅ (known_faces w).

(** A JSON body built by [jsonify]: [status], [message] and, for
    [/add_user], [user_name]. *)
Record reply := {
  status : string;
  message : string;
  user_name : option string }.

Definition error (msg : string) : reply :=
  {| status := "error"; message := msg; user_name := None |}.

Definition success (msg : string) : reply :=
  {| status := "success"; message := msg; user_name := None |}.

(** An entry of the listing built by [get_registered_users]. *)
Record user := {
  u_name : string;
  u_trained : bool;
  u_created_at : option string;
  u_last_seen : option string;
  u_access_count : Z }.

(** An entry of [/logs]. *)
Record log_entry := {
  timestamp : string;
  event : string;
  person : string }.

(** A page rendered by [render_template(template, users=users)]. *)
Record page := {
  template : string;
  page_users : list user }.

(** ** The monad of the handlers: state and exceptions *)

Definition M (A : Type) : Type := World → result A * World.

Definition ret {A} (a : A) : M A := λ w, (Ok a, w).

Definition raise {A} (e : exn) : M A := λ w, (Raise e, w).

Definition bind {A B} (m : M A) (k : A → M B) : M B :=
  λ w, match m w with
       | (Ok a, w') => k a w'
       | (Raise e, w') => (Raise e, w')
       end.

(** [try: m except Exception as e: h e] *)
Definition try_except {A} (m : M A) (h : exn → M A) : M A :=
  λ w, match m w with
       | (Ok a, w') => (Ok a, w')
       | (Raise e, w') => h e w'
       end.

Notation "'let*' x ':=' m 'in' k" := (bind m (λ x, k))
  (at level 10, x name, m at level 100, k at level 200, only parsing).

(** [for x in xs: body x] *)
Fixpoint for_each {A} (xs : list A) (body : A → M unit) : M unit :=
  match xs with
  | [] => ret tt
  | x :: xs' => let* _ := body x in for_each xs' body
  end.

Definition KNOWN_FACES_DIR : string := "known_faces".

(** ** Operating-system and collaborator calls *)

Section Handlers.

Context (E : Env).

Definition with_dir (w : World) (d : gmap string content) : World :=
  {| known_faces := Some d; calls := calls w; elsewhere := elsewhere w |}.

Definition with_elsewhere (w : World) (o : gmap string content) : World :=
  {| known_faces := known_faces w; calls := calls w; elsewhere := o |}.

Definition record_call (c : call) (w : World) : World :=
  {| known_faces := known_faces w; calls := calls w ++ [c];
     elsewhere := elsewhere w |}.

(** An operating-system call [op] that needs the directory to exist. *)
Definition in_dir {A} (op : syscall)
    (f : gmap string content → World → result A * World) : M A :=
  λ w, match os_fault E op with
       | Some e => (Raise e, w)
       | None =>
           match known_faces w with
           | None => (Raise (Exn "FileNotFoundError"), w)
           | Some d => f d w
           end
       end.

(** [os.path.exists(KNOWN_FACES_DIR)] *)
Definition os_path_exists_dir : M bool :=
  λ w, (Ok (bool_decide (is_Some (known_faces w))), w).

(** [os.makedirs(KNOWN_FACES_DIR)] *)
Definition os_makedirs : M unit :=
  λ w, match os_fault E Makedirs with
       | Some e => (Raise e, w)
       | None =>
           match known_faces w with
           | Some _ => (Raise (Exn "FileExistsError"), w)
           | None => (Ok tt, with_dir w ∅)
           end
       end.

(** [os.listdir(KNOWN_FACES_DIR)] *)
Definition os_listdir : M (list string) :=
  in_dir Listdir (λ d w, (Ok (map_to_list d).*1, w)).

(** [os.remove(os.path.join(KNOWN_FACES_DIR, file))] for a [file] that
    [os.listdir(KNOWN_FACES_DIR)] returned: the entry of that name. *)
Definition os_remove (file : string) : M unit :=
  in_dir (Remove file)
    (λ d w, match d !! file with
            | None => (Raise (Exn "FileNotFoundError"), w)
            | Some _ => (Ok tt, with_dir w (delete file d))
            end).

(** *** Paths built from a form field

    Lines 79, 106 and 131 join [KNOWN_FACES_DIR] with a file name made from
    the [name] field, which nothing checks.  On a POSIX system, a file name
    without [/] is the entry of that name.  One with a [/] leads where the
    file system says ([resolve]): out of the directory, or back into it onto
    an entry of another name.  A path through a directory that is not there
    makes the call that uses it raise, which is one of the failures of
    [os_fault]. *)

(** No [/] in [file]. *)
Definition plain (file : string) : bool := negb (Py.contains "/" file).

(** Where [os.path.join(KNOWN_FACES_DIR, file)] leads when it leads
    somewhere. *)
Definition place (file : string) : target :=
  if plain file then Entry file else resolve E file.

(** [os.path.join] drops [KNOWN_FACES_DIR] before an absolute [file]; any
    other path goes through the directory, which has to exist. *)
Definition locate (w : World) (file : string) : option target :=
  if Py.startswith "/" file || bool_decide (is_Some (known_faces w))
  then Some (place file)
  else None.

(** What is stored at a target. *)
Definition content_at (w : World) (t : target) : option content :=
  match t with
  | Entry f => files w !! f
  | Elsewhere p => elsewhere w !! p
  end.

(** The file [os.path.join(KNOWN_FACES_DIR, file)], if there is one. *)
Definition lookup_path (w : World) (file : string) : option content :=
  match locate w file with
  | Some t => content_at w t
  | None => None
  end.

(** The world with [c] stored at a target, and with nothing stored there. *)
Definition put (t : target) (c : content) (w : World) : World :=
  match t with
  | Entry f => with_dir w (<[f := c]> (files w))
  | Elsewhere p => with_elsewhere w (<[p := c]> (elsewhere w))
  end.

Definition unlink (t : target) (w : World) : World :=
  match t with
  | Entry f => with_dir w (delete f (files w))
  | Elsewhere p => with_elsewhere w (delete p (elsewhere w))
  end.

(** Creating or overwriting the file of a path: the call [op] that does it
    may raise for reasons of its own (a missing directory on the way, a
    permission), and raises when [KNOWN_FACES_DIR], which the path goes
    through, does not exist. *)
Definition write_path (op : syscall) (file : string) (c : content) : M unit :=
  λ w, match os_fault E op with
       | Some e => (Raise e, w)
       | None =>
           match locate w file, known_faces w with
           | Some (Entry f), Some _ => (Ok tt, put (Entry f) c w)
           | Some (Elsewhere p), _ => (Ok tt, put (Elsewhere p) c w)
           | _, _ => (Raise (Exn "FileNotFoundError"), w)
           end
       end.

(** [os.path.exists(os.path.join(KNOWN_FACES_DIR, file))] *)
Definition os_path_exists (file : string) : M bool :=
  λ w, (Ok (bool_decide (is_Some (lookup_path w file))), w).

(** [with open(os.path.join(KNOWN_FACES_DIR, file), "wb") as f:
       f.write(image_bytes)] *)
Definition open_write (file : string) (image_bytes : string) : M unit :=
  write_path (OpenWrite file) file (Bytes image_bytes).

(** [os.remove(os.path.join(KNOWN_FACES_DIR, file))] for a [file] made from
    the [name] field (line 91). *)
Definition os_remove_path (file : string) : M unit :=
  λ w, match os_fault E (Remove file) with
       | Some e => (Raise e, w)
       | None =>
           match locate w file with
           | Some t =>
               match content_at w t with
               | Some _ => (Ok tt, unlink t w)
               | None => (Raise (Exn "FileNotFoundError"), w)
               end
           | None => (Raise (Exn "FileNotFoundError"), w)
           end
       end.

(** [np.save(os.path.join(KNOWN_FACES_DIR, file), encoding)] *)
Definition np_save (file : string) (encoding : ndarray) : M unit :=
  write_path (NpSave file) file (Npy encoding).

(** [np.array(Image.open(os.path.join(KNOWN_FACES_DIR, file)).convert('RGB'))] *)
Definition load_image (file : string) : M ndarray :=
  λ w, match lookup_path w file with
       | None => (Raise (Exn "FileNotFoundError"), w)
       | Some c => (image_open E c, w)
       end.

(** [face_recognition.face_encodings(image_array)] *)
Definition call_face_encodings (image_array : ndarray) : M (list ndarray) :=
  λ w, (face_encodings E image_array,
        record_call (face_recognition_face_encodings image_array) w).

(** A call to [db_manager]: recorded, then raising if the database does. *)
Definition db_call {A} (c : call) (answer : list call → A) : M A :=
  λ w, match db_fault E (calls w) c with
       | Some e => (Raise e, record_call c w)
       | None => (Ok (answer (calls w)), record_call c w)
       end.

Definition db_manager_add_user (name : string) : M unit :=
  db_call (db_add_user name) (λ _, tt).

Definition db_manager_delete_user (name : string) : M unit :=
  db_call (db_delete_user name) (λ _, tt).

Definition db_manager_get_all_users : M (list user_row) :=
  db_call db_get_all_users (db_users E).

Definition db_manager_get_recent_access_logs (limit : nat) : M (list log_row) :=
  db_call (db_get_recent_access_logs limit) (λ h, db_logs E h limit).

(** ** The handlers *)

(** [f"{name}_1.jpg"] and [f"{name}_encoding.npy"] *)
Definition image_file (name : string) : string := name +:+ "_1.jpg".
Definition encoding_file (name : string) : string := name +:+ "_encoding.npy".

(** The test of lines 65, 160 and 180:
    [f.startswith(f"{user_name}_") and
     (f.endswith('.jpg') or f.endswith('_encoding.npy'))] *)
Definition belongs_to (user_name f : string) : bool :=
  Py.startswith (user_name +:+ "_") f
  && (Py.endswith ".jpg" f || Py.endswith "_encoding.npy" f).

(** The value of a form field that passed its [if not ...] test. *)
Definition the (field : option string) : string := default "" field.

(** Lines 72-73: [image_data.split(',')[1]] when the field starts with
    ['data:image'], the field itself otherwise; [None] stands for the
    [IndexError] of a data URL without a comma. *)
Definition strip_data_url (image_data : string) : option string :=
  if Py.startswith "data:image" image_data
  then Py.split "," image_data !! 1%nat
  else Some image_data.

(** [generate_single_user_encoding(name)] (the [print]s are left out) *)
Definition generate_single_user_encoding (name : string) : M bool :=
  try_except
    (let* exists_ := os_path_exists (image_file name) in
     if negb exists_ then ret false
     else
       try_except
         (let* image_array := load_image (image_file name) in
          let* found := call_face_encodings image_array in
          match found with
          | [] => ret false
          | encoding :: _ =>
              let* _ := np_save (encoding_file name) encoding in
              ret true
          end)
         (λ _, ret false))
    (λ _, ret false).

(** [POST /register_user], with the form fields [name] and [image] *)
Definition register_user (name image : option string) : M reply :=
  try_except
    (if negb (Py.truthy name) then ret (error "User name is required")
     else if negb (Py.truthy image)
     then ret (error "Face image is required")
     else
       let user_name := the name in
       let* dir_exists := os_path_exists_dir in
       let* _ := (if negb dir_exists then os_makedirs else ret tt) in
       let* listing := os_listdir in
       let existing_files := List.filter (belongs_to user_name) listing in
       match existing_files with
       | _ :: _ =>
           ret (error ("User " +:+ user_name +:+
             " already exists. Please choose a different name or delete the existing user."))
       | [] =>
           try_except
             (let* image_data :=
                match strip_data_url (the image) with
                | Some payload => ret payload
                | None => raise (Exn "list index out of range")
                end in
              let* image_bytes := (λ w, (b64decode E image_data, w)) in
              let* _ := open_write (image_file user_name) image_bytes in
              let* encoded := generate_single_user_encoding user_name in
              if encoded then
                let* _ := db_manager_add_user user_name in
                ret (success ("User " +:+ user_name +:+
                  " registered successfully with face capture."))
              else
                let* still_there := os_path_exists (image_file user_name) in
                let* _ := (if still_there
                           then os_remove_path (image_file user_name)
                           else ret tt) in
                ret (error "Failed to generate face encoding. Please ensure a clear face image with good lighting."))
             (λ e, ret (error ("Failed to save face image: " +:+ str e)))
       end)
    (λ e, ret (error ("Failed to register user: " +:+ str e))).

(** [POST /add_user], with the form field [name] *)
Definition add_user (name : option string) : M reply :=
  try_except
    (if negb (Py.truthy name) then ret (error "User name is required")
     else
       let user_name := the name in
       let* dir_exists := os_path_exists_dir in
       let* _ := (if negb dir_exists then os_makedirs else ret tt) in
       let* listing := os_listdir in
       let existing_files := List.filter (belongs_to user_name) listing in
       match existing_files with
       | _ :: _ => ret (error ("User " +:+ user_name +:+ " already exists"))
       | [] =>
           let* _ := db_manager_add_user user_name in
           ret {| status := "success";
                   message := "User " +:+ user_name +:+
                     " added successfully. Please capture face image for recognition.";
                   user_name := Some user_name |}
       end)
    (λ e, ret (error ("Failed to add user: " +:+ str e))).

(** Lines 180-182: the body of the loop of [delete_user]. *)
Definition remove_if_belongs (username file : string) : M unit :=
  if belongs_to username file then os_remove file else ret tt.

(** [GET /delete_user/<username>] *)
Definition delete_user (username : string) : M reply :=
  try_except
    (let* dir_exists := os_path_exists_dir in
     let* _ :=
       (if dir_exists then
          let* listing := os_listdir in
          for_each listing (remove_if_belongs username)
        else ret tt) in
     let* _ := db_manager_delete_user username in
     ret (success ("User " +:+ username +:+ " deleted")))
    (λ e, ret (error (str e))).

(** [db_log[3] or "N/A"] *)
Definition or_na (person_name : option string) : string :=
  if Py.truthy person_name then the person_name else "N/A".

Definition log_entry_of (db_log : log_row) : log_entry :=
  {| timestamp := lr_timestamp db_log;
     event := lr_event_type db_log;
     person := or_na (lr_person_name db_log) |}.

(** [read_access_logs()] *)
Definition read_access_logs : M (list log_entry) :=
  let* db_logs := db_manager_get_recent_access_logs 100 in
  ret (log_entry_of <$> db_logs).

(** [GET /logs] *)
Definition logs : M (list log_entry) := read_access_logs.

(** *** The listing *)

(** [user_dict]: a Python [dict], which keeps its keys in the order of their
    first insertion. *)
Definition user_dict := list (string * user).

(** [username in user_dict] *)
Definition dict_has (k : string) (d : user_dict) : bool :=
  bool_decide (k ∈ d.*1).

(** [user_dict[k] = v] *)
Fixpoint dict_set (k : string) (v : user) (d : user_dict) : user_dict :=
  match d with
  | [] => [(k, v)]
  | (k', v') :: d' =>
      if decide (k' = k) then (k, v) :: d' else (k', v') :: dict_set k v d'
  end.

(** [user_dict[k]['trained'] = b], for a key [k] of the dictionary *)
Definition set_trained (k : string) (b : bool) (d : user_dict) : user_dict :=
  (λ kv, if decide (kv.1 = k)
         then (kv.1, {| u_name := u_name kv.2;
                        u_trained := b;
                        u_created_at := u_created_at kv.2;
                        u_last_seen := u_last_seen kv.2;
                        u_access_count := u_access_count kv.2 |})
         else kv) <$> d.

(** The entry of line 211 for a database row. *)
Definition user_of_row (db_user : user_row) : user :=
  {| u_name := ur_name db_user;
     u_trained := false;
     u_created_at := ur_created_at db_user;
     u_last_seen := ur_last_seen db_user;
     u_access_count := ur_access_count db_user |}.

(** The entry of lines 238 and 250 for a user found on disk. *)
Definition user_of_file (username : string) (trained : bool) : user :=
  {| u_name := username;
     u_trained := trained;
     u_created_at := None;
     u_last_seen := None;
     u_access_count := 0 |}.

(** Lines 210-217: the database rows, in order. *)
Definition from_rows (db_users : list user_row) : user_dict :=
  fold_left (λ d db_user, dict_set (ur_name db_user) (user_of_row db_user) d)
    db_users [].

(** Lines 224-259: the body of the loop over the directory. *)
Definition scan_file (encoding_files : list string)
    (d : user_dict) (file : string) : user_dict :=
  if Py.endswith ".jpg" file && Py.contains "_" file
     && negb (Py.startswith "." file)
  then
    let parts := Py.split "_" file in
    if (2 <=? length parts)%nat then
      let username := Py.join "_" (Py.but_last parts) in
      let trained := bool_decide (encoding_file username ∈ encoding_files) in
      if dict_has username d then set_trained username trained d
      else dict_set username (user_of_file username trained) d
    else d
  else if Py.endswith "_encoding.npy" file then
    let username := Py.replace "_encoding.npy" "" file in
    if negb (dict_has username d)
    then dict_set username (user_of_file username true) d
    else set_trained username true d
  else d.

(** The listing for given database rows and the two directory listings of
    lines 221 and 223. *)
Definition merge_users (db_users : list user_row)
    (listing1 listing2 : list string) : list user :=
  let encoding_files := List.filter (Py.endswith "_encoding.npy") listing1 in
  (fold_left (scan_file encoding_files) listing2 (from_rows db_users)).*2.

(** [get_registered_users()] *)
Definition get_registered_users : M (list user) :=
  let* db_users := db_manager_get_all_users in
  let* dir_exists := os_path_exists_dir in
  if dir_exists then
    let* listing1 := os_listdir in
    let* listing2 := os_listdir in
    ret (merge_users db_users listing1 listing2)
  else ret (from_rows db_users).*2.

(** [GET /] *)
Definition index : M page :=
  let* users := get_registered_users in
  ret {| template := "index.html"; page_users := users |}.

(** [GET /users] *)
Definition users : M page :=
  let* users := get_registered_users in
  ret {| template := "users.html"; page_users := users |}.

(** [GET /register] *)
Definition register : M page :=
  ret {| template := "register.html"; page_users := [] |}.

End Handlers.

(** ** Base64

    [base64.b64decode] on a text made of whole groups of four characters of
    the alphabet, the last one padded with [=]: three bytes for a group, two
    or one for a padded one.  On any other text this decoder raises (the
    library raises on some of them and skips stray characters in others). *)

Module Base64.

Definition sextet (a : ascii) : option N :=
  let n := N_of_ascii a in
  if (65 <=? n)%N && (n <=? 90)%N then Some (n - 65)%N
  else if (97 <=? n)%N && (n <=? 122)%N then Some (n - 71)%N
  else if (48 <=? n)%N && (n <=? 57)%N then Some (n + 4)%N
  else if (n =? 43)%N then Some 62%N
  else if (n =? 47)%N then Some 63%N
  else None.

Definition byte (n : N) : ascii := ascii_of_N (n mod 256).

Fixpoint decode (s : string) : option string :=
  match s with
  | EmptyString => Some EmptyString
  | String a (String b (String c (String d rest))) =>
      match sextet a, sextet b, sextet c, sextet d with
      | Some x, Some y, Some z, Some u =>
          match decode rest with
          | Some t =>
              Some (String (byte (x * 4 + y / 16))
                     (String (byte ((y mod 16) * 16 + z / 4))
                        (String (byte ((z mod 4) * 64 + u)) t)))
          | None => None
          end
      | Some x, Some y, Some z, None =>
          if Ascii.eqb d "=" && String.eqb rest ""
          then Some (String (byte (x * 4 + y / 16))
                       (String (byte ((y mod 16) * 16 + z / 4)) ""))
          else None
      | Some x, Some y, None, None =>
          if Ascii.eqb c "=" && Ascii.eqb d "=" && String.eqb rest ""
          then Some (String (byte (x * 4 + y / 16)) "")
          else None
      | _, _, _, _ => None
      end
  | _ => None
  end.

Definition b64decode (s : string) : result string :=
  match decode s with
  | Some b => Ok b
  | None => Raise (Exn "Incorrect padding")
  end.

End Base64.

(** ** Sample environments and worlds *)

(** An environment in which nothing fails: an image is the character codes
    of its bytes, every byte [f] of it is a face, the database answers from
    the calls it has received, and no path with a [/] leads back into the
    directory. *)
Fixpoint codes (s : string) : ndarray :=
  match s with
  | EmptyString => []
  | String a s' => Z.of_nat (nat_of_ascii a) :: codes s'
  end.

Definition sample_rows_step (rows : list user_row) (c : call) : list user_row :=
  match c with
  | db_add_user n =>
      if bool_decide (n ∈ ur_name <$> rows) then rows
      else rows ++ [{| ur_id := Z.of_nat (S (length rows)); ur_name := n;
                       ur_created_at := Some "2024-01-01 00:00:00";
                       ur_last_seen := None; ur_access_count := 0 |}]
  | db_delete_user n => List.filter (λ r, negb (String.eqb (ur_name r) n)) rows
  | _ => rows
  end.

Definition sample_rows (h : list call) : list user_row :=
  fold_left sample_rows_step h [].

Definition sample_log : list log_row :=
  [ {| lr_id := 3; lr_timestamp := "2024-01-01 10:02:00";
       lr_event_type := "ACCESS_GRANTED"; lr_person_name := Some "bob" |};
    {| lr_id := 2; lr_timestamp := "2024-01-01 10:01:00";
       lr_event_type := "ACCESS_DENIED"; lr_person_name := None |};
    {| lr_id := 1; lr_timestamp := "2024-01-01 10:00:00";
       lr_event_type := "DOOR_LOCKED"; lr_person_name := Some "" |} ].

Definition sample_env : Env :=
  {| b64decode := Base64.b64decode;
     image_open := λ c, match c with
                        | Bytes b => Ok (codes b)
                        | Npy _ => Raise (Exn "cannot identify image file")
                        end;
     face_encodings := λ a, Ok ((λ z, [z]) <$> List.filter (Z.eqb 102%Z) a);
     os_fault := λ _, None;
     db_fault := λ _ _, None;
     db_users := sample_rows;
     db_logs := λ _ limit, take limit sample_log;
     resolve := Elsewhere |}.

(** The same environment with a database that cannot be reached. *)
Definition offline_env : Env :=
  {| b64decode := b64decode sample_env;
     image_open := image_open sample_env;
     face_encodings := face_encodings sample_env;
     os_fault := os_fault sample_env;
     db_fault := λ _ _, Some (Exn "database is locked");
     db_users := db_users sample_env;
     db_logs := db_logs sample_env;
     resolve := resolve sample_env |}.

(** No directory yet, and a directory holding the files of [alice]. *)
Definition fresh_world : World :=
  {| known_faces := None; calls := []; elsewhere := ∅ |}.

Definition alice_world : World :=
  {| known_faces := Some (<["alice_1.jpg" := Bytes "ff"]>
                          (<["alice_encoding.npy" := Npy [102%Z]]> ∅));
     calls := [db_add_user "alice"];
     elsewhere := ∅ |}.

(** The database of [sample_env] holds a row for [bob] after the calls of
    this world, and the directory has no file of his. *)
Definition bob_in_database : World :=
  {| known_faces := known_faces alice_world;
     calls := [db_add_user "alice"; db_add_user "bob"];
     elsewhere := ∅ |}.

(** The directory holds the files of [mary] and of [mary_ann]. *)
Definition marys_world : World :=
  {| known_faces := Some (<["mary_1.jpg" := Bytes "f"]>
                          (<["mary_encoding.npy" := Npy [102%Z]]>
                          (<["mary_ann_1.jpg" := Bytes "ff"]>
                          (<["mary_ann_encoding.npy" := Npy [102%Z]]> ∅))));
     calls := [db_add_user "mary"; db_add_user "mary_ann"];
     elsewhere := ∅ |}.

(** An environment in which the image of [alice] cannot be removed. *)
Definition locked_env : Env :=
  {| b64decode := b64decode sample_env;
     image_open := image_open sample_env;
     face_encodings := face_encodings sample_env;
     os_fault := λ op, match op with
                       | Remove "alice_1.jpg" => Some (Exn "Permission denied")
                       | _ => None
                       end;
     db_fault := db_fault sample_env;
     db_users := db_users sample_env;
     db_logs := db_logs sample_env;
     resolve := resolve sample_env |}.

(** The directory holds the encoding of a user named [a_encoding.npy] and
    nothing else; the database has no row. *)
Definition stray_encoding : World :=
  {| known_faces := Some {[encoding_file "a_encoding.npy" := Npy [102%Z]]};
     calls := [];
     elsewhere := ∅ |}.

(** The database has a row for [ab]; the only file is the encoding of a user
    named [a_encoding.npyb]. *)
Definition ab_in_database : World :=
  {| known_faces := Some {[encoding_file "a_encoding.npyb" := Npy [102%Z]]};
     calls := [db_add_user "ab"];
     elsewhere := ∅ |}.

(** The string of the bytes of given values. *)
Definition of_bytes (l : list N) : string :=
  foldr (λ n s, String (ascii_of_N n) s) EmptyString l.

(** A GIF picture of one black pixel, and its base64 text. *)
Definition pixel_gif : string :=
  of_bytes [71; 73; 70; 56; 57; 97; 1; 0; 1; 0; 128; 0; 0; 0; 0; 0; 255; 255;
            255; 33; 249; 4; 1; 0; 0; 0; 0; 44; 0; 0; 0; 0; 1; 0; 1; 0; 0; 2;
            1; 68; 0; 59]%N.

Definition pixel_b64 : string :=
  "R0lGODlhAQABAIAAAAAAAP///yH5BAEAAAAALAAAAAABAAEAAAIBRAA7".

(** An environment in which nothing fails; the one picture it knows is
    [pixel_gif], a single pixel [(0, 0, 0)], and the encoder finds no face
    in it. *)
Definition pixel_env : Env :=
  {| b64decode := Base64.b64decode;
     image_open := λ c, match c with
                        | Bytes b =>
                            if String.eqb b pixel_gif then Ok [0; 0; 0]%Z
                            else Raise (Exn "cannot identify image file")
                        | Npy _ => Raise (Exn "cannot identify image file")
                        end;
     face_encodings := λ _, Ok [];
     os_fault := λ _, None;
     db_fault := λ _ _, None;
     db_users := sample_rows;
     db_logs := λ _ limit, take limit sample_log;
     resolve := Elsewhere |}.

(** The same environment on a file system in which the path
    [known_faces/../known_faces/alice_1.jpg] leads, as it does, to the entry
    [alice_1.jpg] of the directory. *)
Definition alias_env : Env :=
  {| b64decode := b64decode pixel_env;
     image_open := image_open pixel_env;
     face_encodings := face_encodings pixel_env;
     os_fault := os_fault pixel_env;
     db_fault := db_fault pixel_env;
     db_users := db_users pixel_env;
     db_logs := db_logs pixel_env;
     resolve := λ file,
       if String.eqb file "../known_faces/alice_1.jpg" then Entry "alice_1.jpg"
       else if String.eqb file "../known_faces/alice_encoding.npy"
       then Entry "alice_encoding.npy"
       else Elsewhere file |}.

(** A database that does not honour the limit it is given: it returns 101
    rows, whatever the limit. *)
Definition log_row_at (i : nat) : log_row :=
  {| lr_id := Z.of_nat i; lr_timestamp := "2024-01-01 10:00:00";
     lr_event_type := "ACCESS_GRANTED"; lr_person_name := Some "bob" |}.

Definition unbounded_env : Env :=
  {| b64decode := b64decode sample_env;
     image_open := image_open sample_env;
     face_encodings := face_encodings sample_env;
     os_fault := os_fault sample_env;
     db_fault := db_fault sample_env;
     db_users := db_users sample_env;
     db_logs := λ _ _, log_row_at <$> seq 1 101;
     resolve := resolve sample_env |}.





(** ** Predicates of the specification *)

(** Normal operation: no operating-system call and no database call raises. *)
Definition no_faults (E : Env) : Prop :=
  (∀ op, os_fault E op = None) ∧ (∀ h c, db_fault E h c = None).

(** The files of the directory that the test [belongs_to] gives to [name]. *)
Definition files_of (name : string) (w : World) : gmap string content :=
  filter (λ kv, belongs_to name kv.1 = true) (files w).

(** No file of the directory starts with [<name>_] and ends in [.jpg] or
    [_encoding.npy]. *)
Definition has_no_file (name : string) (w : World) : Prop :=
  files_of name w = ∅.

(** The calls of a history that went to [db_manager]. *)
Definition is_db_call (c : call) : bool :=
  match c with
  | face_recognition_face_encodings _ => false
  | _ => true
  end.

Definition db_calls (w : World) : list call := List.filter is_db_call (calls w).

(** ** Auxiliary notions *)

(** [m] returns, and what it returns satisfies [P]. *)
Definition returns {A} (P : A → Prop) (m : M A) : Prop :=
  ∀ w, ∃ a w', m w = (Ok a, w') ∧ P a.

(** What [m] returns, when it does, satisfies [P]. *)
Definition yields {A} (P : A → Prop) (m : M A) : Prop :=
  ∀ w a w', m w = (Ok a, w') → P a.

(** The [status] of a JSON body that reports an outcome. *)
Definition is_reply (r : reply) : Prop :=
  status r = "success" ∨ status r = "error".

(** Every entry is filed under its own name. *)
Definition named (d : user_dict) : Prop := ∀ k v, (k, v) ∈ d → u_name v = k.

(** The files the loop of [delete_user] has not removed after the names [l]. *)
Definition kept (username : string) (l : list string)
    (kv : string * content) : Prop :=
  ¬ (kv.1 ∈ l ∧ belongs_to username kv.1 = true).

(** [m] relates the world it starts from to the world it ends in by [R],
    whether it returns or raises. *)
Definition preserves {A} (R : World → World → Prop) (m : M A) : Prop :=
  ∀ w r w', m w = (r, w') → R w w'.

(** From [w] to [w'] only what the targets in [F] hold changed, and the
    calls made are all in [C]. *)
Definition touches (F : target → Prop) (C : call → Prop) (w w' : World) : Prop :=
  (∀ t, ¬ F t → content_at w' t = content_at w t)
  ∧ ∃ l, calls w' = calls w ++ l ∧ Forall C l.

(** From [w] to [w'] every file is as it was or, if [belongs_to] gives it to
    [username], is gone; the calls made are all [delete_user(username)]. *)
Definition only_removes (username : string) (w w' : World) : Prop :=
  (∀ f, files w' !! f = files w !! f
        ∨ (belongs_to username f = true ∧ files w' !! f = None))
  ∧ ∃ l, calls w' = calls w ++ l ∧ Forall (λ c, c = db_delete_user username) l.

(** [sub in s], for strings. *)
Fixpoint occurs (sub s : string) : bool :=
  String.prefix sub s
  || match s with
     | EmptyString => false
     | String _ s' => occurs sub s'
     end.

(** The proper suffixes of a string, longest first, the empty one left out. *)
Fixpoint tails (s : string) : list string :=
  match s with
  | EmptyString => []
  | String _ EmptyString => []
  | String _ s' => s' :: tails s'
  end.

(** An entry is filed under a name of the database or has the fields of
    lines 241-243. *)
Definition from_database_or_bare (names : list string) (d : user_dict) : Prop :=
  ∀ k u, (k, u) ∈ d →
    k ∈ names
    ∨ (u_created_at u = None ∧ u_last_seen u = None ∧ u_access_count u = 0%Z).

(** Every encoding file of the directory is [<stem>_encoding.npy] for a stem
    in which [_encoding.npy] does not occur. *)
Definition plain_encodings (w : World) : Prop :=
  ∀ f, is_Some (files w !! f) → Py.endswith "_encoding.npy" f = true →
       ∃ stem, f = encoding_file stem ∧ occurs "_encoding.npy" stem = false.

(** The world a successful registration leaves. *)
Definition registered (E : Env) (name image_bytes : string)
    (image_array encoding : ndarray) (w : World) : World :=
  record_call (db_add_user name)
    (put (place E (encoding_file name)) (Npy encoding)
       (record_call (face_recognition_face_encodings image_array)
          (put (place E (image_file name)) (Bytes image_bytes)
             (with_dir w (files w))))).

(** ** Python strings *)

Section PyFacts.

Implicit Types (s t p : string) (c : ascii).

Lemma str_app_cons a s t : String a s +:+ t = String a (s +:+ t).
Proof. reflexivity. Qed.

Lemma str_app_nil_l s : "" +:+ s = s.
Proof. reflexivity. Qed.

Lemma str_app_assoc s t p : (s +:+ t) +:+ p = s +:+ (t +:+ p).
Proof. induction s as [|a s IH]; [done|]. by rewrite !str_app_cons, IH. Qed.

Lemma startswith_app p s : Py.startswith p (p +:+ s) = true.
Proof.
  unfold Py.startswith. induction p as [|a p IH].
  - by destruct s.
  - rewrite str_app_cons. simpl. destruct (ascii_dec a a); [apply IH|done].
Qed.

Lemma startswith_inv p s :
  Py.startswith p s = true → ∃ t, s = p +:+ t.
Proof.
  unfold Py.startswith. revert s. induction p as [|a p IH]; intros s H.
  - by exists s.
  - destruct s as [|b s]; simpl in H; [done|].
    destruct (ascii_dec a b) as [->|]; [|done].
    destruct (IH _ H) as [t ->]. by exists t.
Qed.

Lemma endswith_app p s : Py.endswith p (s +:+ p) = true.
Proof.
  induction s as [|a s IH].
  - rewrite str_app_nil_l. destruct p; cbn [Py.endswith]; by rewrite String.eqb_refl.
  - rewrite str_app_cons. cbn [Py.endswith]. rewrite IH. apply orb_true_r.
Qed.

Lemma endswith_inv p s : Py.endswith p s = true → ∃ t, s = t +:+ p.
Proof.
  induction s as [|a s IH]; cbn [Py.endswith]; intros H.
  - rewrite orb_false_r in H. apply String.eqb_eq in H as <-. by exists "".
  - apply orb_true_iff in H as [H|H].
    + apply String.eqb_eq in H as <-. by exists "".
    + destruct (IH H) as [t ->]. by exists (String a t).
Qed.

Lemma contains_app_r c s t : Py.contains c t = true → Py.contains c (s +:+ t) = true.
Proof.
  intros H. induction s as [|a s IH]; [done|].
  rewrite str_app_cons. simpl. rewrite IH. apply orb_true_r.
Qed.

Lemma split_nonempty c s : Py.split c s ≠ [].
Proof.
  destruct s as [|a s]; simpl; [done|].
  destruct (Ascii.eqb a c); [done|]. by destruct (Py.split c s).
Qed.

(** [c.join(s.split(c)) == s] *)
Lemma join_split c s : Py.join (String c "") (Py.split c s) = s.
Proof.
  unfold Py.join. induction s as [|a s IH]; [done|]. simpl.
  destruct (Ascii.eqb_spec a c) as [->|Hne].
  - pose proof (split_nonempty c s).
    destruct (Py.split c s) as [|q qs]; [done|].
    change (String.concat (String c "") ("" :: q :: qs))
      with (String c (String.concat (String c "") (q :: qs))).
    by rewrite IH.
  - pose proof (split_nonempty c s).
    destruct (Py.split c s) as [|q qs]; [done|].
    destruct qs as [|q' qs]; simpl in *; by rewrite <- IH.
Qed.

(** Splitting at a separator: [(s + c + t).split(c) == s.split(c) + t.split(c)] *)
Lemma split_app c s t :
  Py.split c (s +:+ String c t) = Py.split c s ++ Py.split c t.
Proof.
  induction s as [|a s IH].
  - rewrite str_app_nil_l. simpl. by rewrite Ascii.eqb_refl.
  - rewrite str_app_cons. simpl. rewrite IH.
    destruct (Ascii.eqb a c); [done|].
    pose proof (split_nonempty c s). by destruct (Py.split c s).
Qed.

End PyFacts.

(** ** File names *)

Section FileNames.

Implicit Types (name f : string).

Lemma split_image_file name :
  Py.split "_" (image_file name) = Py.split "_" name ++ ["1.jpg"].
Proof. unfold image_file. by rewrite (split_app "_" name "1.jpg"). Qed.

(** The rule of lines 226-228 on [<name>_1.jpg]. *)
Lemma parse_image_file name :
  Py.join "_" (Py.but_last (Py.split "_" (image_file name))) = name.
Proof.
  rewrite split_image_file. unfold Py.but_last.
  rewrite removelast_last. apply join_split.
Qed.

Lemma belongs_to_image_file name : belongs_to name (image_file name) = true.
Proof.
  unfold belongs_to, image_file.
  change (name +:+ "_1.jpg") with (name +:+ ("_" +:+ "1.jpg")) at 1.
  rewrite <- str_app_assoc, startswith_app.
  change (name +:+ "_1.jpg") with (name +:+ ("_1" +:+ ".jpg")).
  by rewrite <- str_app_assoc, endswith_app.
Qed.

Lemma belongs_to_encoding_file name :
  belongs_to name (encoding_file name) = true.
Proof.
  unfold belongs_to, encoding_file.
  change (name +:+ "_encoding.npy") with (name +:+ ("_" +:+ "encoding.npy")) at 1.
  rewrite <- str_app_assoc, startswith_app.
  rewrite endswith_app. apply orb_true_r.
Qed.

Lemma contains_app c s t :
  Py.contains c (s +:+ t) = Py.contains c s || Py.contains c t.
Proof.
  induction s as [|a s IH]; [done|].
  rewrite str_app_cons. simpl. by rewrite IH, orb_assoc.
Qed.

Lemma plain_image_file name : plain (image_file name) = plain name.
Proof.
  unfold plain, image_file. rewrite contains_app.
  by rewrite orb_false_r.
Qed.

Lemma plain_encoding_file name : plain (encoding_file name) = plain name.
Proof.
  unfold plain, encoding_file. rewrite contains_app.
  by rewrite orb_false_r.
Qed.

Lemma image_file_ne_encoding_file name : image_file name ≠ encoding_file name.
Proof.
  unfold image_file, encoding_file. intros H.
  by apply (inj (String.app name)) in H.
Qed.

End FileNames.

(** ** Running the monad *)

Section Runs.

Context (E : Env).

Lemma bind_ok {A B} (m : M A) (k : A → M B) w a w' :
  m w = (Ok a, w') → bind m k w = k a w'.
Proof. unfold bind. by intros ->. Qed.

Lemma bind_raise {A B} (m : M A) (k : A → M B) w e w' :
  m w = (Raise e, w') → bind m k w = (Raise e, w').
Proof. unfold bind. by intros ->. Qed.

Lemma try_except_ok {A} (m : M A) h w a w' :
  m w = (Ok a, w') → try_except m h w = (Ok a, w').
Proof. unfold try_except. by intros ->. Qed.

Lemma try_except_raise {A} (m : M A) h w e w' :
  m w = (Raise e, w') → try_except m h w = h e w'.
Proof. unfold try_except. by intros ->. Qed.


Lemma files_Some w d : known_faces w = Some d → files w = d.
Proof. unfold files. by intros ->. Qed.

Lemma files_is_Some w f :
  is_Some (files w !! f) → known_faces w = Some (files w).
Proof.
  unfold files. destruct (known_faces w); simpl; [done|].
  rewrite lookup_empty. by intros [? ?].
Qed.

Lemma os_listdir_run w d :
  os_fault E Listdir = None → known_faces w = Some d →
  os_listdir E w = (Ok (map_to_list d).*1, w).
Proof. unfold os_listdir, in_dir. by intros -> ->. Qed.

Lemma elem_of_listing (d : gmap string content) f :
  f ∈ (map_to_list d).*1 ↔ is_Some (d !! f).
Proof.
  rewrite list_elem_of_fmap. split.
  - intros [[k c] [-> Hin]]. apply elem_of_map_to_list in Hin. by exists c.
  - intros [c Hc]. exists (f, c). by rewrite elem_of_map_to_list.
Qed.

Lemma has_no_file_elim name w :
  has_no_file name w →
  ∀ f, is_Some (files w !! f) → belongs_to name f = false.
Proof.
  unfold has_no_file, files_of. intros Hno f [c Hc].
  destruct (belongs_to name f) eqn:Hb; [|done].
  assert (filter (λ kv, belongs_to name kv.1 = true) (files w) !! f = Some c) as H
    by (by apply map_lookup_filter_Some).
  by rewrite Hno, lookup_empty in H.
Qed.

Lemma existing_files_nil name w :
  has_no_file name w →
  List.filter (belongs_to name) (map_to_list (files w)).*1 = [].
Proof.
  intros Hno. pose proof (has_no_file_elim name w Hno) as Hno'.
  clear Hno. rename Hno' into Hno. generalize (λ f, proj1 (elem_of_listing (files w) f)).
  induction (map_to_list (files w)).*1 as [|f l IH]; intros Hin; [done|].
  simpl. rewrite Hno by (apply Hin; left).
  apply IH. intros g Hg. apply Hin. by right.
Qed.

Lemma existing_files_cons name w f :
  is_Some (files w !! f) → belongs_to name f = true →
  ∃ g l, List.filter (belongs_to name) (map_to_list (files w)).*1 = g :: l.
Proof.
  intros Hf Hb. apply elem_of_listing, list_elem_of_In in Hf.
  assert (In f (List.filter (belongs_to name) (map_to_list (files w)).*1)) as Hin
    by (by apply filter_In).
  destruct (List.filter _ _) as [|g l]; [done|by eauto].
Qed.

(** Lines 61-62 and 157-158: the directory exists afterwards. *)
Lemma ensure_dir_run {A} (k : unit → M A) w :
  os_fault E Makedirs = None →
  bind os_path_exists_dir
    (λ dir_exists, bind (if negb dir_exists then os_makedirs E else ret tt) k) w
  = k tt (with_dir w (files w)).
Proof.
  intros Hm. unfold bind, os_path_exists_dir, os_makedirs, files, with_dir.
  destruct w as [[d|] h]; simpl; [done|]. by rewrite Hm.
Qed.

Lemma truthy_Some s : s ≠ "" → Py.truthy (Some s) = true.
Proof. by destruct s. Qed.

End Runs.

(** ** Paths *)

Section Paths.

Context (E : Env).

Implicit Types (w : World) (t : target) (c : content).

Lemma place_plain file : plain file = true → place E file = Entry file.
Proof. unfold place. by intros ->. Qed.

(** While the directory exists every path leads somewhere. *)
Lemma locate_dir w file :
  is_Some (known_faces w) → locate E w file = Some (place E file).
Proof.
  intros Hd. unfold locate. rewrite (bool_decide_eq_true_2 _ Hd).
  by rewrite orb_true_r.
Qed.

Lemma lookup_path_dir w file :
  is_Some (known_faces w) → lookup_path E w file = content_at w (place E file).
Proof. intros Hd. unfold lookup_path. by rewrite locate_dir. Qed.


Lemma content_at_put t c w : content_at (put t c w) t = Some c.
Proof. destruct t; simpl; unfold files; simpl; apply lookup_insert_eq. Qed.

Lemma content_at_put_ne t t' c w :
  t ≠ t' → content_at (put t' c w) t = content_at w t.
Proof.
  intros Hne. destruct t as [f|p], t' as [f'|p']; simpl; unfold files; simpl;
    try done; fold (files w); apply lookup_insert_ne; congruence.
Qed.

Lemma content_at_unlink_ne t t' w :
  t ≠ t' → content_at (unlink t' w) t = content_at w t.
Proof.
  intros Hne. destruct t as [f|p], t' as [f'|p']; simpl; unfold files; simpl;
    try done; fold (files w); apply lookup_delete_ne; congruence.
Qed.

Lemma locate_Some w file t : locate E w file = Some t → t = place E file.
Proof. unfold locate. case_match; congruence. Qed.

Lemma content_at_unlink t w : content_at (unlink t w) t = None.
Proof. destruct t; simpl; unfold files; simpl; apply lookup_delete_eq. Qed.

Lemma content_at_record_call t call w :
  content_at (record_call call w) t = content_at w t.
Proof. by destruct t. Qed.

Lemma known_faces_put t c w :
  is_Some (known_faces w) → is_Some (known_faces (put t c w)).
Proof. destruct t; simpl; eauto. Qed.

(** Writing through a path while the directory exists. *)
Lemma write_path_run op file c w :
  os_fault E op = None → is_Some (known_faces w) →
  write_path E op file c w = (Ok tt, put (place E file) c w).
Proof.
  intros Hop Hd. unfold write_path. rewrite Hop, locate_dir by done.
  destruct Hd as [d ->]. by destruct (place E file).
Qed.

(** Removing the file of a path while the directory exists. *)
Lemma os_remove_path_run file w :
  os_fault E (Remove file) = None → is_Some (known_faces w) →
  is_Some (content_at w (place E file)) →
  os_remove_path E file w = (Ok tt, unlink (place E file) w).
Proof.
  intros Hop Hd [c Hc]. unfold os_remove_path.
  by rewrite Hop, locate_dir, Hc by done.
Qed.

End Paths.

(** ** Registration *)

(** C2. When some file of the directory starts with [<name>_] and ends in
    [.jpg] or [_encoding.npy], [POST /register_user] answers with status
    [error] whatever the image field holds, and the world is the one it
    started from: no file is written, and neither the encoder nor the
    database is called. *)
Theorem register_user_conflict E w name image f :
  is_Some (files w !! f) → belongs_to name f = true →
  ∃ r, register_user E (Some name) image w = (Ok r, w)
       ∧ status r = "error".
Proof.
  intros Hf Hb. unfold register_user, try_except.
  destruct (Py.truthy (Some name)); simpl; [|by eauto].
  destruct (Py.truthy image); simpl; [|by eauto].
  pose proof (files_is_Some _ _ Hf) as Hd.
  destruct (existing_files_cons name w f Hf Hb) as (g & l & Hl).
  unfold bind at 1. unfold os_path_exists_dir. rewrite Hd. simpl.
  unfold bind at 1. unfold ret at 1.
  unfold bind at 1. unfold os_listdir, in_dir.
  destruct (os_fault E Listdir) as [e|]; [by eauto|].
  rewrite Hd. unfold the. simpl. rewrite Hl. by eauto.
Qed.

Lemma register_user_conflict_witness :
  ∃ r, register_user sample_env (Some "alice") (Some "not an image") alice_world
       = (Ok r, alice_world) ∧ status r = "error".
Proof.
  apply (register_user_conflict sample_env alice_world "alice" _ "alice_1.jpg").
  - by eexists.
  - reflexivity.
Defined.

Section Encoding.

Context (E : Env).

(** [generate_single_user_encoding] on an image in which the encoder
    finds a face: the first encoding is saved. *)
Lemma generate_encoding_found w name image_bytes image_array encoding others :
  os_fault E (NpSave (encoding_file name)) = None →
  is_Some (known_faces w) →
  content_at w (place E (image_file name)) = Some (Bytes image_bytes) →
  image_open E (Bytes image_bytes) = Ok image_array →
  face_encodings E image_array = Ok (encoding :: others) →
  generate_single_user_encoding E name w
  = (Ok true,
     put (place E (encoding_file name)) (Npy encoding)
       (record_call (face_recognition_face_encodings image_array) w)).
Proof.
  intros Hs Hd Hi Ho Hf.
  unfold generate_single_user_encoding.
  apply try_except_ok.
  erewrite bind_ok.
  2:{ unfold os_path_exists. by rewrite lookup_path_dir, Hi by done. }
  rewrite bool_decide_eq_true_2 by eauto. simpl.
  apply try_except_ok.
  erewrite bind_ok.
  2:{ unfold load_image. by rewrite lookup_path_dir, Hi, Ho by done. }
  erewrite bind_ok by (unfold call_face_encodings; by rewrite Hf).
  cbv beta iota.
  erewrite bind_ok by (by apply write_path_run).
  reflexivity.
Qed.

(** ... and on an image in which it finds none: nothing is saved. *)
Lemma generate_encoding_none w name image_bytes image_array :
  is_Some (known_faces w) →
  content_at w (place E (image_file name)) = Some (Bytes image_bytes) →
  image_open E (Bytes image_bytes) = Ok image_array →
  face_encodings E image_array = Ok [] →
  generate_single_user_encoding E name w
  = (Ok false, record_call (face_recognition_face_encodings image_array) w).
Proof.
  intros Hd Hi Ho Hf.
  unfold generate_single_user_encoding.
  apply try_except_ok.
  erewrite bind_ok.
  2:{ unfold os_path_exists. by rewrite lookup_path_dir, Hi by done. }
  rewrite bool_decide_eq_true_2 by eauto. simpl.
  apply try_except_ok.
  erewrite bind_ok.
  2:{ unfold load_image. by rewrite lookup_path_dir, Hi, Ho by done. }
  erewrite bind_ok by (unfold call_face_encodings; by rewrite Hf).
  reflexivity.
Qed.


End Encoding.

Lemma has_no_file_lookup name w f :
  has_no_file name w → belongs_to name f = true → files w !! f = None.
Proof.
  intros Hno Hb. destruct (files w !! f) eqn:Hf; [|done].
  rewrite (has_no_file_elim name w Hno f) in Hb; [done|by eexists].
Qed.

Lemma calls_put t c w : calls (put t c w) = calls w.
Proof. by destruct t. Qed.

Lemma calls_unlink t w : calls (unlink t w) = calls w.
Proof. by destruct t. Qed.

Section Registered.

Context (E : Env) (name image_bytes : string) (image_array encoding : ndarray).
Context (w : World).

Lemma registered_dir :
  is_Some (known_faces (registered E name image_bytes image_array encoding w)).
Proof. do 2 apply known_faces_put. by eexists. Qed.

Lemma registered_encoding :
  lookup_path E (registered E name image_bytes image_array encoding w)
    (encoding_file name) = Some (Npy encoding).
Proof.
  rewrite lookup_path_dir by apply registered_dir.
  unfold registered. rewrite content_at_record_call. apply content_at_put.
Qed.

Lemma registered_image :
  is_Some (lookup_path E (registered E name image_bytes image_array encoding w)
             (image_file name))
  ∧ (place E (image_file name) ≠ place E (encoding_file name) →
     lookup_path E (registered E name image_bytes image_array encoding w)
       (image_file name) = Some (Bytes image_bytes)).
Proof.
  rewrite lookup_path_dir by apply registered_dir.
  unfold registered. rewrite content_at_record_call.
  assert (∀ t w0, content_at
            (record_call (face_recognition_face_encodings image_array)
               (put t (Bytes image_bytes) w0)) t = Some (Bytes image_bytes)) as H1
    by (intros; apply content_at_put).
  split.
  - destruct (decide (place E (image_file name) = place E (encoding_file name)))
      as [->|Hne].
    + rewrite content_at_put. by eexists.
    + rewrite content_at_put_ne, H1 by done. by eexists.
  - intros Hne. by rewrite content_at_put_ne, H1.
Qed.

Lemma registered_calls :
  calls (registered E name image_bytes image_array encoding w)
  = calls w ++ [face_recognition_face_encodings image_array; db_add_user name]
  ∧ db_calls (registered E name image_bytes image_array encoding w)
    = db_calls w ++ [db_add_user name].
Proof.
  assert (calls (registered E name image_bytes image_array encoding w)
          = calls w ++ [face_recognition_face_encodings image_array;
                        db_add_user name]) as Hc.
  { unfold registered. simpl. rewrite calls_put. simpl. rewrite calls_put.
    simpl. by rewrite <- app_assoc. }
  split; [done|]. unfold db_calls. rewrite Hc, List.filter_app. simpl. done.
Qed.

(** For a name without [/] the two files are entries of the directory. *)
Lemma registered_plain :
  plain name = true →
  registered E name image_bytes image_array encoding w
  = {| known_faces :=
         Some (<[encoding_file name := Npy encoding]>
                 (<[image_file name := Bytes image_bytes]> (files w)));
       calls := (calls w ++ [face_recognition_face_encodings image_array])
                ++ [db_add_user name];
       elsewhere := elsewhere w |}.
Proof.
  intros Hplain. unfold registered.
  rewrite !place_plain by (by rewrite ?plain_image_file, ?plain_encoding_file).
  reflexivity.
Qed.

Lemma registered_plain_files :
  plain name = true → has_no_file name w →
  known_faces (registered E name image_bytes image_array encoding w) =
    Some (<[encoding_file name := Npy encoding]>
            (<[image_file name := Bytes image_bytes]> (files w)))
  ∧ files_of name (registered E name image_bytes image_array encoding w) =
      <[encoding_file name := Npy encoding]>
        {[image_file name := Bytes image_bytes]}
  ∧ files (registered E name image_bytes image_array encoding w)
      !! image_file name = Some (Bytes image_bytes)
  ∧ files (registered E name image_bytes image_array encoding w)
      !! encoding_file name = Some (Npy encoding)
  ∧ elsewhere (registered E name image_bytes image_array encoding w)
    = elsewhere w.
Proof.
  intros Hplain Hno. rewrite registered_plain by done. split_and!; try done.
  - unfold files_of, files. simpl.
    rewrite !map_filter_insert_True
      by (simpl; auto using belongs_to_image_file, belongs_to_encoding_file).
    fold (files w). fold (files_of name w). by rewrite Hno.
  - unfold files. simpl. rewrite lookup_insert_ne, lookup_insert_eq; [done|].
    intros H. by apply (image_file_ne_encoding_file name).
  - unfold files. simpl. by rewrite lookup_insert_eq.
Qed.

End Registered.

(** Lines 49-81 of a registration that gets as far as writing the image. *)
Ltac registration_writes Hurl :=
  unfold register_user;
  rewrite !truthy_Some by done; simpl;
  apply try_except_ok;
  rewrite ensure_dir_run by done;
  erewrite bind_ok by (by apply os_listdir_run);
  rewrite existing_files_nil by done;
  rewrite Hurl.

(** The run of a registration that succeeds. *)
Lemma register_user_run_at
    E w name image payload image_bytes image_array encoding others :
  no_faults E →
  name ≠ "" → has_no_file name w →
  image ≠ "" → strip_data_url image = Some payload →
  b64decode E payload = Ok image_bytes →
  image_open E (Bytes image_bytes) = Ok image_array →
  face_encodings E image_array = Ok (encoding :: others) →
  register_user E (Some name) (Some image) w
  = (Ok (success ("User " +:+ name +:+
                  " registered successfully with face capture.")),
     registered E name image_bytes image_array encoding w).
Proof.
  intros [Hos Hdb] Hname Hno Himage Hurl Hdec Hopen Hfaces.
  registration_writes Hurl.
  apply try_except_ok.
  erewrite bind_ok by reflexivity.
  erewrite bind_ok by (by rewrite Hdec).
  erewrite bind_ok by (apply write_path_run; [done|by eexists]).
  erewrite bind_ok.
  2:{ eapply generate_encoding_found; eauto using content_at_put.
      apply known_faces_put. by eexists. }
  cbv beta iota. erewrite bind_ok.
  2:{ unfold db_manager_add_user, db_call. rewrite Hdb. reflexivity. }
  reflexivity.
Qed.

(** ... for a name without [/]: both files are entries of the directory. *)
Lemma register_user_run
    E w name image payload image_bytes image_array encoding others :
  no_faults E →
  name ≠ "" → plain name = true → has_no_file name w →
  image ≠ "" → strip_data_url image = Some payload →
  b64decode E payload = Ok image_bytes →
  image_open E (Bytes image_bytes) = Ok image_array →
  face_encodings E image_array = Ok (encoding :: others) →
  register_user E (Some name) (Some image) w
  = (Ok (success ("User " +:+ name +:+
                  " registered successfully with face capture.")),
     {| known_faces :=
          Some (<[encoding_file name := Npy encoding]>
                  (<[image_file name := Bytes image_bytes]> (files w)));
        calls := (calls w ++ [face_recognition_face_encodings image_array])
                 ++ [db_add_user name];
        elsewhere := elsewhere w |}).
Proof.
  intros HE Hname Hplain Hno Himage Hurl Hdec Hopen Hfaces.
  erewrite register_user_run_at by eassumption.
  by rewrite registered_plain.
Qed.


(** C1. In normal operation, registering a non-empty name that has no file
    in the directory, with an image field whose base64 payload decodes and
    in whose picture the encoder finds at least one face, answers with
    status [success].  Afterwards the path of [<name>_encoding.npy] holds
    the first encoding the encoder returned and the path of [<name>_1.jpg]
    holds the decoded bytes, and the database has received exactly one more
    call, [add_user(name)].  For a name without [/] both paths are entries
    of the directory: the files of that name are then exactly these two, and
    nothing outside the directory has changed. *)
Theorem register_user_success
    E w name image payload image_bytes image_array encoding others :
  no_faults E →
  name ≠ "" → has_no_file name w →
  image ≠ "" → strip_data_url image = Some payload →
  b64decode E payload = Ok image_bytes →
  image_open E (Bytes image_bytes) = Ok image_array →
  face_encodings E image_array = Ok (encoding :: others) →
  ∃ r w', register_user E (Some name) (Some image) w = (Ok r, w')
    ∧ status r = "success"
    ∧ lookup_path E w' (encoding_file name) = Some (Npy encoding)
    ∧ is_Some (lookup_path E w' (image_file name))
    ∧ (place E (image_file name) ≠ place E (encoding_file name) →
       lookup_path E w' (image_file name) = Some (Bytes image_bytes))
    ∧ image_file name ≠ encoding_file name
    ∧ db_calls w' = db_calls w ++ [db_add_user name]
    ∧ calls w' = calls w ++ [face_recognition_face_encodings image_array;
                             db_add_user name]
    ∧ (plain name = true →
       known_faces w' =
         Some (<[encoding_file name := Npy encoding]>
                 (<[image_file name := Bytes image_bytes]> (files w)))
       ∧ files_of name w' =
           <[encoding_file name := Npy encoding]>
             {[image_file name := Bytes image_bytes]}
       ∧ files w' !! image_file name = Some (Bytes image_bytes)
       ∧ files w' !! encoding_file name = Some (Npy encoding)
       ∧ elsewhere w' = elsewhere w).
Proof.
  intros HE Hname Hno Himage Hurl Hdec Hopen Hfaces.
  eexists _, _. split; [eapply register_user_run_at; eassumption|].
  split; [done|]. split; [apply registered_encoding|].
  split; [apply registered_image|]. split; [apply registered_image|].
  split; [apply image_file_ne_encoding_file|].
  split; [apply registered_calls|]. split; [apply registered_calls|].
  intros Hplain. by apply registered_plain_files.
Qed.

Lemma register_user_success_witness :
  ∃ r w', register_user sample_env (Some "bob")
            (Some "data:image/jpeg;base64,eGZ5") alice_world = (Ok r, w')
    ∧ status r = "success"
    ∧ known_faces w' =
        Some (<[encoding_file "bob" := Npy [102%Z]]>
                (<[image_file "bob" := Bytes "xfy"]> (files alice_world)))
    ∧ files_of "bob" w' =
        <[encoding_file "bob" := Npy [102%Z]]> {[image_file "bob" := Bytes "xfy"]}
    ∧ image_file "bob" ≠ encoding_file "bob"
    ∧ db_calls w' = db_calls alice_world ++ [db_add_user "bob"]
    ∧ calls w' = calls alice_world
                 ++ [face_recognition_face_encodings [120%Z; 102%Z; 121%Z];
                     db_add_user "bob"].
Proof.
  destruct (register_user_success sample_env alice_world "bob"
              "data:image/jpeg;base64,eGZ5" "eGZ5" "xfy" [120%Z; 102%Z; 121%Z]
              [102%Z] [])
    as (r & w' & Hrun & Hs & _ & _ & _ & Hne & Hdb & Hc & Hplain).
  - split; reflexivity.
  - discriminate.
  - vm_compute. reflexivity.
  - discriminate.
  - reflexivity.
  - reflexivity.
  - reflexivity.
  - reflexivity.
  - destruct (Hplain eq_refl) as (Hk & Hf & _).
    exists r, w'. repeat (split; [assumption|]). assumption.
Defined.

(** The run of a registration in whose image the encoder finds no face. *)
Lemma register_user_no_face_run
    E w name image payload image_bytes image_array :
  no_faults E →
  name ≠ "" → has_no_file name w →
  image ≠ "" → strip_data_url image = Some payload →
  b64decode E payload = Ok image_bytes →
  image_open E (Bytes image_bytes) = Ok image_array →
  face_encodings E image_array = Ok [] →
  register_user E (Some name) (Some image) w
  = (Ok (error "Failed to generate face encoding. Please ensure a clear face image with good lighting."),
     unlink (place E (image_file name))
       (record_call (face_recognition_face_encodings image_array)
          (put (place E (image_file name)) (Bytes image_bytes)
             (with_dir w (files w))))).
Proof.
  intros [Hos Hdb] Hname Hno Himage Hurl Hdec Hopen Hfaces.
  registration_writes Hurl.
  apply try_except_ok.
  erewrite bind_ok by reflexivity.
  erewrite bind_ok by (by rewrite Hdec).
  erewrite bind_ok by (apply write_path_run; [done|by eexists]).
  set (t1 := place E (image_file name)).
  set (w1 := put t1 (Bytes image_bytes) (with_dir w (files w))).
  assert (is_Some (known_faces w1)) as Hd1
    by (apply known_faces_put; by eexists).
  assert (content_at (record_call
            (face_recognition_face_encodings image_array) w1) t1
          = Some (Bytes image_bytes)) as H1 by apply content_at_put.
  erewrite bind_ok.
  2:{ eapply generate_encoding_none; eauto using content_at_put. }
  cbv beta iota. erewrite bind_ok.
  2:{ unfold os_path_exists. rewrite lookup_path_dir by done. fold t1.
      rewrite H1. reflexivity. }
  rewrite bool_decide_eq_true_2 by eauto.
  erewrite bind_ok.
  2:{ apply os_remove_path_run; [done|done|]. fold t1. rewrite H1. eauto. }
  reflexivity.
Qed.

(** C3, as the code has it.  In normal operation, when the encoder finds no
    face in the saved image, [POST /register_user] answers with status
    [error], the image it wrote is removed, no encoding is saved and the
    database is not called.  No file but the image is touched, so the files
    are those of before when the path of the image named no file before, as
    is the case for every name without [/].  The directory itself exists
    afterwards, also when it did not before (line 62 created it). *)
Theorem register_user_no_face
    E w name image payload image_bytes image_array :
  no_faults E →
  name ≠ "" → has_no_file name w →
  image ≠ "" → strip_data_url image = Some payload →
  b64decode E payload = Ok image_bytes →
  image_open E (Bytes image_bytes) = Ok image_array →
  face_encodings E image_array = Ok [] →
  ∃ r w', register_user E (Some name) (Some image) w = (Ok r, w')
    ∧ status r = "error"
    ∧ lookup_path E w' (image_file name) = None
    ∧ is_Some (known_faces w')
    ∧ (∀ t, t ≠ place E (image_file name) → content_at w' t = content_at w t)
    ∧ (content_at w (place E (image_file name)) = None →
       files w' = files w ∧ elsewhere w' = elsewhere w)
    ∧ (plain name = true →
       known_faces w' = Some (files w)
       ∧ files w' = files w
       ∧ elsewhere w' = elsewhere w
       ∧ files w' !! image_file name = None
       ∧ files w' !! encoding_file name = None)
    ∧ db_calls w' = db_calls w
    ∧ calls w' = calls w ++ [face_recognition_face_encodings image_array].
Proof.
  intros HE Hname Hno Himage Hurl Hdec Hopen Hfaces.
  pose proof (has_no_file_lookup name w _ Hno (belongs_to_image_file name)) as Hi.
  pose proof (has_no_file_lookup name w _ Hno (belongs_to_encoding_file name)) as He.
  eexists _, _. split; [eapply register_user_no_face_run; eassumption|].
  split; [done|].
  assert (∀ t, known_faces (unlink t (record_call
                 (face_recognition_face_encodings image_array)
                 (put t (Bytes image_bytes) (with_dir w (files w)))))
               = Some match t with
                      | Entry f => delete f (files w)
                      | Elsewhere _ => files w
                      end) as Hk.
  { intros [f|p]; simpl; [|done]. unfold files at 1. simpl.
    by rewrite delete_insert_eq. }
  assert (∀ t, elsewhere (unlink t (record_call
                 (face_recognition_face_encodings image_array)
                 (put t (Bytes image_bytes) (with_dir w (files w)))))
               = match t with
                 | Entry _ => elsewhere w
                 | Elsewhere p => delete p (elsewhere w)
                 end) as Hel.
  { intros [f|p]; simpl; [done|]. by rewrite delete_insert_eq. }
  split_and!.
  - rewrite lookup_path_dir by (rewrite Hk; by eexists). apply content_at_unlink.
  - rewrite Hk. by eexists.
  - intros t Hne.
    rewrite content_at_unlink_ne, content_at_record_call, content_at_put_ne
      by done.
    by destruct t.
  - intros Hnone. unfold files at 1. rewrite Hk, Hel.
    destruct (place E (image_file name)) as [f|p]; simpl in *.
    + by rewrite delete_id.
    + by rewrite delete_id.
  - intros Hplain.
    assert (∀ f, files (unlink (place E (image_file name))
                   (record_call (face_recognition_face_encodings image_array)
                      (put (place E (image_file name)) (Bytes image_bytes)
                         (with_dir w (files w))))) !! f = files w !! f) as Hf.
    { intros f. unfold files at 1. rewrite Hk.
      rewrite place_plain by (by rewrite plain_image_file).
      simpl. by rewrite delete_id. }
    apply map_eq in Hf. rewrite !Hf, Hk, Hel.
    rewrite place_plain by (by rewrite plain_image_file).
    by rewrite delete_id.
  - unfold db_calls. rewrite calls_unlink. simpl. rewrite calls_put. simpl.
    rewrite List.filter_app. simpl. apply app_nil_r.
  - rewrite calls_unlink. simpl. by rewrite calls_put.
Qed.

Lemma register_user_no_face_witness :
  ∃ r w', register_user pixel_env (Some "bob") (Some pixel_b64) alice_world
          = (Ok r, w')
    ∧ status r = "error"
    ∧ known_faces w' = Some (files alice_world)
    ∧ files w' !! image_file "bob" = None
    ∧ files w' !! encoding_file "bob" = None
    ∧ db_calls w' = db_calls alice_world
    ∧ calls w' = calls alice_world
                 ++ [face_recognition_face_encodings [0%Z; 0%Z; 0%Z]].
Proof.
  destruct (register_user_no_face pixel_env alice_world "bob" pixel_b64
              pixel_b64 pixel_gif [0%Z; 0%Z; 0%Z])
    as (r & w' & Hrun & Hs & _ & _ & _ & _ & Hplain & Hdb & Hc).
  - split; reflexivity.
  - discriminate.
  - vm_compute. reflexivity.
  - discriminate.
  - reflexivity.
  - vm_compute. reflexivity.
  - vm_compute. reflexivity.
  - reflexivity.
  - destruct (Hplain eq_refl) as (Hk & _ & _ & Hi & He).
    exists r, w'. repeat (split; [assumption|]). assumption.
Defined.

(** C3 as it is written fails where the directory does not exist yet.  The
    image field is the base64 text of a picture of one pixel; it decodes,
    the picture is opened and the encoder, called on it, finds no face.  The
    reply is the encoding error, and the directory, absent before the
    request, is there after it. *)
Lemma register_user_no_face_makes_directory :
  b64decode pixel_env pixel_b64 = Ok pixel_gif
  ∧ image_open pixel_env (Bytes pixel_gif) = Ok [0%Z; 0%Z; 0%Z]
  ∧ face_encodings pixel_env [0%Z; 0%Z; 0%Z] = Ok []
  ∧ (register_user pixel_env (Some "bob") (Some pixel_b64) fresh_world).1
    = Ok (error "Failed to generate face encoding. Please ensure a clear face image with good lighting.")
  ∧ calls (register_user pixel_env (Some "bob") (Some pixel_b64) fresh_world).2
    = [face_recognition_face_encodings [0%Z; 0%Z; 0%Z]]
  ∧ known_faces fresh_world = None
  ∧ known_faces (register_user pixel_env (Some "bob") (Some pixel_b64) fresh_world).2
    = Some ∅
  ∧ known_faces (register_user pixel_env (Some "bob") (Some pixel_b64) fresh_world).2
    ≠ known_faces fresh_world.
Proof. split_and!; try (vm_compute; reflexivity). by vm_compute. Qed.

(** ** Deletion *)

Section Deletion.

Context (E : Env) (username : string).
Hypothesis Hos : ∀ op, os_fault E op = None.

Lemma with_dir_id w d : known_faces w = Some d → with_dir w d = w.
Proof. destruct w; simpl. by intros ->. Qed.

(** The loop of lines 179-182 over distinct names of existing files. *)
Lemma delete_loop l : ∀ w d,
  known_faces w = Some d → NoDup l → (∀ f, f ∈ l → is_Some (d !! f)) →
  for_each l (remove_if_belongs E username) w = (Ok tt, with_dir w (filter (kept username l) d)).
Proof.
  induction l as [|f l IH]; intros w d Hd Hnd Hin.
  - simpl. unfold ret. f_equal. rewrite with_dir_id; [done|].
    rewrite Hd. f_equal. symmetry. apply map_filter_id.
    intros k x _ [Hk _]. by apply not_elem_of_nil in Hk.
  - apply NoDup_cons in Hnd as [Hf Hnd]. simpl.
    assert (∀ d' : gmap string content,
              filter (kept username l) d' = filter (kept username (f :: l)) d'
                  ∨ belongs_to username f = true) as Hskip.
    { intros d'. destruct (belongs_to username f) eqn:Hb; [by right|left].
      apply map_filter_ext. intros k x _. unfold kept. simpl.
      rewrite elem_of_cons. split; [|by intuition].
      intros Hk [[->|Hl] Hbk]; [congruence|by apply Hk]. }
    unfold remove_if_belongs at 1. destruct (belongs_to username f) eqn:Hb.
    + destruct (Hin f) as [c Hc]; [by left|].
      erewrite bind_ok.
      2:{ unfold os_remove, in_dir. rewrite Hos, Hd, Hc. reflexivity. }
      rewrite (IH _ (delete f d)); [|done|done|].
      * unfold with_dir. simpl. do 3 f_equal.
        apply map_eq. intros k. apply option_eq. intros x.
        rewrite !map_lookup_filter_Some. unfold kept. simpl.
        rewrite lookup_delete_Some, elem_of_cons. split.
        -- intros [[Hne Hk] Hkept]. split; [done|].
           intros [[->|Hl] Hbk]; [done|by apply Hkept].
        -- intros [Hk Hkept]. split_and!; [|done|by intuition].
           intros <-. apply Hkept. by split; [left|].
      * intros g Hg. destruct (Hin g) as [y Hy]; [by right|].
        exists y. rewrite lookup_delete_ne; [done|]. by intros ->.
    + erewrite bind_ok by reflexivity.
      rewrite (IH w d); [|done|done|by intros g Hg; apply Hin; right].
      destruct (Hskip d) as [->|]; [done|congruence].
Qed.

(** Over the whole listing, the loop keeps the files [belongs_to] rejects. *)
Lemma delete_listing w d :
  known_faces w = Some d →
  for_each (map_to_list d).*1 (remove_if_belongs E username) w
  = (Ok tt, with_dir w (filter (λ kv, belongs_to username kv.1 = false) d)).
Proof.
  intros Hd. rewrite (delete_loop _ w d Hd).
  - do 3 f_equal. apply map_filter_ext. intros k x Hk. unfold kept. simpl.
    destruct (belongs_to username k); split; try done.
    + intros H. destruct H. split; [|done]. apply elem_of_listing. by eexists.
    + by intros _ [_ ?].
  - apply NoDup_fst_map_to_list.
  - intros f. by rewrite elem_of_listing.
Qed.

End Deletion.

Lemma delete_user_run E w username :
  no_faults E →
  delete_user E username w
  = (Ok (success ("User " +:+ username +:+ " deleted")),
     {| known_faces :=
          filter (λ kv, belongs_to username kv.1 = false) <$> known_faces w;
        calls := calls w ++ [db_delete_user username];
        elsewhere := elsewhere w |}).
Proof.
  intros [Hos Hdb]. unfold delete_user. apply try_except_ok.
  unfold bind at 1. unfold os_path_exists_dir.
  destruct (known_faces w) as [d|] eqn:Hd; simpl.
  - erewrite bind_ok.
    2:{ erewrite bind_ok by (by apply os_listdir_run).
        by apply delete_listing. }
    erewrite bind_ok.
    2:{ unfold db_manager_delete_user, db_call. rewrite Hdb. reflexivity. }
    reflexivity.
  - erewrite bind_ok by reflexivity.
    erewrite bind_ok.
    2:{ unfold db_manager_delete_user, db_call. rewrite Hdb. reflexivity. }
    unfold ret, record_call. by rewrite Hd.
Qed.

Lemma has_no_file_filter username w (d : gmap string content) :
  known_faces w = Some d →
  has_no_file username w →
  filter (λ kv, belongs_to username kv.1 = false) d = d.
Proof.
  intros Hd Hno. apply map_filter_id. intros f c Hf. simpl.
  apply (has_no_file_elim username w Hno). rewrite (files_Some _ _ Hd). by eexists.
Qed.

(** C4. In normal operation, for every username, [GET /delete_user/<username>]
    answers with the success reply, leaves in the directory exactly the files
    that do not start with [<username>_] or end in neither [.jpg] nor
    [_encoding.npy], and calls [db_manager.delete_user(username)] once.  It
    does so whether or not the user has files or a database row: run again on
    the world it produced, it gives the same reply and leaves the directory
    as it is. *)
Theorem delete_user_removes E w username :
  no_faults E →
  ∃ r w' w'',
    delete_user E username w = (Ok r, w')
    ∧ r = success ("User " +:+ username +:+ " deleted")
    ∧ status r = "success"
    ∧ known_faces w' =
        filter (λ kv, belongs_to username kv.1 = false) <$> known_faces w
    ∧ has_no_file username w'
    ∧ calls w' = calls w ++ [db_delete_user username]
    ∧ (has_no_file username w → known_faces w' = known_faces w)
    ∧ delete_user E username w' = (Ok r, w'')
    ∧ known_faces w'' = known_faces w'.
Proof.
  intros HE.
  assert (∀ w0, has_no_file username w0 →
    filter (λ kv, belongs_to username kv.1 = false) <$> known_faces w0
    = known_faces w0) as Hid.
  { intros w0 Hno. destruct (known_faces w0) as [d|] eqn:Hd; [|done].
    simpl. f_equal. by eapply has_no_file_filter. }
  assert (has_no_file username
    {| known_faces :=
         filter (λ kv, belongs_to username kv.1 = false) <$> known_faces w;
       calls := calls w ++ [db_delete_user username];
       elsewhere := elsewhere w |}) as Hgone.
  { unfold has_no_file, files_of, files. simpl.
    apply map_empty. intros f. apply map_lookup_filter_None. right.
    intros c Hc. simpl. destruct (known_faces w) as [d|]; simpl in Hc.
    - apply map_lookup_filter_Some in Hc as [_ Hb]. simpl in Hb. congruence.
    - by rewrite lookup_empty in Hc. }
  eexists _, _, _. split; [by apply delete_user_run|].
  do 6 (split; [done || apply Hid|]).
  split; [by apply delete_user_run|].
  apply (Hid _ Hgone).
Qed.

Lemma delete_user_removes_witness :
  ∃ r w' w'',
    delete_user sample_env "alice" alice_world = (Ok r, w')
    ∧ r = success ("User " +:+ "alice" +:+ " deleted")
    ∧ status r = "success"
    ∧ known_faces w' =
        filter (λ kv, belongs_to "alice" kv.1 = false) <$> known_faces alice_world
    ∧ has_no_file "alice" w'
    ∧ calls w' = calls alice_world ++ [db_delete_user "alice"]
    ∧ (has_no_file "alice" alice_world → known_faces w' = known_faces alice_world)
    ∧ delete_user sample_env "alice" w' = (Ok r, w'')
    ∧ known_faces w'' = known_faces w'.
Proof.
  apply (delete_user_removes sample_env alice_world "alice").
  split; reflexivity.
Defined.

(** ** Direct addition *)

Lemma add_user_run E w name :
  no_faults E → name ≠ "" → has_no_file name w →
  add_user E (Some name) w
  = (Ok {| status := "success";
           message := "User " +:+ name +:+
             " added successfully. Please capture face image for recognition.";
           user_name := Some name |},
     {| known_faces := Some (files w);
        calls := calls w ++ [db_add_user name];
        elsewhere := elsewhere w |}).
Proof.
  intros [Hos Hdb] Hname Hno. unfold add_user.
  rewrite truthy_Some by done. simpl.
  apply try_except_ok.
  rewrite ensure_dir_run by done.
  erewrite bind_ok by (by apply os_listdir_run).
  rewrite existing_files_nil by done.
  erewrite bind_ok.
  2:{ unfold db_manager_add_user, db_call. rewrite Hdb. reflexivity. }
  reflexivity.
Qed.

(** C9. In normal operation, [POST /add_user] with a non-empty name that has
    no file in the directory answers with status [success] and calls
    [db_manager.add_user(name)], whatever calls the database has received and
    whatever rows it holds: the handler never asks the database.  A second
    request for the same name succeeds and calls [add_user] again. *)
Theorem add_user_checks_files_only E w name :
  no_faults E → name ≠ "" → has_no_file name w →
  ∃ r1 w1 r2 w2,
    add_user E (Some name) w = (Ok r1, w1)
    ∧ status r1 = "success"
    ∧ calls w1 = calls w ++ [db_add_user name]
    ∧ files w1 = files w
    ∧ add_user E (Some name) w1 = (Ok r2, w2)
    ∧ status r2 = "success"
    ∧ calls w2 = calls w ++ [db_add_user name; db_add_user name]
    ∧ files w2 = files w.
Proof.
  intros HE Hname Hno. eexists _, _, _, _.
  split; [by apply add_user_run|].
  do 3 (split; [done|]).
  split; [by apply add_user_run|].
  simpl. split_and!; try done. by rewrite <- app_assoc.
Qed.


Lemma add_user_checks_files_only_witness :
  "bob" ∈ ur_name <$> db_users sample_env (calls bob_in_database)
  ∧ ∃ r1 w1 r2 w2,
    add_user sample_env (Some "bob") bob_in_database = (Ok r1, w1)
    ∧ status r1 = "success"
    ∧ calls w1 = calls bob_in_database ++ [db_add_user "bob"]
    ∧ files w1 = files bob_in_database
    ∧ add_user sample_env (Some "bob") w1 = (Ok r2, w2)
    ∧ status r2 = "success"
    ∧ calls w2 = calls bob_in_database ++ [db_add_user "bob"; db_add_user "bob"]
    ∧ files w2 = files bob_in_database.
Proof.
  split.
  - vm_compute. apply list_elem_of_In. right. by left.
  - apply (add_user_checks_files_only sample_env bob_in_database "bob").
    + split; reflexivity.
    + discriminate.
    + vm_compute. reflexivity.
Defined.

(** ** Access logs *)

Lemma logs_run E w :
  logs E w =
  match db_fault E (calls w) (db_get_recent_access_logs 100) with
  | Some e => (Raise e, record_call (db_get_recent_access_logs 100) w)
  | None => (Ok (log_entry_of <$> db_logs E (calls w) 100),
             record_call (db_get_recent_access_logs 100) w)
  end.
Proof.
  unfold logs, read_access_logs, bind, db_manager_get_recent_access_logs, db_call.
  by destruct (db_fault E (calls w) _).
Qed.

(** C6, as the code has it.  When [db_manager.get_recent_access_logs(100)]
    returns [rows], [GET /logs] returns one entry per row, in the order of
    the rows: the row's timestamp, its event type and its person name, with
    ["N/A"] in place of a null name.  It returns as many entries as the
    database returned rows: lines 194-200 drop none, so there are at most
    100 exactly when the database returned at most 100. *)
Theorem logs_reshapes_rows E w rows :
  db_fault E (calls w) (db_get_recent_access_logs 100) = None →
  db_logs E (calls w) 100 = rows →
  ∃ entries w',
    logs E w = (Ok entries, w')
    ∧ entries = log_entry_of <$> rows
    ∧ length entries = length rows
    ∧ (length entries ≤ 100 ↔ length rows ≤ 100)
    ∧ (∀ i db_log, rows !! i = Some db_log →
         ∃ entry, entries !! i = Some entry
           ∧ timestamp entry = lr_timestamp db_log
           ∧ event entry = lr_event_type db_log
           ∧ (lr_person_name db_log = None → person entry = "N/A")
           ∧ (∀ p, lr_person_name db_log = Some p → p ≠ "" → person entry = p))
    ∧ calls w' = calls w ++ [db_get_recent_access_logs 100].
Proof.
  intros Hok Hrows. eexists _, _. split.
  { rewrite logs_run, Hok, Hrows. reflexivity. }
  rewrite length_fmap. split_and!; try done.
  intros i db_log Hi. exists (log_entry_of db_log).
  rewrite list_lookup_fmap, Hi. split_and!; try done.
  - unfold log_entry_of, or_na. simpl. by intros ->.
  - unfold log_entry_of, or_na. simpl. intros p -> Hp.
    by rewrite truthy_Some.
Qed.

Lemma logs_reshapes_rows_witness :
  ∃ entries w',
    logs sample_env alice_world = (Ok entries, w')
    ∧ entries = log_entry_of <$> sample_log
    ∧ length entries = length sample_log
    ∧ (length entries ≤ 100 ↔ length sample_log ≤ 100)
    ∧ (∀ i db_log, sample_log !! i = Some db_log →
         ∃ entry, entries !! i = Some entry
           ∧ timestamp entry = lr_timestamp db_log
           ∧ event entry = lr_event_type db_log
           ∧ (lr_person_name db_log = None → person entry = "N/A")
           ∧ (∀ p, lr_person_name db_log = Some p → p ≠ "" → person entry = p))
    ∧ calls w' = calls alice_world ++ [db_get_recent_access_logs 100].
Proof.
  apply (logs_reshapes_rows sample_env alice_world sample_log).
  - reflexivity.
  - reflexivity.
Defined.

(** C6 as it is written fails when the database returns more rows than the
    100 it was asked for: of 101 rows [GET /logs] returns 101 entries. *)
Lemma logs_returns_every_row :
  length (db_logs unbounded_env (calls alice_world) 100) = 101
  ∧ (logs unbounded_env alice_world).1
    = Ok (log_entry_of <$> db_logs unbounded_env (calls alice_world) 100)
  ∧ length (log_entry_of <$> db_logs unbounded_env (calls alice_world) 100) = 101
  ∧ ¬ (length (log_entry_of <$> db_logs unbounded_env (calls alice_world) 100)
       ≤ 100).
Proof.
  assert (length (log_entry_of <$> db_logs unbounded_env (calls alice_world) 100)
          = 101) as H by (vm_compute; reflexivity).
  split_and!; try (vm_compute; reflexivity); try done. rewrite H. lia.
Qed.

(** C10. An empty person name is falsy, as a null one is: [GET /logs] gives
    the entry of a row whose person name is [''] the person ["N/A"], and the
    entry is the one the same row would have with a null name. *)
Theorem logs_empty_person_is_na E w entries w' i db_log :
  logs E w = (Ok entries, w') →
  db_logs E (calls w) 100 !! i = Some db_log →
  lr_person_name db_log = Some "" →
  ∃ entry, entries !! i = Some entry
    ∧ person entry = "N/A"
    ∧ entry = log_entry_of {| lr_id := lr_id db_log;
                              lr_timestamp := lr_timestamp db_log;
                              lr_event_type := lr_event_type db_log;
                              lr_person_name := None |}.
Proof.
  intros Hrun Hi Hp. rewrite logs_run in Hrun.
  destruct (db_fault E (calls w) _); [done|].
  injection Hrun as <- <-. exists (log_entry_of db_log).
  rewrite list_lookup_fmap, Hi. unfold log_entry_of. simpl. by rewrite Hp.
Qed.

Lemma logs_empty_person_is_na_witness :
  ∃ entry,
    (log_entry_of <$> sample_log) !! 2 = Some entry
    ∧ person entry = "N/A"
    ∧ entry = log_entry_of {| lr_id := 1;
                              lr_timestamp := "2024-01-01 10:00:00";
                              lr_event_type := "DOOR_LOCKED";
                              lr_person_name := None |}.
Proof.
  apply (logs_empty_person_is_na sample_env alice_world
           (log_entry_of <$> sample_log)
           (record_call (db_get_recent_access_logs 100) alice_world)
           2 {| lr_id := 1; lr_timestamp := "2024-01-01 10:00:00";
                lr_event_type := "DOOR_LOCKED"; lr_person_name := Some "" |}).
  - reflexivity.
  - reflexivity.
  - reflexivity.
Defined.

(** ** Exceptions *)


Section Catching.

Context {A B : Type}.

Lemma yields_ret (P : A → Prop) a : P a → yields P (ret a).
Proof. intros HP w a' w' [= <- _]. done. Qed.

Lemma yields_raise (P : A → Prop) e : yields P (raise e).
Proof. intros w a w' [=]. Qed.

Lemma yields_bind (P : B → Prop) (m : M A) (k : A → M B) :
  (∀ a, yields P (k a)) → yields P (bind m k).
Proof.
  intros Hk w b w'. unfold bind. destruct (m w) as [[a|e] w1]; [|done].
  apply Hk.
Qed.

Lemma yields_try_except (P : A → Prop) (m : M A) h :
  yields P m → (∀ e, yields P (h e)) → yields P (try_except m h).
Proof.
  intros Hm Hh w a w'. unfold try_except.
  destruct (m w) as [[a1|e] w1] eqn:Hw.
  - intros [= <- <-]. by eapply Hm.
  - apply Hh.
Qed.

(** A [try] whose handler returns does not raise. *)
Lemma returns_try_except (P : A → Prop) (m : M A) h :
  yields P m → (∀ e, returns P (h e)) → returns P (try_except m h).
Proof.
  intros Hm Hh w. unfold try_except.
  destruct (m w) as [[a|e] w1] eqn:Hw.
  - exists a, w1. split; [done|]. by eapply Hm.
  - apply Hh.
Qed.

Lemma returns_ret (P : A → Prop) a : P a → returns P (ret a).
Proof. intros HP w. by exists a, w. Qed.

End Catching.


Lemma is_reply_error msg : is_reply (error msg).
Proof. by right. Qed.

Lemma is_reply_success msg : is_reply (success msg).
Proof. by left. Qed.

#[local] Hint Resolve is_reply_error is_reply_success : core.

Ltac yields_step :=
  first
    [ apply yields_ret; (by auto) || (by left) || (by right)
    | apply yields_raise
    | apply yields_try_except; [|intros ?]
    | apply yields_bind; intros ?
    | match goal with
      | |- yields _ (if ?b then _ else _) => destruct b
      | |- yields _ (match ?l with [] => _ | _ :: _ => _ end) => destruct l
      end ].

Lemma register_user_catches E name image :
  returns is_reply (register_user E name image).
Proof.
  unfold register_user. apply returns_try_except.
  - repeat yields_step.
  - intros e. by apply returns_ret.
Qed.

Lemma add_user_catches E name : returns is_reply (add_user E name).
Proof.
  unfold add_user. apply returns_try_except.
  - repeat yields_step.
  - intros e. by apply returns_ret.
Qed.

Lemma delete_user_catches E username : returns is_reply (delete_user E username).
Proof.
  unfold delete_user. apply returns_try_except.
  - repeat yields_step.
  - intros e. by apply returns_ret.
Qed.

Section Inversion.

Context (E : Env).

Lemma locate_record_call c w file :
  locate E (record_call c w) file = locate E w file.
Proof. reflexivity. Qed.

(** A path that led somewhere still leads there after a file is written. *)
Lemma locate_put w file t t' c :
  locate E w file = Some t → locate E (put t' c w) file = Some t.
Proof.
  unfold locate.
  destruct (Py.startswith "/" file) eqn:Habs; simpl; [done|].
  case_bool_decide as Hd; [|done]. intros <-.
  rewrite bool_decide_eq_true_2; [done|]. by apply known_faces_put.
Qed.

(** What a write that returned has done. *)
Lemma write_path_inv op file c w w' :
  write_path E op file c w = (Ok tt, w') →
  os_fault E op = None
  ∧ ∃ t, locate E w file = Some t ∧ w' = put t c w.
Proof.
  unfold write_path. destruct (os_fault E op); [done|].
  destruct (locate E w file) as [[f|p]|]; [|by intros [= <-]; eauto|done].
  destruct (known_faces w); [by intros [= <-]; eauto|done].
Qed.

(** What [generate_single_user_encoding] has done when it returns. *)
Lemma generate_encoding_inv name w b w' :
  generate_single_user_encoding E name w = (Ok b, w') →
  (b = true →
   ∃ c image_array encoding others t,
     lookup_path E w (image_file name) = Some c
     ∧ image_open E c = Ok image_array
     ∧ face_encodings E image_array = Ok (encoding :: others)
     ∧ os_fault E (NpSave (encoding_file name)) = None
     ∧ locate E w (encoding_file name) = Some t
     ∧ w' = put t (Npy encoding)
              (record_call (face_recognition_face_encodings image_array) w))
  ∧ (b = false → known_faces w' = known_faces w ∧ elsewhere w' = elsewhere w)
  ∧ (lookup_path E w (image_file name) = None → b = false ∧ w' = w).
Proof.
  unfold generate_single_user_encoding, try_except, bind, ret, os_path_exists,
    load_image, call_face_encodings, np_save.
  destruct (lookup_path E w (image_file name)) as [c|] eqn:Hc; simpl.
  2:{ intros [= <- <-]. by split_and!. }
  rewrite Hc.
  destruct (image_open E c) as [a|e] eqn:Ha; simpl.
  2:{ intros [= <- <-]. by split_and!. }
  destruct (face_encodings E a) as [[|enc rest]|e] eqn:Hf; simpl.
  1,3: intros [= <- <-]; by split_and!.
  destruct (write_path E _ _ _ _) as [[[]|e] w1] eqn:Hw; simpl.
  2:{ intros [= <- <-]. split_and!; try done.
      unfold write_path in Hw. simpl in Hw.
      intros _. repeat case_match; by simplify_eq/=. }
  intros [= <- <-]. apply write_path_inv in Hw as (Ho & t & Ht & ->).
  split_and!; try done.
  intros _. by exists c, a, enc, rest, t.
Qed.

End Inversion.

Lemma register_user_success_inv E w name image r w' :
  register_user E name image w = (Ok r, w') → status r = "success" →
  ∃ payload image_bytes image_array encoding others,
    strip_data_url (the image) = Some payload
    ∧ b64decode E payload = Ok image_bytes
    ∧ image_open E (Bytes image_bytes) = Ok image_array
    ∧ face_encodings E image_array = Ok (encoding :: others)
    ∧ (known_faces w = None → os_fault E Makedirs = None)
    ∧ os_fault E Listdir = None
    ∧ os_fault E (OpenWrite (image_file (the name))) = None
    ∧ os_fault E (NpSave (encoding_file (the name))) = None
    ∧ db_fault E (calls w ++ [face_recognition_face_encodings image_array])
        (db_add_user (the name)) = None.
Proof.
  unfold register_user, try_except, bind, ret, raise, os_path_exists_dir,
    os_makedirs, os_listdir, db_manager_add_user, db_call, in_dir, open_write.
  intros H Hs.
  repeat (case_match; simplify_eq/=; try done).
  all: match goal with
       | Hw : write_path _ _ _ _ _ = (Ok ?u, _),
         Hg : generate_single_user_encoding _ _ _ = _ |- _ =>
           destruct u;
           apply write_path_inv in Hw as (Ho & t & Ht & ->);
           apply generate_encoding_inv in Hg as (Htrue & _ & _);
           destruct (Htrue eq_refl)
             as (c & arr & enc & others & t2 & Hc & Hia & Hfe & Hnp & Ht2 & ->);
           unfold lookup_path in Hc;
           rewrite (locate_put _ _ _ _ _ _ Ht), content_at_put in Hc;
           injection Hc as <-
       end.
  all: match goal with
       | Hdb : db_fault _ _ _ = None |- _ =>
           rewrite calls_put in Hdb; simpl in Hdb; rewrite calls_put in Hdb;
           simpl in Hdb
       end.
  all: eexists _, _, _, _, _; split_and!; try done; congruence.
Qed.

Lemma add_user_success_inv E w name r w' :
  add_user E name w = (Ok r, w') → status r = "success" →
  (known_faces w = None → os_fault E Makedirs = None)
  ∧ os_fault E Listdir = None
  ∧ db_fault E (calls w) (db_add_user (the name)) = None.
Proof.
  unfold add_user, try_except, bind, ret, os_path_exists_dir, os_makedirs,
    os_listdir, db_manager_add_user, db_call, in_dir, with_dir, record_call.
  intros H Hs.
  repeat (case_match; simplify_eq/=; try done).
  split_and!; try done. congruence.
Qed.

Lemma delete_loop_inv E username l : ∀ w r w',
  for_each l (remove_if_belongs E username) w = (r, w') →
  calls w' = calls w
  ∧ (r = Ok tt →
     ∀ f, f ∈ l → belongs_to username f = true → os_fault E (Remove f) = None).
Proof.
  induction l as [|f l IH]; intros w r w'; simpl.
  - intros [= <- <-]. split; [done|]. by intros _ f' ?%not_elem_of_nil.
  - unfold bind at 1. unfold remove_if_belongs at 1.
    destruct (belongs_to username f) eqn:Hb.
    + unfold os_remove, in_dir, with_dir.
      destruct (os_fault E (Remove f)) eqn:Hf; [by intros [= <- <-]|].
      destruct (known_faces w) as [d|]; [|by intros [= <- <-]].
      destruct (d !! f); [|by intros [= <- <-]].
      intros [Hc Hr]%IH. simpl in Hc. split; [done|].
      intros -> f' [->|Hin]%elem_of_cons Hb'; [done|by apply Hr].
    + unfold ret at 1. intros [Hc Hr]%IH. split; [done|].
      intros -> f' [->|Hin]%elem_of_cons Hb'; [congruence|by apply Hr].
Qed.

Lemma delete_user_success_inv E w username r w' :
  delete_user E username w = (Ok r, w') → status r = "success" →
  db_fault E (calls w) (db_delete_user username) = None
  ∧ ∀ d, known_faces w = Some d →
      os_fault E Listdir = None
      ∧ ∀ f, is_Some (d !! f) → belongs_to username f = true →
          os_fault E (Remove f) = None.
Proof.
  unfold delete_user, try_except. unfold bind at 1. unfold os_path_exists_dir.
  destruct (known_faces w) as [d|] eqn:Hd; simpl.
  - unfold bind at 1. unfold bind at 1. unfold os_listdir, in_dir. rewrite Hd.
    destruct (os_fault E Listdir) eqn:Hl; [by intros [= <- <-]|].
    destruct (for_each _ _ w) as [[[]|e] w1] eqn:Hloop; [|by intros [= <- <-]].
    apply delete_loop_inv in Hloop as [Hc Hr].
    unfold bind, db_manager_delete_user, db_call, ret. rewrite Hc.
    destruct (db_fault E (calls w) _); [by intros [= <- <-]|].
    intros _ _. split; [done|]. intros ? [= <-]. split; [done|].
    intros f Hf. apply Hr; [done|]. by apply elem_of_listing.
  - unfold bind, db_manager_delete_user, db_call, ret.
    destruct (db_fault E (calls w) _); [by intros [= <- <-]|].
    intros _ _. split; [done|]. by intros.
Qed.

(** C7, as the code has it.  [POST /register_user], [POST /add_user] and
    [GET /delete_user/<username>] never let an exception out, whatever the
    filesystem, the database and the encoder do: each returns a JSON body
    whose status is [success] or [error], and the status is [success] only if
    none of the calls on the way to it raised, [os.makedirs] included where
    the directory had to be created.  [GET /], [GET /users] and [GET /logs]
    have no [try]: an exception of [db_manager] leaves them as it was
    raised. *)
Theorem handlers_catch E w name image username :
  (∃ r w', register_user E name image w = (Ok r, w') ∧ is_reply r
     ∧ (status r = "success" →
        ∃ payload image_bytes image_array encoding others,
          strip_data_url (the image) = Some payload
          ∧ b64decode E payload = Ok image_bytes
          ∧ image_open E (Bytes image_bytes) = Ok image_array
          ∧ face_encodings E image_array = Ok (encoding :: others)
          ∧ (known_faces w = None → os_fault E Makedirs = None)
          ∧ os_fault E Listdir = None
          ∧ os_fault E (OpenWrite (image_file (the name))) = None
          ∧ os_fault E (NpSave (encoding_file (the name))) = None
          ∧ db_fault E (calls w ++ [face_recognition_face_encodings image_array])
              (db_add_user (the name)) = None))
  ∧ (∃ r w', add_user E name w = (Ok r, w') ∧ is_reply r
       ∧ (status r = "success" →
          (known_faces w = None → os_fault E Makedirs = None)
          ∧ os_fault E Listdir = None
          ∧ db_fault E (calls w) (db_add_user (the name)) = None))
  ∧ (∃ r w', delete_user E username w = (Ok r, w') ∧ is_reply r
       ∧ (status r = "success" →
          db_fault E (calls w) (db_delete_user username) = None
          ∧ ∀ d, known_faces w = Some d →
              os_fault E Listdir = None
              ∧ ∀ f, is_Some (d !! f) → belongs_to username f = true →
                  os_fault E (Remove f) = None))
  ∧ (∀ e, db_fault E (calls w) db_get_all_users = Some e →
       (index E w).1 = Raise e ∧ (users E w).1 = Raise e)
  ∧ (∀ e, db_fault E (calls w) (db_get_recent_access_logs 100) = Some e →
       (logs E w).1 = Raise e).
Proof.
  split_and!.
  - destruct (register_user_catches E name image w) as (r & w' & Hrun & Hr).
    exists r, w'. split_and!; [done|done|].
    by apply (register_user_success_inv E w name image r w').
  - destruct (add_user_catches E name w) as (r & w' & Hrun & Hr).
    exists r, w'. split_and!; [done|done|].
    by apply (add_user_success_inv E w name r w').
  - destruct (delete_user_catches E username w) as (r & w' & Hrun & Hr).
    exists r, w'. split_and!; [done|done|].
    by apply (delete_user_success_inv E w username r w').
  - intros e He.
    unfold index, users, get_registered_users, bind,
      db_manager_get_all_users, db_call.
    by rewrite He.
  - intros e He. by rewrite logs_run, He.
Qed.

(** C7 as it is written fails on the routes without a [try]: with a database
    that raises, [GET /], [GET /users] and [GET /logs] raise. *)
Lemma read_routes_raise :
  (index offline_env alice_world).1 = Raise (Exn "database is locked")
  ∧ (users offline_env alice_world).1 = Raise (Exn "database is locked")
  ∧ (logs offline_env alice_world).1 = Raise (Exn "database is locked")
  ∧ ¬ (∃ p w', index offline_env alice_world = (Ok p, w')).
Proof. split_and!; try reflexivity. by intros (p & w' & [=]). Qed.

(** ** The listing *)

Section Dict.

Implicit Types (d : user_dict) (k : string) (v u : user).

Lemma dict_has_true k d : dict_has k d = true ↔ ∃ v, (k, v) ∈ d.
Proof.
  unfold dict_has. rewrite bool_decide_eq_true, list_elem_of_fmap. split.
  - intros [[k' v] [-> ?]]. by exists v.
  - intros [v ?]. by exists (k, v).
Qed.

Lemma dict_set_elem k v d : (k, v) ∈ dict_set k v d.
Proof.
  induction d as [|[k' v'] d IH]; simpl; [by left|].
  case_decide; [by left|by right].
Qed.

Lemma dict_set_other k v d k' v' :
  k' ≠ k → (k', v') ∈ d → (k', v') ∈ dict_set k v d.
Proof.
  intros Hne. induction d as [|[k1 v1] d IH]; simpl.
  - by intros ?%not_elem_of_nil.
  - intros [[= <- <-]|Hin]%elem_of_cons.
    + rewrite decide_False by done. by left.
    + case_decide; right; [done|by apply IH].
Qed.

Lemma set_trained_elem k b d v :
  (k, v) ∈ d →
  ∃ v', (k, v') ∈ set_trained k b d
        ∧ u_name v' = u_name v ∧ u_trained v' = b
        ∧ u_created_at v' = u_created_at v ∧ u_last_seen v' = u_last_seen v
        ∧ u_access_count v' = u_access_count v.
Proof.
  intros Hin. eexists. split.
  - unfold set_trained. apply list_elem_of_fmap. exists (k, v).
    split; [|done]. simpl. rewrite decide_True by done. reflexivity.
  - done.
Qed.

Lemma set_trained_other k b d k' v' :
  k' ≠ k → (k', v') ∈ d → (k', v') ∈ set_trained k b d.
Proof.
  intros Hne Hin. unfold set_trained. apply list_elem_of_fmap.
  exists (k', v'). split; [|done]. simpl. by rewrite decide_False.
Qed.

End Dict.

Section Scan.

Context (encoding_files : list string).

(** What one turn of the loop does to the dictionary. *)
Lemma scan_file_cases d file :
  scan_file encoding_files d file = d
  ∨ ∃ k b,
      (b = true ∨ b = bool_decide (encoding_file k ∈ encoding_files))
      ∧ ((dict_has k d = true
          ∧ scan_file encoding_files d file = set_trained k b d)
         ∨ (dict_has k d = false
            ∧ scan_file encoding_files d file
              = dict_set k (user_of_file k b) d)).
Proof.
  unfold scan_file.
  destruct (_ && _ && _).
  - destruct (2 <=? _)%nat; [|by left].
    right. exists (Py.join "_" (Py.but_last (Py.split "_" file))).
    eexists. split; [by right|].
    destruct (dict_has _ d) eqn:Hk; [by left|by right].
  - destruct (Py.endswith "_encoding.npy" file); [|by left].
    right. exists (Py.replace "_encoding.npy" "" file), true.
    split; [by left|].
    destruct (dict_has _ d) eqn:Hk; [by left|by right].
Qed.

(** An entry of the dictionary keeps its key and its name. *)
Lemma scan_file_keeps d file name u :
  (name, u) ∈ d → u_name u = name →
  ∃ u', (name, u') ∈ scan_file encoding_files d file ∧ u_name u' = name.
Proof.
  intros Hin Hname.
  destruct (scan_file_cases d file) as [->|(k & b & _ & [[Hk ->]|[Hk ->]])].
  - by exists u.
  - destruct (decide (name = k)) as [->|Hne].
    + destruct (set_trained_elem k b d u Hin) as (u' & ? & Hn & _).
      exists u'. by rewrite Hn.
    + exists u. split; [|done]. by apply set_trained_other.
  - exists u. split; [|done]. apply dict_set_other; [|done].
    intros ->. apply not_true_iff_false in Hk. apply Hk.
    apply dict_has_true. by exists u.
Qed.

Lemma scan_files_keep l : ∀ d name u,
  (name, u) ∈ d → u_name u = name →
  ∃ u', (name, u') ∈ fold_left (scan_file encoding_files) l d ∧ u_name u' = name.
Proof.
  induction l as [|f l IH]; intros d name u Hin Hname; simpl; [by exists u|].
  destruct (scan_file_keeps d f name u Hin Hname) as (u' & Hin' & Hname').
  by apply (IH _ _ u').
Qed.

(** A trained entry whose encoding file is listed stays trained. *)
Lemma scan_file_keeps_trained d file name u :
  encoding_file name ∈ encoding_files →
  (name, u) ∈ d → u_name u = name → u_trained u = true →
  ∃ u', (name, u') ∈ scan_file encoding_files d file
        ∧ u_name u' = name ∧ u_trained u' = true.
Proof.
  intros Henc Hin Hname Ht.
  destruct (scan_file_cases d file) as [->|(k & b & Hb & [[Hk ->]|[Hk ->]])].
  - by exists u.
  - destruct (decide (name = k)) as [->|Hne].
    + destruct (set_trained_elem k b d u Hin) as (u' & ? & Hn & Hb' & _).
      exists u'. rewrite Hn, Hb'. split_and!; [done|done|].
      destruct Hb as [->| ->]; [done|]. by apply bool_decide_eq_true.
    + exists u. split; [|done]. by apply set_trained_other.
  - exists u. split; [|done]. apply dict_set_other; [|done].
    intros ->. apply not_true_iff_false in Hk. apply Hk.
    apply dict_has_true. by exists u.
Qed.

Lemma scan_files_keep_trained l : ∀ d name u,
  encoding_file name ∈ encoding_files →
  (name, u) ∈ d → u_name u = name → u_trained u = true →
  ∃ u', (name, u') ∈ fold_left (scan_file encoding_files) l d
        ∧ u_name u' = name ∧ u_trained u' = true.
Proof.
  induction l as [|f l IH]; intros d name u Henc Hin Hname Ht; simpl;
    [by exists u|].
  destruct (scan_file_keeps_trained d f name u Henc Hin Hname Ht)
    as (u' & Hin' & Hname' & Ht').
  by apply (IH _ _ u').
Qed.

End Scan.

Section Listing.


Lemma named_dict_set k v d : u_name v = k → named d → named (dict_set k v d).
Proof.
  intros Hv. induction d as [|[k1 v1] d IH]; intros Hd k' v'; simpl.
  - by intros [= -> ->]%list_elem_of_singleton.
  - assert (named d) by (intros ? ? ?; apply Hd; by right).
    case_decide.
    + intros [[= -> ->]|?]%elem_of_cons; [done|]. apply Hd. by right.
    + intros [[= -> ->]|?]%elem_of_cons; [apply Hd; by left|by apply IH].
Qed.

Lemma named_set_trained k b d : named d → named (set_trained k b d).
Proof.
  intros Hd k' v'. unfold set_trained.
  intros ([k1 v1] & Heq & Hin)%list_elem_of_fmap. simpl in Heq.
  apply Hd in Hin. case_decide; by simplify_eq/=.
Qed.

Lemma named_from_rows_go rows : ∀ d,
  named d →
  named (fold_left (λ d db_user,
           dict_set (ur_name db_user) (user_of_row db_user) d) rows d).
Proof.
  induction rows as [|r rows IH]; intros d Hd; simpl; [done|].
  apply IH. by apply named_dict_set.
Qed.

Lemma named_from_rows rows : named (from_rows rows).
Proof. apply named_from_rows_go. by intros ? ? ?%not_elem_of_nil. Qed.

Lemma named_scan_file encs d file : named d → named (scan_file encs d file).
Proof.
  intros Hd.
  destruct (scan_file_cases encs d file) as [->|(k & b & _ & [[_ ->]|[_ ->]])].
  - done.
  - by apply named_set_trained.
  - by apply named_dict_set.
Qed.

(** A row of the database gives its name an entry. *)
Lemma from_rows_has rows name :
  name ∈ ur_name <$> rows → ∃ u, (name, u) ∈ from_rows rows.
Proof.
  unfold from_rows.
  assert (∀ d : user_dict,
    name ∈ ur_name <$> rows ∨ (∃ u, (name, u) ∈ d) →
    ∃ u, (name, u) ∈ fold_left (λ d db_user,
           dict_set (ur_name db_user) (user_of_row db_user) d) rows d) as H.
  { induction rows as [|r rows IH]; intros d; simpl.
    - intros [?%not_elem_of_nil|?]; done.
    - intros [[->|Hin]%elem_of_cons|[u Hu]]; apply IH.
      + right. eexists. apply dict_set_elem.
      + by left.
      + right. destruct (decide (name = ur_name r)) as [->|Hne].
        * eexists. apply dict_set_elem.
        * exists u. by apply dict_set_other. }
  intros Hin. apply H. by left.
Qed.

Lemma startswith_dot_image_file name :
  Py.startswith "." name = false →
  Py.startswith "." (image_file name) = false.
Proof.
  destruct name as [|a s]; [done|].
  unfold image_file, Py.startswith. rewrite str_app_cons. simpl.
  case_match; [|done]. by destruct s.
Qed.

(** The turn of the loop on [<name>_1.jpg], for a name that does not start
    with a dot, files the name with the presence of its encoding. *)
Lemma scan_image_file encs d name :
  named d → Py.startswith "." name = false →
  ∃ u, (name, u) ∈ scan_file encs d (image_file name)
       ∧ u_name u = name
       ∧ u_trained u = bool_decide (encoding_file name ∈ encs).
Proof.
  intros Hd Hdot. unfold scan_file.
  assert (Py.endswith ".jpg" (image_file name) = true) as ->.
  { unfold image_file.
    change (name +:+ "_1.jpg") with (name +:+ ("_1" +:+ ".jpg")).
    by rewrite <- str_app_assoc, endswith_app. }
  assert (Py.contains "_" (image_file name) = true) as ->
    by (by apply contains_app_r).
  rewrite startswith_dot_image_file by done. simpl.
  rewrite parse_image_file, split_image_file, length_app. simpl.
  pose proof (split_nonempty "_" name).
  destruct (Py.split "_" name) as [|p ps] eqn:Hs; [done|]. simpl.
  rewrite Nat.add_1_r.
  destruct (dict_has name d) eqn:Hk.
  - apply dict_has_true in Hk as [u Hu].
    destruct (set_trained_elem name (bool_decide (encoding_file name ∈ encs))
                d u Hu) as (u' & ? & Hn & Ht & _).
    exists u'. rewrite Hn, (Hd _ _ Hu). done.
  - eexists. split; [apply dict_set_elem|done].
Qed.

Lemma scan_files_list_image encs l : ∀ d name,
  named d → Py.startswith "." name = false →
  encoding_file name ∈ encs → image_file name ∈ l →
  ∃ u, (name, u) ∈ fold_left (scan_file encs) l d
       ∧ u_name u = name ∧ u_trained u = true.
Proof.
  induction l as [|f l IH]; intros d name Hd Hdot Henc Hin; simpl.
  - by apply not_elem_of_nil in Hin.
  - apply elem_of_cons in Hin as [<-|Hin].
    + destruct (scan_image_file encs d name Hd Hdot) as (u & Hu & Hn & Ht).
      apply (scan_files_keep_trained encs l _ name u); try done.
      rewrite Ht. by apply bool_decide_eq_true.
    + apply IH; try done. by apply named_scan_file.
Qed.

End Listing.

Lemma get_registered_users_run E w :
  no_faults E →
  get_registered_users E w
  = (Ok match known_faces w with
        | Some d => merge_users (db_users E (calls w))
                      (map_to_list d).*1 (map_to_list d).*1
        | None => (from_rows (db_users E (calls w))).*2
        end,
     record_call db_get_all_users w).
Proof.
  intros [Hos Hdb].
  unfold get_registered_users, bind, db_manager_get_all_users, db_call,
    os_path_exists_dir, os_listdir, in_dir, ret, record_call.
  rewrite Hdb, Hos. simpl. by destruct (known_faces w).
Qed.

Lemma elem_of_values (d : user_dict) name u :
  (name, u) ∈ d → u_name u = name →
  name ∈ u_name <$> d.*2 ∧ u ∈ d.*2.
Proof.
  intros Hin Hn. assert (u ∈ d.*2) as Hu.
  { apply list_elem_of_fmap. by exists (name, u). }
  split; [|done]. apply list_elem_of_fmap. by exists u.
Qed.

Lemma handlers_catch_witness :
  (∃ r w', register_user offline_env (Some "bob") (Some "Zg==") alice_world = (Ok r, w')
     ∧ is_reply r)
  ∧ (index offline_env alice_world).1 = Raise (Exn "database is locked")
  ∧ (logs offline_env alice_world).1 = Raise (Exn "database is locked").
Proof.
  destruct (handlers_catch offline_env alice_world (Some "bob") (Some "Zg==") "alice")
    as ((r & w' & Hrun & Hr & _) & _ & _ & Hindex & Hlogs).
  split; [|split].
  - exists r, w'. split; assumption.
  - exact (proj1 (Hindex _ eq_refl)).
  - exact (Hlogs _ eq_refl).
Defined.

(** *** No name is listed twice *)

Lemma dict_set_keys k v (d : user_dict) :
  (dict_set k v d).*1 = if dict_has k d then d.*1 else d.*1 ++ [k].
Proof.
  unfold dict_has. induction d as [|[k1 v1] d IH]; csimpl; [done|].
  destruct (decide (k1 = k)) as [->|Hk]; csimpl.
  - by rewrite bool_decide_eq_true_2 by (by left).
  - rewrite IH. destruct (bool_decide (k ∈ d.*1)) eqn:Hd.
    + apply bool_decide_eq_true in Hd.
      by rewrite bool_decide_eq_true_2 by (by right).
    + apply bool_decide_eq_false in Hd.
      rewrite bool_decide_eq_false_2; [done|].
      by intros [?|?]%elem_of_cons.
Qed.

Lemma set_trained_keys k b (d : user_dict) : (set_trained k b d).*1 = d.*1.
Proof.
  unfold set_trained. induction d as [|[k1 v1] d IH]; csimpl; [done|].
  rewrite IH. by destruct (decide (k1 = k)).
Qed.

Lemma NoDup_dict_set k v (d : user_dict) : NoDup d.*1 → NoDup (dict_set k v d).*1.
Proof.
  intros Hd. rewrite dict_set_keys. destruct (dict_has k d) eqn:Hk; [done|].
  apply NoDup_app. split_and!; [done| |apply NoDup_singleton].
  intros x Hx ->%list_elem_of_singleton.
  unfold dict_has in Hk. by apply bool_decide_eq_false in Hk.
Qed.

Lemma NoDup_from_rows rows : NoDup (from_rows rows).*1.
Proof.
  unfold from_rows.
  assert (∀ d : user_dict, NoDup d.*1 →
    NoDup (fold_left (λ d db_user,
             dict_set (ur_name db_user) (user_of_row db_user) d) rows d).*1) as H.
  { induction rows as [|r rows IH]; intros d Hd; simpl; [done|].
    apply IH. by apply NoDup_dict_set. }
  apply H. constructor.
Qed.

Lemma NoDup_scan_files encs l : ∀ d : user_dict,
  NoDup d.*1 → NoDup (fold_left (scan_file encs) l d).*1.
Proof.
  induction l as [|f l IH]; intros d Hd; simpl; [done|]. apply IH.
  destruct (scan_file_cases encs d f) as [->|(k & b & _ & [[_ ->]|[_ ->]])].
  - done.
  - by rewrite set_trained_keys.
  - by apply NoDup_dict_set.
Qed.

Lemma named_scan_files encs l : ∀ d, named d → named (fold_left (scan_file encs) l d).
Proof.
  induction l as [|f l IH]; intros d Hd; simpl; [done|].
  apply IH. by apply named_scan_file.
Qed.

Lemma named_names (d : user_dict) : named d → u_name <$> d.*2 = d.*1.
Proof.
  intros Hd. induction d as [|[k v] d IH]; csimpl; [done|].
  rewrite (Hd k v) by (by left). f_equal. apply IH.
  intros k' v' Hin. apply Hd. by right.
Qed.

(** The listing of [get_registered_users] has no two entries of one name,
    whatever the rows and the directory listings. *)
Lemma merge_users_names_distinct rows listing1 listing2 :
  NoDup (u_name <$> merge_users rows listing1 listing2).
Proof.
  unfold merge_users. rewrite named_names.
  - apply NoDup_scan_files, NoDup_from_rows.
  - apply named_scan_files, named_from_rows.
Qed.

(** *** Names that contain [_encoding.npy] *)


(** C5 at the inputs where the code departs from it.  Line 247 removes every
    [_encoding.npy] of the file name, not only the last: the user
    [a_encoding.npy], present only as an encoding file, is not listed (a user
    [a] is), and the user [ab], present only as a database row, is listed as
    trained. *)
Theorem listing_strips_every_marker :
  (db_users sample_env (calls stray_encoding) = []
   ∧ files stray_encoding = {[encoding_file "a_encoding.npy" := Npy [102%Z]]}
   ∧ (get_registered_users sample_env stray_encoding).1
     = Ok [user_of_file "a" true]
   ∧ "a_encoding.npy" ∉ u_name <$> [user_of_file "a" true])
  ∧ (ur_name <$> db_users sample_env (calls ab_in_database) = ["ab"]
     ∧ files_of "ab" ab_in_database = ∅
     ∧ (get_registered_users sample_env ab_in_database).1
       = Ok [ {| u_name := "ab"; u_trained := true;
                 u_created_at := Some "2024-01-01 00:00:00";
                 u_last_seen := None; u_access_count := 0 |} ]).
Proof.
  repeat split; try (vm_compute; reflexivity).
  intros [H|H%not_elem_of_nil]%elem_of_cons; [discriminate H|exact H].
Qed.


(** * Further properties of the handlers *)

(** ** What a handler can change *)

Section Preserves.

Context (R : World → World → Prop) `{!PreOrder R}.

Lemma preserves_ret {A} (a : A) : preserves R (ret a).
Proof. by intros w r w' [= _ <-]. Qed.

Lemma preserves_raise {A} e : preserves R (raise (A:=A) e).
Proof. by intros w r w' [= _ <-]. Qed.

Lemma preserves_bind {A B} (m : M A) (k : A → M B) :
  preserves R m → (∀ a, preserves R (k a)) → preserves R (bind m k).
Proof.
  intros Hm Hk w r w'. unfold bind.
  destruct (m w) as [[a|e] w1] eqn:Hw.
  - intros Hr. etrans; [by eapply Hm|by eapply Hk].
  - intros [= _ <-]. by eapply Hm.
Qed.

Lemma preserves_try_except {A} (m : M A) h :
  preserves R m → (∀ e, preserves R (h e)) → preserves R (try_except m h).
Proof.
  intros Hm Hh w r w'. unfold try_except.
  destruct (m w) as [[a|e] w1] eqn:Hw.
  - intros [= _ <-]. by eapply Hm.
  - intros Hr. etrans; [by eapply Hm|by eapply Hh].
Qed.

Lemma preserves_for_each {A} (l : list A) body :
  (∀ x, preserves R (body x)) → preserves R (for_each l body).
Proof.
  intros Hb. induction l as [|x l IH]; simpl.
  - apply preserves_ret.
  - apply preserves_bind; [apply Hb|by intros _].
Qed.

Lemma preserves_pure {A} (m : M A) :
  (∀ w, (m w).2 = w) → preserves R m.
Proof. intros Hm w r w' Hw. specialize (Hm w). rewrite Hw in Hm. by subst. Qed.

End Preserves.

Lemma touches_preorder F C : PreOrder (touches F C).
Proof.
  split.
  - intros w. split; [done|]. exists []. by rewrite app_nil_r.
  - intros w1 w2 w3 [Hf1 (l1 & Hc1 & Hl1)] [Hf2 (l2 & Hc2 & Hl2)]. split.
    + intros f Hf. by rewrite Hf2, Hf1.
    + exists (l1 ++ l2). rewrite Hc2, Hc1, <- app_assoc. split; [done|].
      by apply Forall_app.
Qed.

Lemma only_removes_preorder username : PreOrder (only_removes username).
Proof.
  split.
  - intros w. split; [by left|]. exists []. by rewrite app_nil_r.
  - intros w1 w2 w3 [Hf1 (l1 & Hc1 & Hl1)] [Hf2 (l2 & Hc2 & Hl2)]. split.
    + intros f. destruct (Hf2 f) as [->|[? ?]]; [apply Hf1|by right].
    + exists (l1 ++ l2). rewrite Hc2, Hc1, <- app_assoc. split; [done|].
      by apply Forall_app.
Qed.

#[global] Existing Instances touches_preorder only_removes_preorder.

Lemma touches_weaken (F F' : target → Prop) (C C' : call → Prop) w w' :
  (∀ f, F f → F' f) → (∀ c, C c → C' c) →
  touches F C w w' → touches F' C' w w'.
Proof.
  intros HF HC [Hf (l & Hc & Hl)]. split.
  - intros f Hn. apply Hf. by intros ?%HF.
  - exists l. split; [done|]. by eapply Forall_impl.
Qed.

Section Primitives.

Context (E : Env) (F : target → Prop) (C : call → Prop).

Lemma touches_files w d :
  (∀ f, ¬ F (Entry f) → d !! f = files w !! f) → touches F C w (with_dir w d).
Proof.
  intros H. split; [|exists []; by rewrite app_nil_r].
  intros [f|p] Hn; [by apply H|done].
Qed.

Lemma touches_call w c : C c → touches F C w (record_call c w).
Proof.
  intros Hc. split; [by intros []|]. exists [c]. split; [done|]. by constructor.
Qed.

Lemma touches_put w t c : F t → touches F C w (put t c w).
Proof.
  intros HF. split.
  - intros t' Hn. apply content_at_put_ne. by intros ->.
  - exists []. by rewrite calls_put, app_nil_r.
Qed.

Lemma touches_unlink w t : F t → touches F C w (unlink t w).
Proof.
  intros HF. split.
  - intros t' Hn. apply content_at_unlink_ne. by intros ->.
  - exists []. by rewrite calls_unlink, app_nil_r.
Qed.

Lemma touches_in_dir {A} op (f : gmap string content → World → result A * World) :
  (∀ d w, known_faces w = Some d → touches F C w (f d w).2) →
  preserves (touches F C) (in_dir E op f).
Proof.
  intros Hf w r w'. unfold in_dir.
  destruct (os_fault E op); [by intros [= _ <-]|].
  destruct (known_faces w) as [d|] eqn:Hd; [|by intros [= _ <-]].
  intros Hr. specialize (Hf d w Hd). by rewrite Hr in Hf.
Qed.

Lemma touches_os_makedirs : preserves (touches F C) (os_makedirs E).
Proof.
  intros w r w'. unfold os_makedirs.
  destruct (os_fault E Makedirs); [by intros [= _ <-]|].
  destruct (known_faces w) eqn:Hd; intros [= _ <-]; [done|].
  apply touches_files. intros f _. unfold files. by rewrite Hd.
Qed.

Lemma touches_os_listdir : preserves (touches F C) (os_listdir E).
Proof. apply touches_in_dir. by intros d w _. Qed.

Lemma touches_write_path op file c :
  F (place E file) → preserves (touches F C) (write_path E op file c).
Proof.
  intros HF w r w'. unfold write_path.
  destruct (os_fault E op); [by intros [= _ <-]|].
  destruct (locate E w file) as [t|] eqn:Ht; [|by intros [= _ <-]].
  apply locate_Some in Ht as ->.
  destruct (place E file) as [f|p] eqn:Hp.
  - destruct (known_faces w); intros [= _ <-]; [|done].
    exact (touches_put w (Entry f) c HF).
  - intros [= _ <-]. exact (touches_put w (Elsewhere p) c HF).
Qed.

Lemma touches_open_write file image_bytes :
  F (place E file) → preserves (touches F C) (open_write E file image_bytes).
Proof. apply touches_write_path. Qed.

Lemma touches_np_save file encoding :
  F (place E file) → preserves (touches F C) (np_save E file encoding).
Proof. apply touches_write_path. Qed.

Lemma touches_os_remove_path file :
  F (place E file) → preserves (touches F C) (os_remove_path E file).
Proof.
  intros HF w r w'. unfold os_remove_path.
  destruct (os_fault E (Remove file)); [by intros [= _ <-]|].
  destruct (locate E w file) as [t|] eqn:Ht; [|by intros [= _ <-]].
  apply locate_Some in Ht as ->.
  destruct (content_at w (place E file)); intros [= _ <-]; [|done].
  by apply touches_unlink.
Qed.

Lemma touches_load_image file : preserves (touches F C) (load_image E file).
Proof.
  apply preserves_pure; [apply _|]. intros w. unfold load_image.
  by destruct (lookup_path E w file).
Qed.

Lemma touches_os_path_exists file :
  preserves (touches F C) (os_path_exists E file).
Proof. by apply preserves_pure; [apply _|]. Qed.

Lemma touches_call_face_encodings image_array :
  C (face_recognition_face_encodings image_array) →
  preserves (touches F C) (call_face_encodings E image_array).
Proof. intros HC w r w' [= _ <-]. by apply touches_call. Qed.

Lemma touches_db_call {A} c (answer : list call → A) :
  C c → preserves (touches F C) (db_call E c answer).
Proof.
  intros HC w r w'. unfold db_call.
  destruct (db_fault E (calls w) c); intros [= _ <-]; by apply touches_call.
Qed.

End Primitives.

Lemma touches_os_path_exists_dir F C : preserves (touches F C) os_path_exists_dir.
Proof. by apply preserves_pure; [apply _|]. Qed.

Ltac frame_step :=
  first
    [ apply preserves_ret; apply _
    | apply preserves_raise; apply _
    | apply touches_os_path_exists_dir
    | apply touches_os_path_exists
    | apply touches_os_makedirs
    | apply touches_os_listdir
    | apply touches_load_image
    | apply touches_open_write; by auto
    | apply touches_np_save; by auto
    | apply touches_os_remove_path; by auto
    | apply touches_call_face_encodings; by eauto
    | apply touches_db_call; by eauto
    | apply preserves_pure; [apply _|done]
    | apply preserves_try_except; [apply _| |intros ?]
    | apply preserves_bind; [apply _| |intros ?]
    | match goal with
      | |- preserves _ (if ?b then _ else _) => destruct b
      | |- preserves _ (match ?l with [] => _ | _ :: _ => _ end) => destruct l
      | |- preserves _ (match ?o with Some _ => _ | None => _ end) => destruct o
      end ].

Lemma generate_single_user_encoding_touches E name :
  preserves
    (touches (λ t, t = place E (encoding_file name))
             (λ c, ∃ a, c = face_recognition_face_encodings a))
    (generate_single_user_encoding E name).
Proof. unfold generate_single_user_encoding. repeat frame_step. Qed.

(** X1. Whatever the environment does, a registration changes nothing but
    what the paths of the image and of the encoding of the name it was given
    lead to, and calls nothing but the encoder and [db_manager.add_user] for
    that name.  For a name without [/] these are two entries of the
    directory: every other entry, and every file outside the directory, is
    as it was. *)
Theorem register_user_touches E name image w :
  touches (λ t, t = place E (image_file (the name))
                ∨ t = place E (encoding_file (the name)))
          (λ c, c = db_add_user (the name)
                ∨ ∃ a, c = face_recognition_face_encodings a)
          w (register_user E name image w).2
  ∧ (plain (the name) = true →
     (∀ f, f ≠ image_file (the name) → f ≠ encoding_file (the name) →
           files (register_user E name image w).2 !! f = files w !! f)
     ∧ elsewhere (register_user E name image w).2 = elsewhere w).
Proof.
  assert (preserves
    (touches (λ t, t = place E (image_file (the name))
                   ∨ t = place E (encoding_file (the name)))
             (λ c, c = db_add_user (the name)
                   ∨ ∃ a, c = face_recognition_face_encodings a))
    (register_user E name image)) as H.
  { unfold register_user. repeat frame_step. }
  destruct (register_user E name image w) as [r w'] eqn:Hrun.
  specialize (H _ _ _ Hrun). split; [done|]. simpl.
  intros Hplain. destruct H as [Hf _].
  rewrite !place_plain in Hf
    by (by rewrite ?plain_image_file, ?plain_encoding_file).
  split.
  - intros f Hi He. apply (Hf (Entry f)). intros [[=]|[=]]; congruence.
  - apply map_eq. intros p. apply (Hf (Elsewhere p)). by intros [|].
Qed.

(** X2. Whatever the environment does, [POST /add_user] leaves every file of the
    directory as it is and calls nothing but [db_manager.add_user] for the
    name it was given. *)
Theorem add_user_touches E name w :
  files (add_user E name w).2 = files w
  ∧ ∃ l, calls (add_user E name w).2 = calls w ++ l
         ∧ Forall (λ c, c = db_add_user (the name)) l.
Proof.
  assert (preserves (touches (λ _, False) (λ c, c = db_add_user (the name)))
            (add_user E name)) as H.
  { unfold add_user. repeat frame_step. }
  destruct (add_user E name w) as [r w'] eqn:Hrun.
  destruct (H _ _ _ Hrun) as [Hf Hc]. split; [|done].
  apply map_eq. intros f. apply (Hf (Entry f)). tauto.
Qed.

Section OnlyRemoves.

Context (E : Env) (username : string).

Lemma only_removes_remove_if_belongs file :
  preserves (only_removes username) (remove_if_belongs E username file).
Proof.
  unfold remove_if_belongs. destruct (belongs_to username file) eqn:Hb.
  - intros w r w'. unfold os_remove, in_dir.
    destruct (os_fault E (Remove file)); [by intros [= _ <-]|].
    destruct (known_faces w) as [d|] eqn:Hd; [|by intros [= _ <-]].
    destruct (d !! file); intros [= _ <-]; [|done].
    split; [|exists []; by rewrite app_nil_r].
    intros f. unfold files. simpl. rewrite Hd. simpl.
    destruct (decide (f = file)) as [->|Hne].
    + right. by rewrite lookup_delete_eq.
    + left. by rewrite lookup_delete_ne.
  - apply preserves_ret, _.
Qed.

Lemma only_removes_delete_user :
  preserves (only_removes username) (delete_user E username).
Proof.
  unfold delete_user.
  apply preserves_try_except; [apply _| |intros ?; apply preserves_ret, _].
  apply preserves_bind; [apply _|by apply preserves_pure; [apply _|]|].
  intros dir_exists. apply preserves_bind; [apply _| |intros _].
  - destruct dir_exists; [|apply preserves_ret, _].
    apply preserves_bind; [apply _| |intros listing].
    + apply preserves_pure; [apply _|]. intros w. unfold os_listdir, in_dir.
      destruct (os_fault E Listdir); [done|]. by destruct (known_faces w).
    + apply preserves_for_each; [apply _|]. apply only_removes_remove_if_belongs.
  - apply preserves_bind; [apply _| |intros _; apply preserves_ret, _].
    intros w r w'. unfold db_manager_delete_user, db_call.
    destruct (db_fault E (calls w) _); intros [= _ <-].
    all: split; [by left|]; exists [db_delete_user username];
      split; [done|by constructor].
Qed.

End OnlyRemoves.

(** X3. Whatever the environment does, and also when it fails half way,
    [GET /delete_user/<username>] adds no file and changes none: a file is
    afterwards as it was or, if it starts with [<username>_] and ends in
    [.jpg] or [_encoding.npy], is gone.  The only calls it makes are
    [db_manager.delete_user(username)]. *)
Theorem delete_user_only_removes E username w :
  (∀ f, files (delete_user E username w).2 !! f = files w !! f
        ∨ (belongs_to username f = true
           ∧ files (delete_user E username w).2 !! f = None))
  ∧ (∀ f, belongs_to username f = false →
          files (delete_user E username w).2 !! f = files w !! f)
  ∧ files (delete_user E username w).2 ⊆ files w
  ∧ ∃ l, calls (delete_user E username w).2 = calls w ++ l
         ∧ Forall (λ c, c = db_delete_user username) l.
Proof.
  destruct (delete_user E username w) as [r w'] eqn:Hrun.
  destruct (only_removes_delete_user E username _ _ _ Hrun) as [Hf Hc].
  simpl. split_and!; [done| | |done].
  - intros f Hb. destruct (Hf f) as [?|[? _]]; [done|congruence].
  - apply map_subseteq_spec. intros f c Hfc.
    destruct (Hf f) as [<-|[_ ?]]; [done|congruence].
Qed.

(** ** The read routes *)

(** Whatever the environment does, the listing leaves the directory as it
    is (it does not even create it) and makes one call,
    [db_manager.get_all_users()]. *)
Lemma get_registered_users_reads E w :
  known_faces (get_registered_users E w).2 = known_faces w
  ∧ calls (get_registered_users E w).2 = calls w ++ [db_get_all_users].
Proof.
  unfold get_registered_users, bind, db_manager_get_all_users, db_call,
    os_path_exists_dir, os_listdir, in_dir, ret, record_call.
  destruct (db_fault E (calls w) db_get_all_users); [done|]. simpl.
  destruct (known_faces w) eqn:Hd; simpl; [|done].
  destruct (os_fault E Listdir); simpl; [done|]. rewrite ?Hd. simpl.
  by rewrite ?Hd.
Qed.

(** X4. [GET /], [GET /users], [GET /logs] and [GET /register] never change the
    directory, whatever the environment does; the first two make exactly the
    call [get_all_users()], [/logs] exactly [get_recent_access_logs(100)],
    and [/register] none.  [GET /] and [GET /users] differ in the template
    alone. *)
Theorem read_routes_read_only E w :
  (known_faces (index E w).2 = known_faces w
   ∧ calls (index E w).2 = calls w ++ [db_get_all_users])
  ∧ (known_faces (users E w).2 = known_faces w
     ∧ calls (users E w).2 = calls w ++ [db_get_all_users])
  ∧ (known_faces (logs E w).2 = known_faces w
     ∧ calls (logs E w).2 = calls w ++ [db_get_recent_access_logs 100])
  ∧ register w = (Ok {| template := "register.html"; page_users := [] |}, w)
  ∧ (∀ listing w',
       index E w = (Ok {| template := "index.html"; page_users := listing |}, w')
       ↔ users E w = (Ok {| template := "users.html"; page_users := listing |}, w')).
Proof.
  pose proof (get_registered_users_reads E w) as [Hk Hc].
  unfold index, users, bind.
  destruct (get_registered_users E w) as [[us|e] w1]; simpl in *.
  all: split_and!; try done.
  all: try (rewrite logs_run; by destruct (db_fault E (calls w) _)).
  intros listing w'. split; by intros [= <- <-].
Qed.

(** ** Requests that are refused *)

(** X5. A request without a name, or with an empty one, is refused before
    anything is done, and so is a registration without an image: the world
    is the one the request found, the directory is not even created. *)
Theorem missing_fields_refused E w image n :
  n ≠ "" →
  register_user E None image w = (Ok (error "User name is required"), w)
  ∧ register_user E (Some "") image w = (Ok (error "User name is required"), w)
  ∧ register_user E (Some n) None w = (Ok (error "Face image is required"), w)
  ∧ register_user E (Some n) (Some "") w
    = (Ok (error "Face image is required"), w)
  ∧ add_user E None w = (Ok (error "User name is required"), w)
  ∧ add_user E (Some "") w = (Ok (error "User name is required"), w).
Proof.
  intros Hn. unfold register_user, add_user, try_except.
  rewrite !(truthy_Some n Hn). split_and!; reflexivity.
Qed.

Lemma missing_fields_refused_witness :
  register_user offline_env None (Some "Zg==") fresh_world
  = (Ok (error "User name is required"), fresh_world)
  ∧ register_user offline_env (Some "bob") None fresh_world
    = (Ok (error "Face image is required"), fresh_world).
Proof.
  destruct (missing_fields_refused offline_env fresh_world (Some "Zg==") "bob")
    as (H1 & _ & H3 & _); [discriminate|].
  split; assumption.
Defined.

(** The run of a request for a name that has a file. *)
Lemma conflict_run {A} E w name f (taken free : M A) :
  is_Some (files w !! f) → belongs_to name f = true →
  os_fault E Listdir = None →
  bind os_path_exists_dir
    (λ dir_exists, bind (if negb dir_exists then os_makedirs E else ret tt)
       (λ _, bind (os_listdir E)
          (λ listing, match List.filter (belongs_to name) listing with
                      | [] => free
                      | _ :: _ => taken
                      end))) w
  = taken w.
Proof.
  intros Hf Hb Hl. pose proof (files_is_Some _ _ Hf) as Hd.
  destruct (existing_files_cons name w f Hf Hb) as (g & l & Hgl).
  unfold bind at 1. unfold os_path_exists_dir. rewrite Hd. simpl.
  unfold bind at 1. unfold ret at 1.
  erewrite bind_ok by (by apply os_listdir_run).
  by rewrite Hgl.
Qed.

(** X6. [POST /add_user] for a non-empty name that has a file in the directory
    answers that the user exists, whatever the database holds, and neither
    calls the database nor changes the directory. *)
Theorem add_user_conflict E w name f :
  name ≠ "" →
  is_Some (files w !! f) → belongs_to name f = true →
  os_fault E Listdir = None →
  add_user E (Some name) w
  = (Ok (error ("User " +:+ name +:+ " already exists")), w).
Proof.
  intros Hn Hf Hb Hl. unfold add_user, try_except.
  rewrite truthy_Some by done. simpl.
  erewrite conflict_run by eassumption. reflexivity.
Qed.

Lemma add_user_conflict_witness :
  add_user sample_env (Some "alice") alice_world
  = (Ok (error ("User " +:+ "alice" +:+ " already exists")), alice_world).
Proof.
  apply (add_user_conflict sample_env alice_world "alice" "alice_1.jpg").
  - discriminate.
  - vm_compute. eexists. reflexivity.
  - reflexivity.
  - reflexivity.
Defined.

(** ** A database that fails after the files are written *)

(** X7. When everything up to the encoding works and [db_manager.add_user]
    raises, the reply is the error of line 95 with the exception's text, and
    the image and the encoding stay where they were written: lines 90-91 roll
    back only after a failed encoding.  For a name without [/] they stay in
    the directory, and a new registration of the name is then refused as a
    duplicate, whatever image it brings. *)
Theorem register_user_database_failure
    E w name image payload image_bytes image_array encoding others e image' :
  (∀ op, os_fault E op = None) →
  name ≠ "" → has_no_file name w →
  image ≠ "" → strip_data_url image = Some payload →
  b64decode E payload = Ok image_bytes →
  image_open E (Bytes image_bytes) = Ok image_array →
  face_encodings E image_array = Ok (encoding :: others) →
  db_fault E (calls w ++ [face_recognition_face_encodings image_array])
    (db_add_user name) = Some e →
  image' ≠ "" →
  ∃ w',
    register_user E (Some name) (Some image) w
    = (Ok (error ("Failed to save face image: " +:+ str e)), w')
    ∧ lookup_path E w' (encoding_file name) = Some (Npy encoding)
    ∧ is_Some (lookup_path E w' (image_file name))
    ∧ calls w' = calls w ++ [face_recognition_face_encodings image_array;
                             db_add_user name]
    ∧ (plain name = true →
       known_faces w' =
         Some (<[encoding_file name := Npy encoding]>
                 (<[image_file name := Bytes image_bytes]> (files w)))
       ∧ elsewhere w' = elsewhere w
       ∧ register_user E (Some name) (Some image') w'
         = (Ok (error ("User " +:+ name +:+
              " already exists. Please choose a different name or delete the existing user.")),
            w')).
Proof.
  intros Hos Hname Hno Himage Hurl Hdec Hopen Hfaces Hdb Himage'.
  exists (registered E name image_bytes image_array encoding w).
  split; [|split; [|split; [|split]]].
  - registration_writes Hurl.
    erewrite try_except_raise; [reflexivity|].
    erewrite bind_ok by reflexivity.
    erewrite bind_ok by (by rewrite Hdec).
    erewrite bind_ok by (apply write_path_run; [done|by eexists]).
    erewrite bind_ok.
    2:{ eapply generate_encoding_found; eauto using content_at_put.
        apply known_faces_put. by eexists. }
    cbv beta iota. erewrite bind_raise; [reflexivity|].
    unfold db_manager_add_user, db_call. rewrite calls_put. simpl.
    rewrite calls_put. simpl. rewrite Hdb. reflexivity.
  - apply registered_encoding.
  - apply registered_image.
  - apply registered_calls.
  - intros Hplain.
    destruct (registered_plain_files E name image_bytes image_array encoding w
                Hplain Hno) as (Hk & _ & Hi & _ & Hel).
    split; [done|]. split; [done|].
    unfold register_user, try_except.
    rewrite !truthy_Some by done. simpl.
    erewrite (conflict_run E _ name (image_file name)); [reflexivity| | |done].
    + rewrite Hi. by eexists.
    + apply belongs_to_image_file.
Qed.

Lemma register_user_database_failure_witness :
  ∃ w',
    register_user offline_env (Some "bob") (Some "Zg==") alice_world
    = (Ok (error ("Failed to save face image: " +:+ "database is locked")), w')
    ∧ known_faces w' =
        Some (<[encoding_file "bob" := Npy [102%Z]]>
                (<[image_file "bob" := Bytes "f"]> (files alice_world)))
    ∧ calls w' = calls alice_world
                 ++ [face_recognition_face_encodings [102%Z]; db_add_user "bob"]
    ∧ register_user offline_env (Some "bob") (Some "ZmY=") w'
      = (Ok (error ("User " +:+ "bob" +:+
           " already exists. Please choose a different name or delete the existing user.")),
         w').
Proof.
  destruct (register_user_database_failure offline_env alice_world "bob"
              "Zg==" "Zg==" "f" [102%Z] [102%Z] [] (Exn "database is locked")
              "ZmY=")
    as (w' & Hrun & _ & _ & Hc & Hplain).
  - reflexivity.
  - discriminate.
  - vm_compute. reflexivity.
  - discriminate.
  - reflexivity.
  - reflexivity.
  - reflexivity.
  - reflexivity.
  - reflexivity.
  - discriminate.
  - destruct (Hplain eq_refl) as (Hk & _ & Hagain).
    exists w'. repeat (split; [assumption|]). assumption.
Defined.

(** ** The encoding step *)


(** ** The image field *)

Lemma split_no_separator c s : Py.contains c s = false → Py.split c s = [s].
Proof.
  induction s as [|a s IH]; simpl; [done|].
  intros [Ha Hs]%orb_false_iff. rewrite Ha, IH by done. done.
Qed.

Lemma startswith_app_l p s t :
  Py.startswith p s = true → Py.startswith p (s +:+ t) = true.
Proof.
  intros [u ->]%startswith_inv. rewrite str_app_assoc. apply startswith_app.
Qed.

(** X9. Lines 72-73.  A field that does not start with [data:image] is taken as
    it is.  Of a data URL, what stands between the first comma and the
    second, or the end, is taken; without a comma there is nothing to take
    (the [IndexError] of [split(',')[1]]). *)
Theorem strip_data_url_cases :
  (∀ s, Py.startswith "data:image" s = false → strip_data_url s = Some s)
  ∧ (∀ header payload,
       Py.startswith "data:image" header = true →
       Py.contains "," header = false → Py.contains "," payload = false →
       strip_data_url (header +:+ "," +:+ payload) = Some payload
       ∧ ∀ rest, strip_data_url (header +:+ "," +:+ payload +:+ "," +:+ rest)
                 = Some payload)
  ∧ (∀ s, Py.startswith "data:image" s = true → Py.contains "," s = false →
          strip_data_url s = None).
Proof.
  unfold strip_data_url. split_and!.
  - by intros s ->.
  - intros header payload Hstart Hh Hp.
    assert (∀ tail, Py.split "," (header +:+ "," +:+ tail)
                    = header :: Py.split "," tail) as Hsplit.
    { intros tail. change ("," +:+ tail) with (String "," tail).
      by rewrite split_app, split_no_separator. }
    split; [|intros rest]; rewrite startswith_app_l by done; rewrite Hsplit.
    + by rewrite split_no_separator.
    + change ("," +:+ rest) with (String "," rest).
      by rewrite split_app, split_no_separator.
  - intros s -> Hs. by rewrite split_no_separator.
Qed.

Lemma strip_data_url_cases_witness :
  strip_data_url "aGVsbG8=" = Some "aGVsbG8="
  ∧ strip_data_url ("data:image/jpeg;base64" +:+ "," +:+ "aGVsbG8=")
    = Some "aGVsbG8="
  ∧ strip_data_url "data:image/jpeg;base64" = None.
Proof.
  destruct strip_data_url_cases as (Hplain & Hurl & Hnone).
  split_and!.
  - apply Hplain. reflexivity.
  - apply Hurl; reflexivity.
  - apply Hnone; reflexivity.
Defined.

(** X10. A registration whose image field cannot be decoded, because it is a data
    URL without a comma or because [b64decode] raises, is answered with the
    error of line 95; no file is written and neither the encoder nor the
    database is called. *)
Theorem register_user_undecodable_image E w name image :
  os_fault E Makedirs = None → os_fault E Listdir = None →
  name ≠ "" → has_no_file name w → image ≠ "" →
  (strip_data_url image = None →
   register_user E (Some name) (Some image) w
   = (Ok (error ("Failed to save face image: " +:+ "list index out of range")),
      with_dir w (files w)))
  ∧ (∀ payload e,
       strip_data_url image = Some payload → b64decode E payload = Raise e →
       register_user E (Some name) (Some image) w
       = (Ok (error ("Failed to save face image: " +:+ str e)),
          with_dir w (files w))).
Proof.
  intros Hm Hl Hname Hno Himage. split.
  - intros Hnone. unfold register_user.
    rewrite !truthy_Some by done. simpl.
    apply try_except_ok.
    rewrite ensure_dir_run by done.
    erewrite bind_ok by (by apply os_listdir_run).
    rewrite existing_files_nil by done.
    erewrite try_except_raise; [|by rewrite Hnone]. reflexivity.
  - intros payload e Hsome He. unfold register_user.
    rewrite !truthy_Some by done. simpl.
    apply try_except_ok.
    rewrite ensure_dir_run by done.
    erewrite bind_ok by (by apply os_listdir_run).
    rewrite existing_files_nil by done.
    erewrite try_except_raise; [reflexivity|]. rewrite Hsome.
    erewrite bind_ok by reflexivity. unfold bind at 1. by rewrite He.
Qed.

Lemma register_user_undecodable_image_witness :
  register_user sample_env (Some "bob") (Some "data:image/jpeg;base64") alice_world
  = (Ok (error ("Failed to save face image: " +:+ "list index out of range")),
     with_dir alice_world (files alice_world)).
Proof.
  destruct (register_user_undecodable_image sample_env alice_world "bob"
              "data:image/jpeg;base64") as [Hnone _].
  - reflexivity.
  - reflexivity.
  - discriminate.
  - vm_compute. reflexivity.
  - discriminate.
  - apply Hnone. reflexivity.
Defined.

(** ** Requests in sequence *)

Lemma has_no_file_files_filter username w :
  has_no_file username w →
  filter (λ kv, belongs_to username kv.1 = false) (files w) = files w.
Proof.
  intros Hno. apply map_filter_id. intros f c Hf. simpl.
  apply (has_no_file_elim username w Hno). by eexists.
Qed.

Lemma has_no_file_after_delete E username w :
  no_faults E → has_no_file username (delete_user E username w).2.
Proof.
  intros HE. rewrite delete_user_run by done.
  unfold has_no_file, files_of, files. simpl.
  apply map_empty. intros f. apply map_lookup_filter_None. right.
  intros c Hc. simpl. destruct (known_faces w) as [d|]; simpl in Hc.
  - apply map_lookup_filter_Some in Hc as [_ Hb]. simpl in Hb. congruence.
  - by rewrite lookup_empty in Hc.
Qed.

(** X11. In normal operation a name without [/] that was registered cannot be
    registered again: the second request, whatever image it brings, is
    refused as a duplicate and changes nothing. *)
Theorem register_user_twice
    E w name image payload image_bytes image_array encoding others image' :
  no_faults E →
  name ≠ "" → plain name = true → has_no_file name w →
  image ≠ "" → strip_data_url image = Some payload →
  b64decode E payload = Ok image_bytes →
  image_open E (Bytes image_bytes) = Ok image_array →
  face_encodings E image_array = Ok (encoding :: others) →
  image' ≠ "" →
  ∃ r w',
    register_user E (Some name) (Some image) w = (Ok r, w')
    ∧ status r = "success"
    ∧ register_user E (Some name) (Some image') w'
      = (Ok (error ("User " +:+ name +:+
           " already exists. Please choose a different name or delete the existing user.")),
         w').
Proof.
  intros HE Hname Hplain Hno Himage Hurl Hdec Hopen Hfaces Himage'.
  eexists _, _. split; [eapply register_user_run; eassumption|].
  split; [done|].
  unfold register_user, try_except.
  rewrite !truthy_Some by done. simpl.
  erewrite (conflict_run E _ name (image_file name)); [reflexivity| | |apply HE].
  - unfold files. simpl.
    rewrite lookup_insert_ne, lookup_insert_eq; [by eexists|].
    intros H. by apply (image_file_ne_encoding_file name).
  - apply belongs_to_image_file.
Qed.

Lemma register_user_twice_witness :
  ∃ r w',
    register_user sample_env (Some "bob") (Some "Zg==") alice_world = (Ok r, w')
    ∧ status r = "success"
    ∧ register_user sample_env (Some "bob") (Some "ZmY=") w'
      = (Ok (error ("User " +:+ "bob" +:+
           " already exists. Please choose a different name or delete the existing user.")),
         w').
Proof.
  apply (register_user_twice sample_env alice_world "bob" "Zg==" "Zg==" "f"
           [102%Z] [102%Z] [] "ZmY=").
  - split; reflexivity.
  - discriminate.
  - reflexivity.
  - vm_compute. reflexivity.
  - discriminate.
  - reflexivity.
  - reflexivity.
  - reflexivity.
  - reflexivity.
  - discriminate.
Defined.

(** X12. In normal operation, registering a user and then deleting it gives the
    directory the files it had before the registration.  The name is one
    that [GET /delete_user/<username>] can carry: it has no [/]. *)
Theorem register_then_delete
    E w name image payload image_bytes image_array encoding others :
  no_faults E →
  name ≠ "" → plain name = true → has_no_file name w →
  image ≠ "" → strip_data_url image = Some payload →
  b64decode E payload = Ok image_bytes →
  image_open E (Bytes image_bytes) = Ok image_array →
  face_encodings E image_array = Ok (encoding :: others) →
  ∃ r1 w1 r2 w2,
    register_user E (Some name) (Some image) w = (Ok r1, w1)
    ∧ status r1 = "success"
    ∧ delete_user E name w1 = (Ok r2, w2)
    ∧ status r2 = "success"
    ∧ known_faces w2 = Some (files w)
    ∧ calls w2 = calls w ++ [face_recognition_face_encodings image_array;
                             db_add_user name; db_delete_user name].
Proof.
  intros HE Hname Hplain Hno Himage Hurl Hdec Hopen Hfaces.
  pose proof (has_no_file_lookup name w _ Hno (belongs_to_image_file name)) as Hi.
  pose proof (has_no_file_lookup name w _ Hno (belongs_to_encoding_file name)) as He.
  eexists _, _, _, _. split; [eapply register_user_run; eassumption|].
  split; [done|]. split; [by apply delete_user_run|]. split; [done|].
  simpl. split; [|by rewrite <- !app_assoc].
  f_equal.
  rewrite map_filter_insert_False
    by (simpl; rewrite belongs_to_encoding_file; done).
  rewrite delete_insert_ne, (delete_id _ _ He)
    by (intros H; by apply (image_file_ne_encoding_file name)).
  rewrite map_filter_insert_False by (simpl; rewrite belongs_to_image_file; done).
  rewrite (delete_id _ _ Hi). by apply has_no_file_files_filter.
Qed.

Lemma register_then_delete_witness :
  ∃ r1 w1 r2 w2,
    register_user sample_env (Some "bob") (Some "Zg==") alice_world = (Ok r1, w1)
    ∧ status r1 = "success"
    ∧ delete_user sample_env "bob" w1 = (Ok r2, w2)
    ∧ status r2 = "success"
    ∧ known_faces w2 = Some (files alice_world)
    ∧ calls w2 = calls alice_world
                 ++ [face_recognition_face_encodings [102%Z];
                     db_add_user "bob"; db_delete_user "bob"].
Proof.
  apply (register_then_delete sample_env alice_world "bob" "Zg==" "Zg==" "f"
           [102%Z] [102%Z] []).
  - split; reflexivity.
  - discriminate.
  - reflexivity.
  - vm_compute. reflexivity.
  - discriminate.
  - reflexivity.
  - reflexivity.
  - reflexivity.
  - reflexivity.
Defined.

(** X13. In normal operation, deleting a user frees the name: a registration of
    the name right after the deletion is not refused as a duplicate, whatever
    files the name had before.  The name is one that
    [GET /delete_user/<username>] can carry: it has no [/]. *)
Theorem delete_then_register
    E w name image payload image_bytes image_array encoding others :
  no_faults E →
  name ≠ "" → plain name = true →
  image ≠ "" → strip_data_url image = Some payload →
  b64decode E payload = Ok image_bytes →
  image_open E (Bytes image_bytes) = Ok image_array →
  face_encodings E image_array = Ok (encoding :: others) →
  ∃ r w',
    register_user E (Some name) (Some image) (delete_user E name w).2 = (Ok r, w')
    ∧ status r = "success"
    ∧ files w' !! image_file name = Some (Bytes image_bytes)
    ∧ files w' !! encoding_file name = Some (Npy encoding).
Proof.
  intros HE Hname Hplain Himage Hurl Hdec Hopen Hfaces.
  eexists _, _. split.
  { eapply register_user_run; try eassumption.
    by apply has_no_file_after_delete. }
  split; [done|]. unfold files at 1 3. simpl. split.
  - rewrite lookup_insert_ne, lookup_insert_eq; [done|].
    intros H. by apply (image_file_ne_encoding_file name).
  - by rewrite lookup_insert_eq.
Qed.

Lemma delete_then_register_witness :
  ∃ r w',
    register_user sample_env (Some "alice") (Some "Zg==")
      (delete_user sample_env "alice" alice_world).2 = (Ok r, w')
    ∧ status r = "success"
    ∧ files w' !! image_file "alice" = Some (Bytes "f")
    ∧ files w' !! encoding_file "alice" = Some (Npy [102%Z]).
Proof.
  apply (delete_then_register sample_env alice_world "alice" "Zg==" "Zg==" "f"
           [102%Z] [102%Z] []).
  - split; reflexivity.
  - discriminate.
  - reflexivity.
  - discriminate.
  - reflexivity.
  - reflexivity.
  - reflexivity.
  - reflexivity.
Defined.

(** ** Names that share a prefix *)

Lemma belongs_to_longer_name name rest suffix :
  Py.endswith ".jpg" suffix || Py.endswith "_encoding.npy" suffix = true →
  belongs_to name ((name +:+ "_" +:+ rest) +:+ suffix) = true.
Proof.
  intros Hs. unfold belongs_to.
  assert ((name +:+ "_" +:+ rest) +:+ suffix
          = (name +:+ "_") +:+ (rest +:+ suffix)) as Heq
    by (by rewrite !str_app_assoc).
  rewrite Heq at 1. rewrite startswith_app. simpl.
  apply orb_true_iff in Hs as [Hs|Hs].
  - apply endswith_inv in Hs as [t ->].
    by rewrite <- str_app_assoc, endswith_app.
  - apply endswith_inv in Hs as [t ->].
    rewrite <- str_app_assoc, endswith_app. apply orb_true_r.
Qed.

(** X14. The test of lines 65, 160 and 180 looks at the prefix [<name>_] only, so
    the files of a user [<name>_<rest>] pass it for [<name>] too.  In normal
    operation [GET /delete_user/<name>] removes the image and the encoding
    of every user [<name>_<rest>] as well, and while such a user has a file
    [POST /add_user] refuses the name [<name>]. *)
Theorem prefix_names_share_files E w name rest :
  no_faults E → name ≠ "" →
  files (delete_user E name w).2 !! image_file (name +:+ "_" +:+ rest) = None
  ∧ files (delete_user E name w).2 !! encoding_file (name +:+ "_" +:+ rest) = None
  ∧ (is_Some (files w !! image_file (name +:+ "_" +:+ rest)) →
     add_user E (Some name) w
     = (Ok (error ("User " +:+ name +:+ " already exists")), w)).
Proof.
  intros HE Hname.
  assert (∀ suffix,
    Py.endswith ".jpg" suffix || Py.endswith "_encoding.npy" suffix = true →
    files (delete_user E name w).2 !! ((name +:+ "_" +:+ rest) +:+ suffix) = None)
    as Hgone.
  { intros suffix Hs. rewrite delete_user_run by done. unfold files. simpl.
    destruct (known_faces w) as [d|]; simpl; [|apply lookup_empty].
    apply map_lookup_filter_None. right. intros c _. simpl.
    by rewrite belongs_to_longer_name. }
  split_and!.
  - by apply Hgone.
  - by apply Hgone.
  - intros Hf. unfold add_user, try_except.
    rewrite truthy_Some by done. simpl.
    erewrite (conflict_run E w name (image_file (name +:+ "_" +:+ rest)));
      [reflexivity|exact Hf| |apply HE].
    by apply belongs_to_longer_name.
Qed.

Lemma prefix_names_share_files_witness :
  is_Some (files marys_world !! image_file ("mary" +:+ "_" +:+ "ann"))
  ∧ files (delete_user sample_env "mary" marys_world).2
      !! image_file ("mary" +:+ "_" +:+ "ann") = None
  ∧ files (delete_user sample_env "mary" marys_world).2
      !! encoding_file ("mary" +:+ "_" +:+ "ann") = None
  ∧ add_user sample_env (Some "mary") marys_world
    = (Ok (error ("User " +:+ "mary" +:+ " already exists")), marys_world).
Proof.
  assert (is_Some (files marys_world !! image_file ("mary" +:+ "_" +:+ "ann")))
    as Hf by (vm_compute; eexists; reflexivity).
  destruct (prefix_names_share_files sample_env marys_world "mary" "ann")
    as (H1 & H2 & H3).
  - split; reflexivity.
  - discriminate.
  - split; [exact Hf|]. split; [exact H1|]. split; [exact H2|exact (H3 Hf)].
Defined.

(** ** A file that cannot be removed *)

Lemma delete_loop_fails E username f e l : ∀ w d,
  os_fault E (Remove f) = Some e → belongs_to username f = true →
  known_faces w = Some d → is_Some (d !! f) → f ∈ l →
  ∃ e' w', for_each l (remove_if_belongs E username) w = (Raise e', w')
           ∧ is_Some (files w' !! f) ∧ calls w' = calls w.
Proof.
  intros w d Hfault Hb. revert w d.
  induction l as [|g l IH]; intros w d Hd Hf Hin.
  { by apply not_elem_of_nil in Hin. }
  simpl. unfold bind at 1. unfold remove_if_belongs at 1.
  destruct (decide (g = f)) as [->|Hne].
  - rewrite Hb. unfold os_remove, in_dir. rewrite Hfault.
    eexists _, _. split; [reflexivity|]. by rewrite (files_Some _ _ Hd).
  - apply elem_of_cons in Hin as [?|Hin]; [congruence|].
    destruct (belongs_to username g).
    + unfold os_remove, in_dir.
      destruct (os_fault E (Remove g)).
      { eexists _, _. split; [reflexivity|]. by rewrite (files_Some _ _ Hd). }
      rewrite Hd. destruct (d !! g).
      * destruct (IH (with_dir w (delete g d)) (delete g d))
          as (e' & w' & Hrun & Hf' & Hc); [done| |done|].
        { by rewrite lookup_delete_ne. }
        by exists e', w'.
      * eexists _, _. split; [reflexivity|]. by rewrite (files_Some _ _ Hd).
    + unfold ret at 1. by apply (IH w d).
Qed.

(** X15. When [os.remove] raises on a file of the user, the deletion stops there:
    the reply has status [error], the file is still in the directory, and
    [db_manager.delete_user] has not been called, so the database keeps the
    row. *)
Theorem delete_user_remove_fails E w username f e :
  os_fault E Listdir = None →
  is_Some (files w !! f) → belongs_to username f = true →
  os_fault E (Remove f) = Some e →
  ∃ r w', delete_user E username w = (Ok r, w')
          ∧ status r = "error"
          ∧ is_Some (files w' !! f)
          ∧ calls w' = calls w.
Proof.
  intros Hl Hf Hb Hfault. pose proof (files_is_Some _ _ Hf) as Hd.
  destruct (delete_loop_fails E username f e (map_to_list (files w)).*1 w (files w))
    as (e' & w' & Hrun & Hf' & Hc); try done.
  { by apply elem_of_listing. }
  exists (error (str e')), w'. split; [|done].
  unfold delete_user. erewrite try_except_raise; [reflexivity|].
  unfold bind at 1. unfold os_path_exists_dir. rewrite Hd. simpl.
  erewrite bind_raise; [reflexivity|].
  erewrite bind_ok by (by apply os_listdir_run). exact Hrun.
Qed.

Lemma delete_user_remove_fails_witness :
  ∃ r w', delete_user locked_env "alice" alice_world = (Ok r, w')
          ∧ status r = "error"
          ∧ is_Some (files w' !! "alice_1.jpg")
          ∧ calls w' = calls alice_world.
Proof.
  apply (delete_user_remove_fails locked_env alice_world "alice" "alice_1.jpg"
           (Exn "Permission denied")).
  - reflexivity.
  - vm_compute. eexists. reflexivity.
  - reflexivity.
  - reflexivity.
Defined.

(** ** More on the listing *)

(** What [get_registered_users] returns, when it returns: the merge of the
    rows the database gave with the names of the files of the directory. *)
Lemma get_registered_users_inv E w listing w' :
  get_registered_users E w = (Ok listing, w') →
  ∃ l, listing = merge_users (db_users E (calls w)) l l
       ∧ ∀ f, f ∈ l ↔ is_Some (files w !! f).
Proof.
  unfold get_registered_users, bind, db_manager_get_all_users, db_call,
    os_path_exists_dir, os_listdir, in_dir, ret, record_call.
  destruct (db_fault E (calls w) db_get_all_users); [done|]. simpl.
  destruct (known_faces w) as [d|] eqn:Hd; simpl.
  - destruct (os_fault E Listdir); simpl; [done|]. rewrite ?Hd. simpl.
    rewrite ?Hd. intros [= <- _]. exists (map_to_list d).*1. split; [done|].
    intros f. unfold files. rewrite Hd. apply elem_of_listing.
  - intros [= <- _]. exists []. split; [done|].
    intros f. unfold files. rewrite Hd. simpl. rewrite lookup_empty.
    split; [by intros ?%not_elem_of_nil|by intros [? ?]].
Qed.

(** X16. Whatever the database returns and the directory holds, the listing has
    no two entries of the same name: rows of one name are merged, and a user
    found both in the database and on disk is listed once. *)
Theorem listing_names_distinct E w listing w' :
  get_registered_users E w = (Ok listing, w') →
  NoDup (u_name <$> listing).
Proof.
  intros (l & -> & _)%get_registered_users_inv.
  apply merge_users_names_distinct.
Qed.

Lemma listing_names_distinct_witness :
  NoDup (u_name <$> merge_users (db_users sample_env (calls marys_world))
                      (map_to_list (files marys_world)).*1
                      (map_to_list (files marys_world)).*1).
Proof.
  apply (listing_names_distinct sample_env marys_world _
           (record_call db_get_all_users marys_world)).
  vm_compute. reflexivity.
Defined.

Lemma from_rows_snoc rows r :
  from_rows (rows ++ [r]) = dict_set (ur_name r) (user_of_row r) (from_rows rows).
Proof. unfold from_rows. by rewrite fold_left_app. Qed.

(** Of the rows of one name, the last one is the one that is filed. *)
Lemma from_rows_last rows name r :
  last (filter (λ r, ur_name r = name) rows) = Some r →
  (name, user_of_row r) ∈ from_rows rows.
Proof.
  revert r. induction rows as [|r0 rows IH] using rev_ind; intros r; [done|].
  rewrite filter_app, from_rows_snoc.
  destruct (decide (ur_name r0 = name)) as [Hr0|Hr0].
  - rewrite filter_cons_True, filter_nil by done. rewrite last_snoc.
    intros [= <-]. rewrite <- Hr0. apply dict_set_elem.
  - rewrite filter_cons_False, filter_nil, app_nil_r by done.
    intros Hlast. apply dict_set_other; [congruence|by apply IH].
Qed.

Lemma from_rows_keys rows k u :
  (k, u) ∈ from_rows rows → k ∈ ur_name <$> rows.
Proof.
  revert k u. induction rows as [|r0 rows IH] using rev_ind; intros k u.
  - by intros ?%not_elem_of_nil.
  - rewrite from_rows_snoc, fmap_app, elem_of_app. simpl.
    intros Hin. destruct (decide (k = ur_name r0)) as [->|Hne].
    + right. by left.
    + left. apply (IH k u). clear IH.
      induction (from_rows rows) as [|[k1 v1] d IHd]; simpl in Hin.
      * apply list_elem_of_singleton in Hin. congruence.
      * destruct (decide (k1 = ur_name r0)).
        -- apply elem_of_cons in Hin as [?|?]; [congruence|by right].
        -- apply elem_of_cons in Hin as [->|?]; [by left|right; by apply IHd].
Qed.

(** The fields a dictionary entry has apart from [trained]. *)
Lemma set_trained_inv k b (d : user_dict) k' u' :
  (k', u') ∈ set_trained k b d →
  ∃ u, (k', u) ∈ d
       ∧ u_name u' = u_name u ∧ u_created_at u' = u_created_at u
       ∧ u_last_seen u' = u_last_seen u
       ∧ u_access_count u' = u_access_count u.
Proof.
  unfold set_trained. intros ([k1 u1] & Heq & Hin)%list_elem_of_fmap.
  simpl in Heq. case_decide; simplify_eq/=; by eexists.
Qed.

Lemma dict_set_inv k v (d : user_dict) k' u' :
  (k', u') ∈ dict_set k v d → (k' = k ∧ u' = v) ∨ (k', u') ∈ d.
Proof.
  induction d as [|[k1 v1] d IH]; simpl.
  - intros [= -> ->]%list_elem_of_singleton. by left.
  - case_decide.
    + intros [[= -> ->]|?]%elem_of_cons; [by left|right; by right].
    + intros [[= -> ->]|Hin]%elem_of_cons; [right; by left|].
      destruct (IH Hin) as [?|?]; [by left|right; by right].
Qed.

Section Metadata.

Context (encs : list string).

Lemma scan_file_keeps_metadata d file name u :
  (name, u) ∈ d →
  ∃ u', (name, u') ∈ scan_file encs d file
        ∧ u_name u' = u_name u ∧ u_created_at u' = u_created_at u
        ∧ u_last_seen u' = u_last_seen u
        ∧ u_access_count u' = u_access_count u.
Proof.
  intros Hin.
  destruct (scan_file_cases encs d file) as [->|(k & b & _ & [[Hk ->]|[Hk ->]])].
  - by exists u.
  - destruct (decide (name = k)) as [->|Hne].
    + destruct (set_trained_elem k b d u Hin) as (u' & ? & ? & _ & ? & ? & ?).
      by exists u'.
    + exists u. split; [|done]. by apply set_trained_other.
  - exists u. split; [|done]. apply dict_set_other; [|done].
    intros ->. apply not_true_iff_false in Hk. apply Hk.
    apply dict_has_true. by exists u.
Qed.

Lemma scan_files_keep_metadata l : ∀ d name u,
  (name, u) ∈ d →
  ∃ u', (name, u') ∈ fold_left (scan_file encs) l d
        ∧ u_name u' = u_name u ∧ u_created_at u' = u_created_at u
        ∧ u_last_seen u' = u_last_seen u
        ∧ u_access_count u' = u_access_count u.
Proof.
  induction l as [|f l IH]; intros d name u Hin; simpl; [by exists u|].
  destruct (scan_file_keeps_metadata d f name u Hin)
    as (u1 & Hin1 & Hn1 & Hc1 & Hl1 & Ha1).
  destruct (IH _ _ _ Hin1) as (u2 & Hin2 & Hn2 & Hc2 & Hl2 & Ha2).
  exists u2. split; [done|]. by rewrite Hn2, Hc2, Hl2, Ha2.
Qed.

End Metadata.

Lemma elem_of_values_inv (d : user_dict) u : u ∈ d.*2 → ∃ k, (k, u) ∈ d.
Proof. intros ([k u'] & -> & Hin)%list_elem_of_fmap. by exists k. Qed.

(** X17. Every user of the database is listed, with the [created_at], the
    [last_seen] and the [access_count] of the last row of that name,
    whatever files the directory holds. *)
Theorem listing_keeps_database_rows E w listing w' name r :
  get_registered_users E w = (Ok listing, w') →
  last (filter (λ r, ur_name r = name) (db_users E (calls w))) = Some r →
  ∃ u, u ∈ listing
       ∧ u_name u = name
       ∧ u_created_at u = ur_created_at r
       ∧ u_last_seen u = ur_last_seen r
       ∧ u_access_count u = ur_access_count r.
Proof.
  intros (l & -> & _)%get_registered_users_inv Hlast.
  pose proof (from_rows_last _ _ _ Hlast) as Hrow.
  destruct (scan_files_keep_metadata
              (List.filter (Py.endswith "_encoding.npy") l) l _ _ _ Hrow)
    as (u & Hin & Hn & Hc & Hl & Ha).
  exists u. split; [|split_and!; try done].
  - unfold merge_users. apply list_elem_of_fmap. by exists (name, u).
  - rewrite Hn. simpl.
    by apply last_Some_elem_of, list_elem_of_filter in Hlast as [? _].
Qed.

Lemma listing_keeps_database_rows_witness :
  ∃ u, u ∈ merge_users (db_users sample_env (calls marys_world))
             (map_to_list (files marys_world)).*1
             (map_to_list (files marys_world)).*1
       ∧ u_name u = "mary"
       ∧ u_created_at u = Some "2024-01-01 00:00:00"
       ∧ u_last_seen u = None
       ∧ u_access_count u = 0%Z.
Proof.
  apply (listing_keeps_database_rows sample_env marys_world _
           (record_call db_get_all_users marys_world) "mary"
           {| ur_id := 1; ur_name := "mary";
              ur_created_at := Some "2024-01-01 00:00:00";
              ur_last_seen := None; ur_access_count := 0 |}).
  - vm_compute. reflexivity.
  - vm_compute. reflexivity.
Defined.

Lemma scan_files_from_database_or_bare encs names l : ∀ d,
  from_database_or_bare names d →
  from_database_or_bare names (fold_left (scan_file encs) l d).
Proof.
  induction l as [|f l IH]; intros d Hd; simpl; [done|]. apply IH.
  destruct (scan_file_cases encs d f) as [->|(k & b & _ & [[_ ->]|[_ ->]])].
  - done.
  - intros k' u' (u & Hin & _ & -> & -> & ->)%set_trained_inv.
    by apply (Hd k' u).
  - intros k' u' [[-> ->]|Hin]%dict_set_inv; [by right|by apply (Hd k' u')].
Qed.

(** X18. A listed user that has no row in the database has no [created_at], no
    [last_seen] and an [access_count] of 0. *)
Theorem listing_bare_entries E w listing w' u :
  get_registered_users E w = (Ok listing, w') →
  u ∈ listing →
  u_name u ∉ ur_name <$> db_users E (calls w) →
  u_created_at u = None ∧ u_last_seen u = None ∧ u_access_count u = 0%Z.
Proof.
  intros (l & -> & _)%get_registered_users_inv Hu Hname.
  unfold merge_users in Hu. apply elem_of_values_inv in Hu as [k Hk].
  assert (u_name u = k) as Hn.
  { eapply named_scan_files; [|exact Hk]. apply named_from_rows. }
  destruct (scan_files_from_database_or_bare
              (List.filter (Py.endswith "_encoding.npy") l)
              (ur_name <$> db_users E (calls w)) l (from_rows _)
              ltac:(intros k' u' Hin; left; by eapply from_rows_keys)
              k u Hk) as [?|?]; [|done].
  by subst.
Qed.

Lemma listing_bare_entries_witness :
  u_created_at (user_of_file "a" true) = None
  ∧ u_last_seen (user_of_file "a" true) = None
  ∧ u_access_count (user_of_file "a" true) = 0%Z.
Proof.
  apply (listing_bare_entries sample_env stray_encoding
           [user_of_file "a" true]
           (record_call db_get_all_users stray_encoding)).
  - vm_compute. reflexivity.
  - apply list_elem_of_singleton. reflexivity.
  - vm_compute. intros H. inversion H.
Defined.

(** *** Encoding files of names without [_encoding.npy] *)

Lemma str_app_nil_r s : s +:+ "" = s.
Proof. induction s as [|a s IH]; [done|]. by rewrite str_app_cons, IH. Qed.

Lemma str_length_app s t :
  String.length (s +:+ t) = String.length s + String.length t.
Proof. induction s as [|a s IH]; [done|]. rewrite str_app_cons. simpl. lia. Qed.

(** No proper suffix of the marker starts it again: an occurrence cannot
    begin in the name and end in the marker that follows it. *)
Lemma prefix_tail_app t : ∀ q,
  q ∈ tails "_encoding.npy" → String.prefix q t = false →
  String.prefix q (t +:+ "_encoding.npy") = false.
Proof.
  induction t as [|c t IH]; intros q Hq Hp.
  - rewrite str_app_nil_l. simpl in Hq.
    repeat (apply elem_of_cons in Hq as [->|Hq]; [by vm_compute|]).
    by apply not_elem_of_nil in Hq.
  - rewrite str_app_cons. simpl in Hq.
    repeat (apply elem_of_cons in Hq as [->|Hq];
      [ cbn [String.prefix] in Hp |- *; destruct (ascii_dec _ c); [|done];
        first [ done
              | by destruct t
              | apply IH; [|done]; simpl; apply list_elem_of_In; simpl; tauto ]
      |]).
    by apply not_elem_of_nil in Hq.
Qed.

(** Line 247 gives back a name in which [_encoding.npy] does not occur. *)
Lemma replace_encoding_file name :
  occurs "_encoding.npy" name = false →
  Py.replace "_encoding.npy" "" (encoding_file name) = name.
Proof.
  unfold Py.replace, encoding_file.
  induction name as [|a s IH]; intros Hocc; [reflexivity|].
  cbn [occurs] in Hocc. apply orb_false_iff in Hocc as [Hpre Hs].
  assert (String.prefix "_encoding.npy" (String a (s +:+ "_encoding.npy")) = false)
    as Hno.
  { cbn [String.prefix] in Hpre |- *. destruct (ascii_dec "_" a); [|done].
    apply prefix_tail_app; [|done]. simpl. by left. }
  rewrite str_app_cons. cbn [Py.replace_go]. rewrite Hno.
  by rewrite IH.
Qed.

Lemma endswith_jpg_encoding_file name :
  Py.endswith ".jpg" (encoding_file name) = false.
Proof.
  unfold encoding_file. induction name as [|a s IH]; [reflexivity|].
  rewrite str_app_cons. cbn [Py.endswith]. rewrite IH, orb_false_r.
  apply String.eqb_neq. intros H.
  apply (f_equal String.length) in H. simpl in H.
  rewrite str_length_app in H. simpl in H. lia.
Qed.

(** The turn of the loop on [<name>_encoding.npy] files the name as trained. *)
Lemma scan_encoding_file encs d name :
  named d → occurs "_encoding.npy" name = false →
  ∃ u, (name, u) ∈ scan_file encs d (encoding_file name)
       ∧ u_name u = name ∧ u_trained u = true.
Proof.
  intros Hd Hocc. unfold scan_file.
  rewrite endswith_jpg_encoding_file. simpl.
  assert (Py.endswith "_encoding.npy" (encoding_file name) = true) as ->
    by apply endswith_app.
  rewrite replace_encoding_file by done.
  destruct (dict_has name d) eqn:Hk; simpl.
  - apply dict_has_true in Hk as [u Hu].
    destruct (set_trained_elem name true d u Hu) as (u' & ? & Hn & Ht & _).
    exists u'. by rewrite Hn, (Hd _ _ Hu).
  - eexists. split; [apply dict_set_elem|done].
Qed.

Lemma scan_files_list_encoding encs l : ∀ d name,
  named d → occurs "_encoding.npy" name = false →
  encoding_file name ∈ encs → encoding_file name ∈ l →
  ∃ u, (name, u) ∈ fold_left (scan_file encs) l d
       ∧ u_name u = name ∧ u_trained u = true.
Proof.
  induction l as [|f l IH]; intros d name Hd Hocc Henc Hin; simpl.
  - by apply not_elem_of_nil in Hin.
  - apply elem_of_cons in Hin as [<-|Hin].
    + destruct (scan_encoding_file encs d name Hd Hocc) as (u & Hu & Hn & Ht).
      by apply (scan_files_keep_trained encs l _ name u).
    + apply IH; try done. by apply named_scan_file.
Qed.

(** X19. A user whose name does not contain [_encoding.npy] and whose encoding
    file [<name>_encoding.npy] is in the directory is listed as trained,
    whether or not the database has a row of that name and whatever other
    files there are. *)
Theorem listing_trained_by_encoding E w listing w' name :
  get_registered_users E w = (Ok listing, w') →
  occurs "_encoding.npy" name = false →
  is_Some (files w !! encoding_file name) →
  ∃ u, u ∈ listing ∧ u_name u = name ∧ u_trained u = true.
Proof.
  intros (l & -> & Hl)%get_registered_users_inv Hocc Hf.
  apply Hl in Hf.
  destruct (scan_files_list_encoding
              (List.filter (Py.endswith "_encoding.npy") l) l
              (from_rows (db_users E (calls w))) name)
    as (u & Hu & Hn & Ht); try done.
  - apply named_from_rows.
  - apply list_elem_of_In, filter_In. split; [by apply list_elem_of_In|].
    apply endswith_app.
  - exists u. split; [|done]. unfold merge_users.
    apply list_elem_of_fmap. by exists (name, u).
Qed.

Lemma listing_trained_by_encoding_witness :
  ∃ u, u ∈ merge_users (db_users sample_env (calls marys_world))
             (map_to_list (files marys_world)).*1
             (map_to_list (files marys_world)).*1
       ∧ u_name u = "mary_ann" ∧ u_trained u = true.
Proof.
  apply (listing_trained_by_encoding sample_env marys_world _
           (record_call db_get_all_users marys_world) "mary_ann").
  - vm_compute. reflexivity.
  - reflexivity.
  - vm_compute. eexists. reflexivity.
Defined.

(** *** The name of a registered user *)

(** The listing of a world whose database returns a row of [name]. *)
Lemma listed_by_database E w name listing w' :
  no_faults E →
  get_registered_users E w = (Ok listing, w') →
  name ∈ ur_name <$> db_users E (calls w) →
  name ∈ u_name <$> listing.
Proof.
  intros HE Hrun Hrow. rewrite get_registered_users_run in Hrun by done.
  injection Hrun as <- _.
  apply from_rows_has in Hrow as [u Hu].
  pose proof (named_from_rows _ _ _ Hu) as Hn.
  destruct (known_faces w) as [d|].
  - unfold merge_users.
    destruct (scan_files_keep
                (List.filter (Py.endswith "_encoding.npy") (map_to_list d).*1)
                (map_to_list d).*1 _ name u Hu Hn) as (u' & Hu' & Hn').
    by apply (elem_of_values _ name u').
  - by apply (elem_of_values _ name u).
Qed.

(** X24. For every username, with or without underscores, the rule of the
    listing (split at [_], join all but the last part) gives the name back
    from [<name>_1.jpg], the file name under which a registration writes the
    image.  In normal operation, after a
    registration that succeeded, that file exists; when the name has no [/]
    it is an entry of the directory, and the listing shows the name as a
    trained user, whatever the database returns, through that file when the
    name does not start with a dot (line 224 skips hidden files) and through
    the encoding when [_encoding.npy] does not occur in the name (line 247
    removes every occurrence).  The listing shows any name of which the
    database returns a row. *)
Theorem registered_name_round_trip :
  (∀ name, Py.join "_" (Py.but_last (Py.split "_" (image_file name))) = name)
  ∧ ∀ E w name image payload image_bytes image_array encoding others,
      no_faults E →
      name ≠ "" → has_no_file name w →
      image ≠ "" → strip_data_url image = Some payload →
      b64decode E payload = Ok image_bytes →
      image_open E (Bytes image_bytes) = Ok image_array →
      face_encodings E image_array = Ok (encoding :: others) →
      ∃ r w' listing w'',
        register_user E (Some name) (Some image) w = (Ok r, w')
        ∧ status r = "success"
        ∧ is_Some (lookup_path E w' (image_file name))
        ∧ get_registered_users E w' = (Ok listing, w'')
        ∧ (plain name = true →
           files w' !! image_file name = Some (Bytes image_bytes)
           ∧ (Py.startswith "." name = false
              ∨ occurs "_encoding.npy" name = false →
              ∃ u, u ∈ listing ∧ u_name u = name ∧ u_trained u = true))
        ∧ (name ∈ ur_name <$> db_users E (calls w') →
           name ∈ u_name <$> listing).
Proof.
  split; [apply parse_image_file|].
  intros E w name image payload image_bytes image_array encoding others
    HE Hname Hno Himage Hurl Hdec Hopen Hfaces.
  eexists _, _, _, _. split; [eapply register_user_run_at; eassumption|].
  split; [done|]. split; [apply registered_image|].
  split; [by apply get_registered_users_run|].
  split.
  2:{ intros Hrow. eapply listed_by_database; [done| |done].
      by apply get_registered_users_run. }
  intros Hplain.
  destruct (registered_plain_files E name image_bytes image_array encoding w
              Hplain Hno) as (Hk & _ & Hi & He & _).
  split; [done|]. intros Hshown.
  rewrite Hk. unfold merge_users.
  set (d := <[encoding_file name:=Npy encoding]>
              (<[image_file name:=Bytes image_bytes]> (files w))).
  set (l := (map_to_list d).*1).
  set (encs := List.filter (Py.endswith "_encoding.npy") l).
  assert (encoding_file name ∈ encs) as Henc.
  { apply list_elem_of_In, filter_In. split; [|apply endswith_app].
    apply list_elem_of_In, elem_of_listing. unfold d.
    rewrite lookup_insert_eq. by eexists. }
  assert (image_file name ∈ l) as Himg.
  { apply elem_of_listing. unfold d.
    rewrite lookup_insert_ne, lookup_insert_eq; [by eexists|].
    intros H. by apply (image_file_ne_encoding_file name). }
  assert (encoding_file name ∈ l) as Hnpy.
  { apply elem_of_listing. unfold d. rewrite lookup_insert_eq. by eexists. }
  assert (∃ u, (name, u) ∈ fold_left (scan_file encs) l (from_rows (db_users E
            (calls (registered E name image_bytes image_array encoding w))))
          ∧ u_name u = name ∧ u_trained u = true) as (u & Hu & Hn & Ht).
  { destruct Hshown as [Hdot|Hocc].
    - apply scan_files_list_image; try done. apply named_from_rows.
    - apply scan_files_list_encoding; try done. apply named_from_rows. }
  exists u. split_and!; try done. by apply (elem_of_values _ name).
Qed.

Lemma registered_name_round_trip_witness :
  Py.join "_" (Py.but_last (Py.split "_" (image_file "mary_ann"))) = "mary_ann"
  ∧ ∃ r w' listing w'',
      register_user sample_env (Some "mary_ann") (Some "Zg==") alice_world = (Ok r, w')
      ∧ status r = "success"
      ∧ files w' !! image_file "mary_ann" = Some (Bytes "f")
      ∧ get_registered_users sample_env w' = (Ok listing, w'')
      ∧ (∃ u, u ∈ listing ∧ u_name u = "mary_ann" ∧ u_trained u = true)
      ∧ "mary_ann" ∈ u_name <$> listing.
Proof.
  destruct registered_name_round_trip as [Hparse Hlist].
  split; [apply Hparse|].
  assert (no_faults sample_env) as HE by (split; reflexivity).
  assert (has_no_file "mary_ann" alice_world) as Hno by (vm_compute; reflexivity).
  destruct (Hlist sample_env alice_world "mary_ann" "Zg==" "Zg==" "f" [102%Z] [102%Z] []
              HE ltac:(discriminate) Hno ltac:(discriminate)
              eq_refl eq_refl eq_refl eq_refl)
    as (r & w' & listing & w'' & Hrun & Hs & _ & Hget & Hfile & Hdb).
  destruct (Hfile eq_refl) as [Hf Hshown].
  exists r, w', listing, w''.
  do 4 (split; [assumption|]). split.
  - apply Hshown. left. reflexivity.
  - apply Hdb. vm_compute in Hrun. injection Hrun as _ <-. vm_compute.
    apply list_elem_of_In. right. left. reflexivity.
Defined.


(** *** Users without files *)

Lemma join_snoc sep init x :
  init ≠ [] → Py.join sep (init ++ [x]) = Py.join sep init +:+ sep +:+ x.
Proof.
  unfold Py.join. induction init as [|p init IH]; [done|]. intros _.
  destruct init as [|p' init].
  - reflexivity.
  - change (String.concat sep ((p :: p' :: init) ++ [x]))
      with (p +:+ sep +:+ String.concat sep ((p' :: init) ++ [x])).
    rewrite IH by done.
    change (String.concat sep (p :: p' :: init))
      with (p +:+ sep +:+ String.concat sep (p' :: init)).
    by rewrite !str_app_assoc.
Qed.

(** A file that the rule of lines 226-228 gives to [name] starts with
    [<name>_]. *)
Lemma parsed_image_belongs_to name file :
  Py.endswith ".jpg" file = true →
  (2 <=? length (Py.split "_" file))%nat = true →
  Py.join "_" (Py.but_last (Py.split "_" file)) = name →
  belongs_to name file = true.
Proof.
  intros Hjpg Hlen Hname. apply Nat.leb_le in Hlen.
  pose proof (join_split "_" file) as Hfile.
  destruct (exists_last (split_nonempty "_" file)) as (init & x & Hparts).
  rewrite Hparts in Hlen, Hname, Hfile.
  unfold Py.but_last in Hname. rewrite removelast_last in Hname.
  rewrite join_snoc, Hname in Hfile.
  2:{ intros ->. simpl in Hlen. lia. }
  unfold belongs_to. rewrite Hjpg. rewrite <- Hfile at 1.
  change (name +:+ "_" +:+ x) with (name +:+ ("_" +:+ x)).
  assert (name +:+ "_" +:+ x = (name +:+ "_") +:+ x) as ->
    by (by rewrite str_app_assoc).
  by rewrite startswith_app.
Qed.

(** One turn of the loop leaves alone the entry of a name to which the file
    does not belong. *)
Lemma scan_file_other encs d file name u :
  belongs_to name file = false →
  (Py.endswith "_encoding.npy" file = true →
   ∃ stem, file = encoding_file stem ∧ occurs "_encoding.npy" stem = false) →
  (name, u) ∈ d → (name, u) ∈ scan_file encs d file.
Proof.
  intros Hb Hplain Hin. unfold scan_file.
  destruct (Py.endswith ".jpg" file && Py.contains "_" file
            && negb (Py.startswith "." file)) eqn:Hcond.
  - apply andb_true_iff in Hcond as [[Hjpg _]%andb_true_iff _].
    destruct (2 <=? length (Py.split "_" file))%nat eqn:Hlen; [|done].
    assert (Py.join "_" (Py.but_last (Py.split "_" file)) ≠ name) as Hne.
    { intros Hname. by rewrite (parsed_image_belongs_to name file) in Hb. }
    destruct (dict_has _ d).
    + by apply set_trained_other.
    + by apply dict_set_other.
  - destruct (Py.endswith "_encoding.npy" file) eqn:Hnpy; [|done].
    destruct (Hplain eq_refl) as (stem & -> & Hocc).
    rewrite replace_encoding_file by done.
    assert (stem ≠ name) as Hne.
    { intros ->. by rewrite belongs_to_encoding_file in Hb. }
    destruct (dict_has stem d); simpl.
    + by apply set_trained_other.
    + by apply dict_set_other.
Qed.

(** X20. A user of the database that has no file in the directory is listed as
    not trained, with the fields of its last row, provided no encoding file
    of the directory has [_encoding.npy] twice in its name. *)
Theorem listing_untrained_without_files E w listing w' name r :
  get_registered_users E w = (Ok listing, w') →
  last (filter (λ r, ur_name r = name) (db_users E (calls w))) = Some r →
  has_no_file name w → plain_encodings w →
  {| u_name := name; u_trained := false;
     u_created_at := ur_created_at r; u_last_seen := ur_last_seen r;
     u_access_count := ur_access_count r |} ∈ listing.
Proof.
  intros (l & -> & Hl)%get_registered_users_inv Hlast Hno Hplain.
  assert (ur_name r = name) as Hr
    by (by apply last_Some_elem_of, list_elem_of_filter in Hlast as [? _]).
  apply from_rows_last in Hlast.
  unfold merge_users. apply list_elem_of_fmap. exists (name, user_of_row r).
  split; [unfold user_of_row; by rewrite Hr|].
  assert (∀ f, f ∈ l → is_Some (files w !! f)) as Hfiles by (intros f; apply Hl).
  clear Hl. revert Hlast Hfiles.
  generalize (List.filter (Py.endswith "_encoding.npy") l) as encs.
  generalize (from_rows (db_users E (calls w))) as d.
  induction l as [|f l IH]; intros d encs Hin Hfiles; simpl; [done|].
  apply IH; [|intros g Hg; apply Hfiles; by right].
  apply scan_file_other; [| |done].
  - apply (has_no_file_elim name w Hno), Hfiles. by left.
  - apply Hplain, Hfiles. by left.
Qed.

Lemma listing_untrained_without_files_witness :
  {| u_name := "bob"; u_trained := false;
     u_created_at := Some "2024-01-01 00:00:00"; u_last_seen := None;
     u_access_count := 0 |}
  ∈ merge_users (db_users sample_env (calls bob_in_database))
      (map_to_list (files bob_in_database)).*1
      (map_to_list (files bob_in_database)).*1.
Proof.
  apply (listing_untrained_without_files sample_env bob_in_database _
           (record_call db_get_all_users bob_in_database) "bob"
           {| ur_id := 2; ur_name := "bob";
              ur_created_at := Some "2024-01-01 00:00:00";
              ur_last_seen := None; ur_access_count := 0 |}).
  - vm_compute. reflexivity.
  - vm_compute. reflexivity.
  - vm_compute. reflexivity.
  - intros f [c Hc] Hend. unfold files, bob_in_database, alice_world in Hc.
    simpl in Hc.
    apply lookup_insert_Some in Hc as [[<- _]|[_ Hc]].
    { vm_compute in Hend. discriminate Hend. }
    apply lookup_insert_Some in Hc as [[<- _]|[_ Hc]].
    { exists "alice". split; reflexivity. }
    rewrite lookup_empty in Hc. discriminate.
Defined.

(** ** A name added first and registered later *)

(** X21. In normal operation a name without [/] added with [POST /add_user] can
    afterwards be registered with a face: the addition leaves no file, so
    the registration is not refused, it writes the image and the encoding to
    the directory, and it calls [db_manager.add_user] for the name a second
    time. *)
Theorem add_then_register
    E w name image payload image_bytes image_array encoding others :
  no_faults E →
  name ≠ "" → plain name = true → has_no_file name w →
  image ≠ "" → strip_data_url image = Some payload →
  b64decode E payload = Ok image_bytes →
  image_open E (Bytes image_bytes) = Ok image_array →
  face_encodings E image_array = Ok (encoding :: others) →
  ∃ r1 w1 r2 w2,
    add_user E (Some name) w = (Ok r1, w1)
    ∧ status r1 = "success"
    ∧ register_user E (Some name) (Some image) w1 = (Ok r2, w2)
    ∧ status r2 = "success"
    ∧ calls w2 = calls w ++ [db_add_user name;
                             face_recognition_face_encodings image_array;
                             db_add_user name]
    ∧ known_faces w2 =
        Some (<[encoding_file name := Npy encoding]>
                (<[image_file name := Bytes image_bytes]> (files w))).
Proof.
  intros HE Hname Hplain Hno Himage Hurl Hdec Hopen Hfaces.
  eexists _, _, _, _. split; [by apply add_user_run|]. split; [done|].
  split; [eapply register_user_run; try eassumption; exact Hno|].
  split; [done|]. simpl. split; [|done]. by rewrite <- !app_assoc.
Qed.

Lemma add_then_register_witness :
  ∃ r1 w1 r2 w2,
    add_user sample_env (Some "bob") alice_world = (Ok r1, w1)
    ∧ status r1 = "success"
    ∧ register_user sample_env (Some "bob") (Some "Zg==") w1 = (Ok r2, w2)
    ∧ status r2 = "success"
    ∧ calls w2 = calls alice_world
                 ++ [db_add_user "bob"; face_recognition_face_encodings [102%Z];
                     db_add_user "bob"]
    ∧ known_faces w2 =
        Some (<[encoding_file "bob" := Npy [102%Z]]>
                (<[image_file "bob" := Bytes "f"]> (files alice_world))).
Proof.
  apply (add_then_register sample_env alice_world "bob" "Zg==" "Zg==" "f"
           [102%Z] [102%Z] []).
  - split; reflexivity.
  - discriminate.
  - reflexivity.
  - vm_compute. reflexivity.
  - discriminate.
  - reflexivity.
  - reflexivity.
  - reflexivity.
  - reflexivity.
Defined.

(** ** Names that lead out of the directory, or back into it *)

Lemma has_no_file_same_files name w w' :
  files w' = files w → has_no_file name w → has_no_file name w'.
Proof. unfold has_no_file, files_of. by intros ->. Qed.

(** X22. The name is not checked before it is made into a path.  In normal
    operation, when the paths of the image and of the encoding of a name
    lead out of the directory (as for [../x]), the registration succeeds and
    writes both files there; the directory holds what it held, so
    [os.listdir] does not show the name as taken and a second registration
    of the same name succeeds as well, calling [db_manager.add_user] a
    second time. *)
Theorem register_user_outside_directory
    E w name image payload image_bytes image_array encoding others p1 p2 :
  no_faults E →
  name ≠ "" → has_no_file name w →
  image ≠ "" → strip_data_url image = Some payload →
  b64decode E payload = Ok image_bytes →
  image_open E (Bytes image_bytes) = Ok image_array →
  face_encodings E image_array = Ok (encoding :: others) →
  place E (image_file name) = Elsewhere p1 →
  place E (encoding_file name) = Elsewhere p2 →
  ∃ r1 w1 r2 w2,
    register_user E (Some name) (Some image) w = (Ok r1, w1)
    ∧ status r1 = "success"
    ∧ known_faces w1 = Some (files w)
    ∧ elsewhere w1
      = <[p2 := Npy encoding]> (<[p1 := Bytes image_bytes]> (elsewhere w))
    ∧ has_no_file name w1
    ∧ register_user E (Some name) (Some image) w1 = (Ok r2, w2)
    ∧ status r2 = "success"
    ∧ known_faces w2 = Some (files w)
    ∧ db_calls w2 = db_calls w ++ [db_add_user name; db_add_user name].
Proof.
  intros HE Hname Hno Himage Hurl Hdec Hopen Hfaces Hp1 Hp2.
  assert (∀ w0, known_faces (registered E name image_bytes image_array encoding w0)
                = Some (files w0)
              ∧ elsewhere (registered E name image_bytes image_array encoding w0)
                = <[p2 := Npy encoding]>
                    (<[p1 := Bytes image_bytes]> (elsewhere w0))) as Hreg.
  { intros w0. unfold registered. by rewrite Hp1, Hp2. }
  assert (has_no_file name (registered E name image_bytes image_array encoding w))
    as Hno1.
  { apply (has_no_file_same_files name w); [|done].
    unfold files at 1. by rewrite (proj1 (Hreg w)). }
  eexists _, _, _, _. split; [eapply register_user_run_at; eassumption|].
  split; [done|]. split; [apply Hreg|]. split; [apply Hreg|].
  split; [done|].
  split; [eapply register_user_run_at; eassumption|].
  split; [done|]. split.
  - rewrite (proj1 (Hreg _)). unfold files at 1. by rewrite (proj1 (Hreg w)).
  - rewrite (proj2 (registered_calls _ _ _ _ _ _)).
    rewrite (proj2 (registered_calls _ _ _ _ _ _)).
    by rewrite <- app_assoc.
Qed.

Lemma register_user_outside_directory_witness :
  ∃ r1 w1 r2 w2,
    register_user sample_env (Some "../x") (Some "Zg==") alice_world = (Ok r1, w1)
    ∧ status r1 = "success"
    ∧ known_faces w1 = Some (files alice_world)
    ∧ elsewhere w1
      = <["../x_encoding.npy" := Npy [102%Z]]>
          (<["../x_1.jpg" := Bytes "f"]> (elsewhere alice_world))
    ∧ has_no_file "../x" w1
    ∧ register_user sample_env (Some "../x") (Some "Zg==") w1 = (Ok r2, w2)
    ∧ status r2 = "success"
    ∧ known_faces w2 = Some (files alice_world)
    ∧ db_calls w2
      = db_calls alice_world ++ [db_add_user "../x"; db_add_user "../x"].
Proof.
  apply (register_user_outside_directory sample_env alice_world "../x" "Zg==" "Zg=="
           "f" [102%Z] [102%Z] [] "../x_1.jpg" "../x_encoding.npy").
  - split; reflexivity.
  - discriminate.
  - vm_compute. reflexivity.
  - discriminate.
  - reflexivity.
  - reflexivity.
  - reflexivity.
  - reflexivity.
  - reflexivity.
  - reflexivity.
Defined.

(** X23. In normal operation, when the path of the image of a name leads back
    into the directory onto an entry [f] (as [../known_faces/alice] leads
    onto [alice_1.jpg]), no file of the directory passes the test of line 65
    for the name, so the request is not refused: it overwrites [f], and when
    the encoder finds no face the rollback of lines 90-91 removes it.  The
    reply has status [error], the entry [f] is gone, every other entry is as
    it was. *)
Theorem register_user_removes_other_entry
    E w name image payload image_bytes image_array f :
  no_faults E →
  name ≠ "" → has_no_file name w →
  image ≠ "" → strip_data_url image = Some payload →
  b64decode E payload = Ok image_bytes →
  image_open E (Bytes image_bytes) = Ok image_array →
  face_encodings E image_array = Ok [] →
  place E (image_file name) = Entry f →
  ∃ r w', register_user E (Some name) (Some image) w = (Ok r, w')
    ∧ status r = "error"
    ∧ known_faces w' = Some (delete f (files w))
    ∧ files w' !! f = None
    ∧ (∀ g, g ≠ f → files w' !! g = files w !! g)
    ∧ elsewhere w' = elsewhere w
    ∧ db_calls w' = db_calls w.
Proof.
  intros HE Hname Hno Himage Hurl Hdec Hopen Hfaces Hp.
  eexists _, _. split; [eapply register_user_no_face_run; eassumption|].
  rewrite Hp. split; [done|].
  assert (known_faces (unlink (Entry f)
            (record_call (face_recognition_face_encodings image_array)
               (put (Entry f) (Bytes image_bytes) (with_dir w (files w)))))
          = Some (delete f (files w))) as Hk.
  { simpl. unfold files at 1. simpl. by rewrite delete_insert_eq. }
  split; [done|]. unfold files at 1 3. rewrite Hk. simpl. split_and!.
  - apply lookup_delete_eq.
  - intros g Hg. by apply lookup_delete_ne.
  - done.
  - unfold db_calls. simpl. rewrite List.filter_app. simpl. apply app_nil_r.
Qed.

Lemma register_user_removes_other_entry_witness :
  has_no_file "../known_faces/alice" alice_world
  ∧ files alice_world !! "alice_1.jpg" = Some (Bytes "ff")
  ∧ ∃ r w', register_user alias_env (Some "../known_faces/alice")
              (Some pixel_b64) alice_world = (Ok r, w')
    ∧ status r = "error"
    ∧ known_faces w' = Some (delete "alice_1.jpg" (files alice_world))
    ∧ files w' !! "alice_1.jpg" = None
    ∧ (∀ g, g ≠ "alice_1.jpg" → files w' !! g = files alice_world !! g)
    ∧ elsewhere w' = elsewhere alice_world
    ∧ db_calls w' = db_calls alice_world.
Proof.
  assert (has_no_file "../known_faces/alice" alice_world) as Hno
    by (vm_compute; reflexivity).
  split; [exact Hno|]. split; [vm_compute; reflexivity|].
  apply (register_user_removes_other_entry alias_env alice_world
           "../known_faces/alice" pixel_b64 pixel_b64 pixel_gif
           [0%Z; 0%Z; 0%Z] "alice_1.jpg").
  - split; reflexivity.
  - discriminate.
  - exact Hno.
  - discriminate.
  - reflexivity.
  - vm_compute. reflexivity.
  - vm_compute. reflexivity.
  - reflexivity.
  - vm_compute. reflexivity.
Defined.
